(** * Oracular: a shallow embedding of the oracle engine

    The development follows the subsystems of the repository: the
    Ethereum transaction manager ([Eth], from
    [backend/blockchain/eth_service.py]), the source adapters
    ([Adapter], from [backend/adapters/data_source_adapter.py]), the
    aggregator and update cycle ([Oracle], from
    [backend/services/oracle_service.py]), the validation pipeline
    ([Validation], from [backend/validation/validation_service.py]) and
    the task scheduler ([Scheduler], from
    [backend/scheduler/task_scheduler.py]).  They are followed by the
    smaller classes of these files: the circuit breaker of the update
    cycle ([Breaker]) and the tasks of one cycle that share it
    ([Gather]), the rate limiter, the retry loop and the token handler
    of the adapters ([Limiter], [Retry], [Auth]), the maintenance
    windows of the scheduler ([Maintenance]) and the keys and rules of
    the validation service ([ValidationConfig]).

    Conventions.
    - A Python [float] that carries a measured value is idealised as a
      real number ([R]); division is the Python one and raises
      [ZeroDivisionError] on a zero divisor.  The one product of an
      integer and a float, the bumped gas price of a replacement, is
      computed on binary64 numbers ([SpecFloat]).
    - Clock readings ([time.time()], [loop.time()]) are rationals; a
      naive [datetime] is its number of microseconds since the epoch
      ([Z]).
    - A raising computation returns [Raise e]; a method that mutates
      [self] returns the new object next to its result.
    - A [dict] that the code iterates over is an insertion-ordered
      association list; a [dict] that is only looked up is a [gmap]. *)

From Stdlib Require Import ZArith QArith Qminmax Reals Lra Lia Ascii.
From Stdlib Require Lqa Qpower SpecFloat.
From stdpp Require Import base option list gmap strings.

Local Open Scope Z_scope.

(** ** Python exceptions and results *)

Inductive ExnClass :=
| ValueError
| ZeroDivisionError
| StatisticsError
| TypeError
| AttributeError
| NameError
| TransactionNotFound
| InvalidSignature
| Exception_.

Record PyExn := mkExn { exn_class : ExnClass; exn_msg : string }.

(** [str(e)] *)
Definition str (e : PyExn) : string := exn_msg e.

Inductive result (A : Type) :=
| Ok (a : A)
| Raise (e : PyExn).
Arguments Ok {A} a.
Arguments Raise {A} e.

(** The error monad, with stdpp's [x ← r; k] notation. *)
#[export] Instance result_ret : MRet result := fun A a => Ok a.
#[export] Instance result_bind : MBind result := fun A B k r =>
  match r with
  | Ok a => k a
  | Raise e => Raise e
  end.

(** ** Insertion-ordered dictionaries

    [d[k] = v] keeps the position of an existing key and appends a new
    one, as a Python [dict] does. *)

Section PyDict.
Context {K V : Type} `{EqDecision K}.

Fixpoint dict_get (k : K) (d : list (K * V)) : option V :=
  match d with
  | [] => None
  | (k', v) :: d' => if decide (k = k') then Some v else dict_get k d'
  end.

Fixpoint dict_set (k : K) (v : V) (d : list (K * V)) : list (K * V) :=
  match d with
  | [] => [(k, v)]
  | (k', v') :: d' =>
      if decide (k = k') then (k, v) :: d' else (k', v') :: dict_set k v d'
  end.

Definition dict_values (d : list (K * V)) : list V := map snd d.
End PyDict.

(** ** The Ethereum transaction manager *)

Module Eth.

Inductive NetworkType := MAINNET | TESTNET | PRIVATE.

Definition Address := string.
Definition HexStr := string.
Definition Wei := Z.

Record NetworkConfig := {
  rpc_url : string;
  chain_id : Z;
  network_type : NetworkType;
  block_time : Z;
  required_confirmations : Z;
  max_gas_price : Wei;
  priority_fee : Wei
}.

Inductive TransactionStatus := PENDING | CONFIRMED | FAILED | STUCK.

#[export] Instance TransactionStatus_eq_dec : EqDecision TransactionStatus.
Proof. solve_decision. Defined.

(** The fields of [EthereumService] that the transaction manager reads
    and writes.  No monitor is attached ([monitor = None]), so the
    metric calls of the source are not part of the model. *)
Record EthereumService := {
  config : NetworkConfig;
  account : option Address;
  _nonce_cache : gmap Address (Z * Q);
  _pending_transactions : list (HexStr * TransactionStatus);
  _gas_price_cache : option Wei;
  _last_gas_update : Q;
  max_nonce_cache_age : Q;
  gas_price_update_interval : Q;
  transaction_timeout : Q
}.

Definition set_nonce_cache (self : EthereumService) (c : gmap Address (Z * Q)) :=
  {| config := config self; account := account self;
     _nonce_cache := c;
     _pending_transactions := _pending_transactions self;
     _gas_price_cache := _gas_price_cache self;
     _last_gas_update := _last_gas_update self;
     max_nonce_cache_age := max_nonce_cache_age self;
     gas_price_update_interval := gas_price_update_interval self;
     transaction_timeout := transaction_timeout self |}.

Definition set_pending (self : EthereumService)
    (p : list (HexStr * TransactionStatus)) :=
  {| config := config self; account := account self;
     _nonce_cache := _nonce_cache self;
     _pending_transactions := p;
     _gas_price_cache := _gas_price_cache self;
     _last_gas_update := _last_gas_update self;
     max_nonce_cache_age := max_nonce_cache_age self;
     gas_price_update_interval := gas_price_update_interval self;
     transaction_timeout := transaction_timeout self |}.

Definition set_gas_price (self : EthereumService) (p : Wei) (t : Q) :=
  {| config := config self; account := account self;
     _nonce_cache := _nonce_cache self;
     _pending_transactions := _pending_transactions self;
     _gas_price_cache := Some p;
     _last_gas_update := t;
     max_nonce_cache_age := max_nonce_cache_age self;
     gas_price_update_interval := gas_price_update_interval self;
     transaction_timeout := transaction_timeout self |}.

(** [__init__]: empty caches, no tracked transaction. *)
Definition init (cfg : NetworkConfig) (acct : option Address)
    (nonce_age gas_interval timeout : Q) : EthereumService :=
  {| config := cfg; account := acct;
     _nonce_cache := ∅;
     _pending_transactions := [];
     _gas_price_cache := None;
     _last_gas_update := 0%Q;
     max_nonce_cache_age := nonce_age;
     gas_price_update_interval := gas_interval;
     transaction_timeout := timeout |}.

Record Receipt := { r_status : Z; r_blockNumber : Z; r_gasUsed : Z }.

(** A transaction body as [w3.eth.get_transaction] returns it; a
    transaction that is not mined yet has no block number. *)
Record Tx := {
  tx_from : Address;
  tx_to : Address;
  tx_value : Z;
  tx_input : string;
  tx_nonce : Z;
  tx_gasPrice : Wei;
  tx_blockNumber : option Z
}.

(** The [replacement_tx] dictionary passed to [send_transaction]. *)
Record TxParams := {
  p_from : Address;
  p_to : Address;
  p_value : Z;
  p_data : string;
  p_nonce : Z;
  p_gasPrice : Wei
}.

(** The dictionary returned by [_get_tx_params]. *)
Record TxHeader := {
  h_from : Address;
  h_nonce : Z;
  h_gasPrice : Wei;
  h_chainId : Z
}.

(** The answers of the JSON-RPC provider during one call. *)
Record Chain := {
  get_transaction_count : Address -> Z;
  base_fee_per_gas : Wei;
  generate_gas_price : Wei;
  block_number : result Z;
  get_transaction_receipt : HexStr -> result (option Receipt);
  get_transaction : HexStr -> result (option Tx)
}.

(** [_get_next_nonce] *)
Definition _get_next_nonce (self : EthereumService) (chain : Chain)
    (address : Address) (current_time : Q) : Z * EthereumService :=
  let refresh :=
    let nonce := get_transaction_count chain address in
    (nonce,
     set_nonce_cache self
       (<[address := (nonce + 1, current_time)]> (_nonce_cache self))) in
  match _nonce_cache self !! address with
  | Some (cached_nonce, cache_time) =>
      if Qlt_le_dec (current_time - cache_time) (max_nonce_cache_age self)
      then (cached_nonce, self)
      else refresh
  | None => refresh
  end.

(** Line 304 of the source reads
    [await self.w3.eth.get_block("latest")["baseFeePerGas"]].  A
    subscription binds tighter than [await]: the key is looked up in
    what [get_block] returns, the coroutine, before anything is awaited,
    and a coroutine has no items.  (Were the calls of the provider
    not coroutines, the subscript would give the number and [await]
    would be applied to that: a [TypeError] in either case.)  [awaited]
    is the value that [(await get_block("latest"))["baseFeePerGas"]]
    would have given. *)
Definition subscript_of_coroutine {A : Type} (awaited : A) : result A :=
  Raise (mkExn TypeError "'coroutine' object is not subscriptable").

(** [_get_optimal_gas_price]: a cached price is returned while it is
    fresh; the refresh fails at its first line, before the cache is
    written. *)
Definition _get_optimal_gas_price (self : EthereumService) (chain : Chain)
    (current_time : Q) : result Wei * EthereumService :=
  let refresh :=
    match subscript_of_coroutine (base_fee_per_gas chain) with
    | Raise e => (Raise e, self)
    | Ok base_fee =>
        let optimal_price :=
          Z.min (Z.max (base_fee * 2) (generate_gas_price chain))
                (max_gas_price (config self)) in
        (Ok optimal_price, set_gas_price self optimal_price current_time)
    end in
  match _gas_price_cache self with
  | None => refresh
  | Some cached =>
      if Qlt_le_dec (gas_price_update_interval self)
                    (current_time - _last_gas_update self)
      then refresh
      else (Ok cached, self)
  end.

(** [_get_tx_params]; [t_nonce] and [t_gas] are the two readings of the
    loop clock.  The body runs under [_nonce_lock], so no other call
    interleaves with it.  The nonce is taken before the gas price is
    asked for: what [_get_next_nonce] wrote stays written when the gas
    price raises. *)
Definition _get_tx_params (self : EthereumService) (chain : Chain)
    (t_nonce t_gas : Q) : result TxHeader * EthereumService :=
  match account self with
  | None =>
      (Raise (mkExn AttributeError
                "'NoneType' object has no attribute 'address'"), self)
  | Some address =>
      let '(nonce, self1) := _get_next_nonce self chain address t_nonce in
      match _get_optimal_gas_price self1 chain t_gas with
      | (Raise e, self2) => (Raise e, self2)
      | (Ok gas_price, self2) =>
          (Ok {| h_from := address; h_nonce := nonce; h_gasPrice := gas_price;
                 h_chainId := chain_id (config self) |}, self2)
      end
  end.

(** One round of [_update_gas_price_loop] (the body of [while True], up
    to the sleep), without a monitor: the price or the exception is
    dropped, what the call did to the service stays. *)
Definition _update_gas_price_loop (self : EthereumService) (chain : Chain)
    (current_time : Q) : EthereumService :=
  snd (_get_optimal_gas_price self chain current_time).

(** *** Python floats

    [int(tx["gasPrice"] * 1.2)] multiplies an [int] by a [float]: the
    integer is rounded to the nearest double, the product is rounded
    again, and [int] cuts the fraction off.  Doubles are the binary64
    numbers of [SpecFloat] (53 bits of precision, exponents below
    1024). *)

(** [float(n)] for an [int]; [None] stands for the [OverflowError] of an
    integer beyond the range of the doubles. *)
Definition float_of_int (n : Z) : option SpecFloat.spec_float :=
  match SpecFloat.binary_normalize 53 1024 n 0 false with
  | SpecFloat.S754_finite s m e => Some (SpecFloat.S754_finite s m e)
  | SpecFloat.S754_zero s => Some (SpecFloat.S754_zero s)
  | _ => None
  end.

(** The literal [1.2]: the double nearest to 6/5. *)
Definition float_1_2 : SpecFloat.spec_float :=
  SpecFloat.S754_finite false 5404319552844595 (-52).

(** [int(x)] for a [float]: the fraction is cut off; [None] stands for
    the error raised on an infinity or a NaN. *)
Definition int_of_float (x : SpecFloat.spec_float) : option Z :=
  match x with
  | SpecFloat.S754_zero _ => Some 0
  | SpecFloat.S754_finite s m e =>
      let magnitude :=
        match e with
        | Zneg d => Z.shiftr (Zpos m) (Zpos d)
        | _ => Z.shiftl (Zpos m) e
        end in
      Some (if s then - magnitude else magnitude)
  | _ => None
  end.

(** [int(gas_price * 1.2)] *)
Definition bump_gas_price (gas_price : Wei) : option Wei :=
  x ← float_of_int gas_price;
  int_of_float (SpecFloat.SFmul 53 1024 x float_1_2).

Section Monitor.
(** [send_transaction] calls [self._send_transaction_impl], a method
    that the sources define nowhere.  [None] is the class as the sources
    have it, where looking the attribute up raises [AttributeError];
    [Some impl] is a class that supplies the method, which is then free
    to succeed or raise and to change the service. *)
Variable _send_transaction_impl :
  option (EthereumService -> TxParams -> result HexStr * EthereumService).

(** [send_transaction] without a monitor: the result of the
    implementation, re-raised on failure. *)
Definition send_transaction (self : EthereumService) (transaction : TxParams)
    : result HexStr * EthereumService :=
  match _send_transaction_impl with
  | None =>
      (Raise (mkExn AttributeError
                ("'EthereumService' object has no attribute "
                 +:+ "'_send_transaction_impl'")), self)
  | Some impl => impl self transaction
  end.

Definition replacement_tx (tx : Tx) (new_gas_price : Wei) : TxParams :=
  {| p_from := tx_from tx; p_to := tx_to tx; p_value := tx_value tx;
     p_data := tx_input tx; p_nonce := tx_nonce tx;
     p_gasPrice := new_gas_price |}.

(** [_handle_stuck_transaction]: every exception is caught and logged. *)
Definition _handle_stuck_transaction (self : EthereumService) (chain : Chain)
    (tx_hash : HexStr) : EthereumService :=
  match get_transaction chain tx_hash with
  | Raise _ => self
  | Ok None => self
  | Ok (Some tx) =>
      match bump_gas_price (tx_gasPrice tx) with
      | None => self
      | Some new_gas_price =>
          if decide (new_gas_price <= max_gas_price (config self)) then
            match send_transaction self (replacement_tx tx new_gas_price) with
            | (Raise _, self1) => self1
            | (Ok new_tx_hash, self1) =>
                set_pending self1
                  (dict_set new_tx_hash PENDING
                     (dict_set tx_hash STUCK (_pending_transactions self1)))
            end
          else self
      end
  end.

Definition mark (self : EthereumService) (tx_hash : HexStr)
    (s : TransactionStatus) : EthereumService :=
  set_pending self (dict_set tx_hash s (_pending_transactions self)).

(** The body of the [for] loop for one entry of the snapshot.  The
    inner handler turns [TransactionNotFound] into [FAILED]; any other
    exception leaves the loop. *)
Definition monitor_entry (self : EthereumService) (chain : Chain)
    (current_block : Z) (tx_hash : HexStr) (status : TransactionStatus)
    : result unit * EthereumService :=
  if decide (status = PENDING) then
    let attempt : result unit * EthereumService :=
      match get_transaction_receipt chain tx_hash with
      | Raise e => (Raise e, self)
      | Ok (Some receipt) =>
          if decide (r_status receipt = 1)
          then (Ok tt, mark self tx_hash CONFIRMED)
          else (Ok tt, mark self tx_hash FAILED)
      | Ok None =>
          match get_transaction chain tx_hash with
          | Raise e => (Raise e, self)
          | Ok None => (Ok tt, self)
          | Ok (Some tx) =>
              match tx_blockNumber tx with
              | None =>
                  (Raise (mkExn TypeError
                     "unsupported operand type(s) for -: 'int' and 'NoneType'"),
                   self)
              | Some b =>
                  if decide (current_block - b > 10)
                  then (Ok tt, _handle_stuck_transaction self chain tx_hash)
                  else (Ok tt, self)
              end
          end
      end in
    match attempt with
    | (Raise e, self1) =>
        match exn_class e with
        | TransactionNotFound => (Ok tt, mark self1 tx_hash FAILED)
        | _ => (Raise e, self1)
        end
    | ok => ok
    end
  else (Ok tt, self).

Fixpoint monitor_entries (self : EthereumService) (chain : Chain)
    (current_block : Z) (items : list (HexStr * TransactionStatus))
    : result unit * EthereumService :=
  match items with
  | [] => (Ok tt, self)
  | (tx_hash, status) :: rest =>
      match monitor_entry self chain current_block tx_hash status with
      | (Ok _, self1) => monitor_entries self1 chain current_block rest
      | (Raise e, self1) => (Raise e, self1)
      end
  end.

(** One round of [_monitor_pending_transactions] (the body of
    [while True], up to the sleep): the loop runs over a snapshot of
    the table and the outer handler swallows what escapes it. *)
Definition _monitor_pending_transactions (self : EthereumService)
    (chain : Chain) : EthereumService :=
  match block_number chain with
  | Raise _ => self
  | Ok current_block =>
      snd (monitor_entries self chain current_block
             (_pending_transactions self))
  end.
End Monitor.

End Eth.

(** ** Source adapters *)

Module Adapter.

(** A JSON value inside the data of a source. *)
Inductive JValue :=
| JNum (q : Q)
| JStr (s : string)
| JBool (b : bool)
| JNull.

(** The data of a source: a Python [dict]. *)
Definition Payload := list (string * JValue).

(** [bool(data)]: a dictionary is true when it is not empty. *)
Definition truthy (data : Payload) : bool :=
  match data with [] => false | _ :: _ => true end.

(** *** CacheManager *)

Record CacheEntry := { data : Payload; timestamp : Q }.

Record CacheManager := { ttl : Q; cache : gmap string CacheEntry }.

(** [CacheManager.get]; [now] is the reading of [time.time()]. *)
Definition get (self : CacheManager) (key : string) (now : Q)
    : option Payload * CacheManager :=
  match cache self !! key with
  | Some entry =>
      if Qlt_le_dec (now - timestamp entry) (ttl self)
      then (Some (data entry), self)
      else (None, {| ttl := ttl self; cache := delete key (cache self) |})
  | None => (None, self)
  end.

(** [CacheManager.set] *)
Definition set (self : CacheManager) (key : string) (d : Payload) (now : Q)
    : CacheManager :=
  {| ttl := ttl self;
     cache := <[key := {| data := d; timestamp := now |}]> (cache self) |}.

(** *** Adapters *)

Inductive Kind := Rest | WebSocket | Database | FileSystem.

(** A sample [(name, value, labels)] of the monitor; the value (a
    wall-clock difference or the fetched number) is left out. *)
Record Sample := { m_name : string; m_labels : list (string * string) }.

(** An adapter.  [connected] stands for the REST session, the socket or
    the pool being there; [metrics], [requests] and [connects] record
    what the adapter did to the outside: the samples that its monitor,
    a [MonitoringService], has recorded for it, the runs of
    [_handle_request] and the runs of [_connect_impl].  No
    [auth_handler] is configured. *)
Record BaseAdapter := {
  kind : Kind;
  source_id : string;
  source_type : string;
  endpoint : string;
  has_monitor : bool;
  adapter_cache : CacheManager;
  connected : bool;
  _latest_data : option Payload;
  metrics : list Sample;
  requests : nat;
  connects : nat
}.

Definition with_cache (a : BaseAdapter) (c : CacheManager) : BaseAdapter :=
  {| kind := kind a; source_id := source_id a; source_type := source_type a;
     endpoint := endpoint a; has_monitor := has_monitor a;
     adapter_cache := c; connected := connected a;
     _latest_data := _latest_data a; metrics := metrics a;
     requests := requests a; connects := connects a |}.

Definition with_metrics (a : BaseAdapter) (m : list Sample) : BaseAdapter :=
  {| kind := kind a; source_id := source_id a; source_type := source_type a;
     endpoint := endpoint a; has_monitor := has_monitor a;
     adapter_cache := adapter_cache a; connected := connected a;
     _latest_data := _latest_data a; metrics := m;
     requests := requests a; connects := connects a |}.

Definition with_request (a : BaseAdapter) : BaseAdapter :=
  {| kind := kind a; source_id := source_id a; source_type := source_type a;
     endpoint := endpoint a; has_monitor := has_monitor a;
     adapter_cache := adapter_cache a; connected := connected a;
     _latest_data := _latest_data a; metrics := metrics a;
     requests := S (requests a); connects := connects a |}.

Definition with_connect (a : BaseAdapter) (ok : bool) : BaseAdapter :=
  {| kind := kind a; source_id := source_id a; source_type := source_type a;
     endpoint := endpoint a; has_monitor := has_monitor a;
     adapter_cache := adapter_cache a;
     connected := if ok then true else connected a;
     _latest_data := _latest_data a; metrics := metrics a;
     requests := requests a; connects := S (connects a) |}.

(** What the outside answers during one [fetch_data]: the clock read by
    [cache.get] and by [cache.set], the outcome of [_connect_impl] and
    the outcome of [_handle_request] (the request with its rate
    limiting and retries; for the REST adapter it ends with
    [_process_response]). *)
Record Env := {
  t_get : Q;
  t_set : Q;
  connect_outcome : result unit;
  request_outcome : result Payload
}.

(** [MonitoringService.record_metric] is a coroutine function
    ([async def]): calling it builds a coroutine and runs nothing of its
    body; the sample is recorded when the coroutine is awaited. *)
Inductive Coroutine := RecordMetric (s : Sample).

Definition record_metric (s : Sample) : Coroutine := RecordMetric s.

(** [await c] *)
Definition await (a : BaseAdapter) (c : Coroutine) : BaseAdapter :=
  match c with
  | RecordMetric s => with_metrics a (metrics a ++ [s])
  end.

(** A call that stands as a statement of its own, without [await]: its
    coroutine is dropped as it is. *)
Definition discard (a : BaseAdapter) (c : Coroutine) : BaseAdapter := a.

(** [_record_latency] *)
Definition _record_latency (a : BaseAdapter) (operation : string) : BaseAdapter :=
  if has_monitor a then
    discard a
      (record_metric
         {| m_name := "source_latency";
            m_labels := [("source_id", source_id a);
                         ("operation", operation);
                         ("source_type", source_type a)] |})
  else a.

(** [_record_error] *)
Definition _record_error (a : BaseAdapter) (error_type : string) : BaseAdapter :=
  if has_monitor a then
    discard a
      (record_metric
         {| m_name := "source_errors";
            m_labels := [("source_id", source_id a);
                         ("error_type", error_type);
                         ("source_type", source_type a)] |})
  else a.

(** [isinstance(data.get("value"), (int, float))]; a [bool] is an [int]. *)
Definition numeric_value (d : Payload) : bool :=
  match dict_get "value" d with
  | Some (JNum _) | Some (JBool _) => true
  | _ => false
  end.

(** [_record_data_point] *)
Definition _record_data_point (a : BaseAdapter) (d : Payload) : BaseAdapter :=
  if has_monitor a && numeric_value d then
    discard a
      (record_metric
         {| m_name := "source_value";
            m_labels := [("source_id", source_id a);
                         ("source_type", source_type a)] |})
  else a.

(** [connect] *)
Definition connect (a : BaseAdapter) (env : Env) : result unit * BaseAdapter :=
  match connect_outcome env with
  | Ok _ => (Ok tt, _record_latency (with_connect a true) "connect")
  | Raise e => (Raise e, _record_error (with_connect a false) "connection")
  end.

Section Rules.
(** [_validate_data] and [_normalize_data] for the rules of the
    configuration; they read nothing but the data and the rules. *)
Variable _validate_data : Payload -> bool.
Variable _normalize_data : Payload -> Payload.

Definition ensure_connected (a : BaseAdapter) (env : Env)
    : result unit * BaseAdapter :=
  if connected a then (Ok tt, a) else connect a env.

(** [_handle_request(...)] followed by what the database and the file
    adapters do with its result. *)
Definition request_validate_store (a : BaseAdapter) (env : Env)
    : result Payload * BaseAdapter :=
  let a1 := with_request a in
  match request_outcome env with
  | Raise e => (Raise e, a1)
  | Ok res =>
      if _validate_data res then
        let normalized := _normalize_data res in
        (Ok normalized,
         with_cache a1 (set (adapter_cache a1) (endpoint a1) normalized
                          (t_set env)))
      else (Raise (mkExn ValueError "Invalid data format"), a1)
  end.

(** The REST adapter after a cache miss: connect when there is no
    session, run the request, cache its result. *)
Definition connect_request_store (a : BaseAdapter) (env : Env)
    : result Payload * BaseAdapter :=
  match ensure_connected a env with
  | (Raise e, a1) => (Raise e, a1)
  | (Ok _, a1) =>
      let a2 := with_request a1 in
      match request_outcome env with
      | Raise e => (Raise e, a2)
      | Ok res =>
          (Ok res,
           with_cache a2 (set (adapter_cache a2) (endpoint a2) res
                            (t_set env)))
      end
  end.

(** [if cached_data: return cached_data], else [miss]. *)
Definition cached_or (a : BaseAdapter) (env : Env)
    (miss : BaseAdapter -> result Payload * BaseAdapter)
    : result Payload * BaseAdapter :=
  let '(cached_data, c) := get (adapter_cache a) (endpoint a) (t_get env) in
  let a0 := with_cache a c in
  match cached_data with
  | Some d => if truthy d then (Ok d, a0) else miss a0
  | None => miss a0
  end.

(** [_fetch_data_impl] of the four adapters. *)
Definition _fetch_data_impl (a : BaseAdapter) (env : Env)
    : result Payload * BaseAdapter :=
  match kind a with
  | Rest => cached_or a env (fun a0 => connect_request_store a0 env)
  | WebSocket =>
      match ensure_connected a env with
      | (Raise e, a1) => (Raise e, a1)
      | (Ok _, a1) =>
          match _latest_data a1 with
          | Some d =>
              if truthy d then (Ok d, a1)
              else (Raise (mkExn Exception_ "No data received yet"), a1)
          | None => (Raise (mkExn Exception_ "No data received yet"), a1)
          end
      end
  | Database =>
      match ensure_connected a env with
      | (Raise e, a1) => (Raise e, a1)
      | (Ok _, a1) =>
          cached_or a1 env (fun a2 => request_validate_store a2 env)
      end
  | FileSystem =>
      cached_or a env (fun a0 => request_validate_store a0 env)
  end.

(** The body of the loop of [WebSocketAdapter._listen] for a message
    that parses to [d]. *)
Definition _listen_message (a : BaseAdapter) (d : Payload) : BaseAdapter :=
  if _validate_data d then
    {| kind := kind a; source_id := source_id a; source_type := source_type a;
       endpoint := endpoint a; has_monitor := has_monitor a;
       adapter_cache := adapter_cache a; connected := connected a;
       _latest_data := Some (_normalize_data d); metrics := metrics a;
       requests := requests a; connects := connects a |}
  else a.

(** [BaseAdapter.fetch_data] *)
Definition fetch_data (a : BaseAdapter) (env : Env)
    : result Payload * BaseAdapter :=
  match _fetch_data_impl a env with
  | (Ok d, a1) => (Ok d, _record_data_point (_record_latency a1 "fetch") d)
  | (Raise e, a1) => (Raise e, _record_error a1 "fetch")
  end.
End Rules.

(** The number of [source_latency] samples the monitor has recorded. *)
Definition latency_samples (a : BaseAdapter) : nat :=
  length (filter (fun s => m_name s = "source_latency") (metrics a)).

End Adapter.

(** ** Python arithmetic and [statistics] on idealised floats *)

(** Comparisons of reals are decided by the axioms of [Reals]. *)
#[export] Instance R_eq_dec : EqDecision R := Req_dec_T.
#[export] Instance Rle_decision (x y : R) : Decision (x <= y)%R := Rle_dec x y.
#[export] Instance Rlt_decision (x y : R) : Decision (x < y)%R := Rlt_dec x y.
#[export] Instance Rge_decision (x y : R) : Decision (x >= y)%R := Rge_dec x y.
#[export] Instance Rgt_decision (x y : R) : Decision (x > y)%R := Rgt_dec x y.

Module Py.
Local Open Scope R_scope.

(** [x / y] on floats. *)
Definition div (x y : R) : result R :=
  if decide (y = 0)
  then Raise (mkExn ZeroDivisionError "float division by zero")
  else Ok (x / y).

(** [sum(l)] *)
Definition sum (l : list R) : R := fold_right Rplus 0 l.

(** [statistics.mean] *)
Definition mean (l : list R) : result R :=
  match l with
  | [] => Raise (mkExn StatisticsError "mean requires at least one data point")
  | _ => Ok (sum l / INR (length l))
  end.

(** [statistics.variance]: the sample variance. *)
Definition variance (l : list R) : result R :=
  if (length l <? 2)%nat
  then Raise (mkExn StatisticsError
                "variance requires at least two data points")
  else
    let m := sum l / INR (length l) in
    Ok (sum (map (fun x => (x - m) * (x - m)) l) / (INR (length l) - 1)).

(** [statistics.stdev] *)
Definition stdev (l : list R) : result R :=
  v ← variance l; Ok (sqrt v).

(** [min(l)] and [max(l)] *)
Definition min (l : list R) : result R :=
  match l with
  | [] => Raise (mkExn ValueError "min() arg is an empty sequence")
  | x :: l' => Ok (fold_left Rmin l' x)
  end.

Definition max (l : list R) : result R :=
  match l with
  | [] => Raise (mkExn ValueError "max() arg is an empty sequence")
  | x :: l' => Ok (fold_left Rmax l' x)
  end.

(** *** numpy and scipy

    On an empty list, and on the logarithm of a number that is not
    positive, numpy answers [nan] or an infinity; the reals have
    neither, and the functions below are meant for the other
    arguments. *)

Definition np_mean (l : list R) : R := sum l / INR (length l).

(** [np.std]: the population deviation. *)
Definition np_std (l : list R) : R :=
  let m := np_mean l in
  sqrt (np_mean (map (fun x => (x - m) * (x - m)) l)).

Fixpoint np_diff (l : list R) : list R :=
  match l with
  | x :: ((y :: _) as l') => (y - x) :: np_diff l'
  | _ => []
  end.

Definition np_log (x : R) : R := ln x.

Fixpoint insert_sorted (x : R) (l : list R) : list R :=
  match l with
  | [] => [x]
  | y :: l' => if decide (x <= y) then x :: l else y :: insert_sorted x l'
  end.

Definition sorted (l : list R) : list R := fold_right insert_sorted [] l.

Definition np_median (l : list R) : R :=
  let s := sorted l in
  let n := length l in
  if Nat.even n
  then (nth (n / 2 - 1) s 0 + nth (n / 2) s 0) / 2
  else nth (n / 2) s 0.

(** [scipy.stats.median_abs_deviation] *)
Definition median_abs_deviation (l : list R) : R :=
  let med := np_median l in
  np_median (map (fun x => Rabs (x - med)) l).
End Py.

(** ** The aggregator and the update cycle *)

Module Oracle.
Local Open Scope R_scope.

(** The data of a source as the validator and the aggregator read it:
    the keys ["value"] and ["type"] of the dictionary.  The value, when
    present, is a number. *)
Record Data := { d_value : option R; d_type : option string }.

(** *** DataValidator *)

(** The rules for one data type: the keys ["type"], ["min"], ["max"]
    and ["allowed_values"]. *)
Record Rules := {
  r_type : option string;
  r_min : option R;
  r_max : option R;
  r_allowed_values : list R
}.

Definition _validate_numeric (d : Data) (rules : Rules) : bool :=
  match d_value d with
  | None => false
  | Some value =>
      match r_min rules, r_max rules with
      | Some lo, Some hi =>
          bool_decide (lo <= value) && bool_decide (value <= hi)
      | Some lo, None => bool_decide (lo <= value)
      | None, Some hi => bool_decide (value <= hi)
      | None, None => true
      end
  end.

Definition _validate_categorical (d : Data) (rules : Rules) : bool :=
  match d_value d with
  | None => false
  | Some value =>
      existsb (fun a => bool_decide (value = a)) (r_allowed_values rules)
  end.

(** A number is not a [bool]. *)
Definition _validate_binary (d : Data) (rules : Rules) : bool := false.

(** [DataValidator.validate] *)
Definition validate (validation_rules : gmap string Rules) (d : Data)
    (data_type : string) : bool :=
  match validation_rules !! data_type with
  | None => false
  | Some rules =>
      match r_type rules with
      | Some "numeric"%string => _validate_numeric d rules
      | Some "categorical"%string => _validate_categorical d rules
      | Some "binary"%string => _validate_binary d rules
      | _ => false
      end
  end.

(** *** DataAggregator *)

Record Aggregated := { value : R; confidence : R; num_sources : nat }.

(** The comprehension of [_remove_outliers]: the z-score of each value
    is computed in turn, and the first division by a zero deviation
    raises. *)
Fixpoint keep_inliers (outlier_threshold mean stdev : R)
    (vw : list (R * R)) : result (list (R * R)) :=
  match vw with
  | [] => Ok []
  | (v, w) :: rest =>
      z ← Py.div (v - mean) stdev;
      rest' ← keep_inliers outlier_threshold mean stdev rest;
      Ok (if decide (Rabs z < outlier_threshold)
          then (v, w) :: rest' else rest')
  end.

(** [_remove_outliers] *)
Definition _remove_outliers (outlier_threshold : R) (values weights : list R)
    : result (list R * list R) :=
  if (length values <? 2)%nat then Ok (values, weights) else
  mean ← Py.mean values;
  stdev ← Py.stdev values;
  clean_data ← keep_inliers outlier_threshold mean stdev (zip values weights);
  match clean_data with
  | [] => Ok ([], [])
  | _ => Ok (map fst clean_data, map snd clean_data)
  end.

(** [_calculate_confidence] *)
Definition _calculate_confidence (values weights : list R) : result R :=
  match values with
  | [] => Ok 0
  | _ =>
      variance ← (if (1 <? length values)%nat then Py.variance values else Ok 0);
      avg_weight ← Py.div (Py.sum weights) (INR (length weights));
      inv ← Py.div 1 (1 + variance);
      let confidence := inv * avg_weight * Rmin 1 (INR (length values) / 5) in
      Ok (Rmin 1 confidence)
  end.

(** [aggregate] *)
Definition aggregate (outlier_threshold : R) (data_points : list Data)
    (weights : list R) : result Aggregated :=
  if bool_decide (data_points = []) || bool_decide (weights = [])
     || negb (length data_points =? length weights)%nat
  then Raise (mkExn ValueError "Invalid data points or weights")
  else
    let values := map (fun d => default 0 (d_value d)) data_points in
    '(clean_values, clean_weights) ←
       _remove_outliers outlier_threshold values weights;
    match clean_values with
    | [] => Raise (mkExn ValueError "No valid data points after outlier removal")
    | _ =>
        let weighted_sum := Py.sum (zip_with Rmult clean_values clean_weights) in
        let weight_sum := Py.sum clean_weights in
        v ← Py.div weighted_sum weight_sum;
        c ← _calculate_confidence clean_values clean_weights;
        Ok {| value := v; confidence := c;
              num_sources := length clean_values |}
    end.

(** *** OracleService *)

(** A data source during one cycle: what its task in [gather],
    [circuit_breaker.execute(source.fetch_data)], came to (the data or
    the exception of its own fetch, or the refusal of the breaker), and
    the source's reputation score.  How the tasks of a cycle meet the
    one breaker of the service is the subject of [Gather] below. *)
Record Source := { fetched : result Data; reputation_score : R }.

(** [_fetch_all_sources]: the sources whose fetch raised are dropped. *)
Definition _fetch_all_sources (data_sources : list Source)
    : list (Source * Data) :=
  omap (fun src => match fetched src with
                   | Ok d => Some (src, d)
                   | Raise _ => None
                   end) data_sources.

(** [_validate_data] *)
Definition _validate_data (validation_rules : gmap string Rules)
    (raw_data : list (Source * Data)) : list (Source * Data) :=
  List.filter (fun sd => validate validation_rules (snd sd)
                      (default "numeric"%string (d_type (snd sd))))
    raw_data.

Section Cycle.
Context {Signature : Type}.
(** The RSA-PSS signature of [str(data)] under the node's key. *)
Variable sign : Aggregated -> Signature.

Record SignedData := {
  sd_data : Aggregated;
  sd_signature : Signature;
  sd_timestamp : Z
}.

(** [_sign_data]; [now] is [datetime.utcnow()]. *)
Definition _sign_data (d : Aggregated) (now : Z) : SignedData :=
  {| sd_data := d; sd_signature := sign d; sd_timestamp := now |}.

(** [_submit_to_chain] of the class in use. *)
Variable _submit_to_chain : SignedData -> result unit.

(** [_update_cycle], with the default [DataAggregator()] (threshold
    2.0).  The Python method returns nothing; the model returns the
    aggregate that was signed and submitted, or [None] when the cycle
    stopped for want of valid data. *)
Definition _update_cycle (data_sources : list Source)
    (validation_rules : gmap string Rules) (now : Z)
    : result (option Aggregated) :=
  let raw_data := _fetch_all_sources data_sources in
  let valid_data := _validate_data validation_rules raw_data in
  match valid_data with
  | [] => Ok None
  | _ =>
      aggregated_data ←
        aggregate 2 (map snd valid_data)
          (map (fun sd => reputation_score (fst sd)) valid_data);
      _ ← _submit_to_chain (_sign_data aggregated_data now);
      Ok (Some aggregated_data)
  end.
End Cycle.

(** [OracleService._submit_to_chain], the base class: [pass]. *)
Definition base_submit_to_chain {S : Type} (_ : S) : result unit := Ok tt.

End Oracle.

(** ** The task scheduler *)

Module Scheduler.

Inductive TaskPriority := CRITICAL | HIGH | MEDIUM | LOW.

Inductive TaskStatus :=
| PENDING | RUNNING | COMPLETED | FAILED | RETRYING | CANCELLED.

Inductive FailureReason :=
| NETWORK_ERROR
| DATA_SOURCE_ERROR
| VALIDATION_ERROR
| BLOCKCHAIN_ERROR
| RESOURCE_ERROR
| UNKNOWN_ERROR.

#[export] Instance TaskPriority_eq_dec : EqDecision TaskPriority.
Proof. solve_decision. Defined.
#[export] Instance TaskStatus_eq_dec : EqDecision TaskStatus.
Proof. solve_decision. Defined.
#[export] Instance FailureReason_eq_dec : EqDecision FailureReason.
Proof. solve_decision. Defined.

Definition UUID := N.

Record RetryPolicy := {
  max_attempts : Z;
  backoff_base : Q;
  backoff_multiplier : Q;
  max_delay : Q;
  failure_types : list FailureReason
}.

Record MaintenanceWindow := {
  window_id : UUID;
  start_time : Z;
  end_time : Z;
  description : string;
  affected_tasks : list UUID
}.

Inductive Trigger :=
| CronTrigger (crontab : string)
| IntervalTrigger (seconds : Z).

Record TaskDefinition := {
  task_id : UUID;
  name : string;
  priority : TaskPriority;
  schedule : Trigger;
  data_sources : list string;  (* the source configurations, by source id *)
  validation_rules : gmap string Oracle.Rules;
  min_sources : Z;
  max_concurrent : Z;
  timeout : Z;
  retry_policy : RetryPolicy;
  contracts : list UUID;
  created_at : Z;
  updated_at : Z;
  owner_id : UUID
}.

Record TaskExecution := {
  execution_id : UUID;
  e_task_id : UUID;
  e_start_time : Z;
  e_end_time : option Z;
  status : TaskStatus;
  node_id : string;
  data_points : list Oracle.Data;
  aggregated_value : option Oracle.Aggregated;
  error : option string;
  retry_count : Z;
  performance_metrics : list (string * Q)
}.

(** A retry job handed to the job scheduler: it runs [_execute_task] for
    [job_task] at [job_from + timedelta(seconds = job_delay)]. *)
Record RetryJob := {
  job_task : UUID;
  job_retry : Z;
  job_from : Z;
  job_delay : Q
}.

(** The scheduler: its tables and the jobs it has added for retries.
    No monitor is attached, and the write of the record to the store at
    the end of [_execute_task] is outside the model. *)
Record TaskScheduler := {
  s_node_id : string;
  _tasks : gmap UUID TaskDefinition;
  _executions : list (UUID * TaskExecution);
  _maintenance_windows : list (UUID * MaintenanceWindow);
  _running_tasks : list UUID;
  retry_jobs : list RetryJob
}.

(** The default retry policies of [__init__]. *)
Definition _retry_policies (p : TaskPriority) : RetryPolicy :=
  match p with
  | CRITICAL =>
      {| max_attempts := 5; backoff_base := 1; backoff_multiplier := 2;
         max_delay := 300;
         failure_types :=
           [NETWORK_ERROR; DATA_SOURCE_ERROR; VALIDATION_ERROR;
            BLOCKCHAIN_ERROR; RESOURCE_ERROR; UNKNOWN_ERROR] |}
  | HIGH =>
      {| max_attempts := 3; backoff_base := 2; backoff_multiplier := 2;
         max_delay := 600;
         failure_types :=
           [NETWORK_ERROR; DATA_SOURCE_ERROR; BLOCKCHAIN_ERROR] |}
  | MEDIUM =>
      {| max_attempts := 2; backoff_base := 5; backoff_multiplier := 2;
         max_delay := 1800;
         failure_types := [NETWORK_ERROR; DATA_SOURCE_ERROR] |}
  | LOW =>
      {| max_attempts := 1; backoff_base := 10; backoff_multiplier := 2;
         max_delay := 3600;
         failure_types := [NETWORK_ERROR] |}
  end.

(** *** Classification of failures *)

(** [c.lower()] on ASCII letters. *)
Definition lower_ascii (c : ascii) : ascii :=
  let n := nat_of_ascii c in
  if (65 <=? n)%nat && (n <=? 90)%nat then ascii_of_nat (n + 32) else c.

Fixpoint lower (s : string) : string :=
  match s with
  | EmptyString => EmptyString
  | String c s' => String (lower_ascii c) (lower s')
  end.

(** [needle in hay] *)
Fixpoint contains (needle hay : string) : bool :=
  String.prefix needle hay ||
  match hay with
  | EmptyString => false
  | String _ hay' => contains needle hay'
  end.

(** [_classify_failure] *)
Definition _classify_failure (error : string) : FailureReason :=
  let error_lower := lower error in
  if contains "network" error_lower || contains "connection" error_lower
  then NETWORK_ERROR
  else if contains "data source" error_lower then DATA_SOURCE_ERROR
  else if contains "validation" error_lower then VALIDATION_ERROR
  else if contains "blockchain" error_lower || contains "web3" error_lower
  then BLOCKCHAIN_ERROR
  else if contains "resource" error_lower || contains "memory" error_lower
  then RESOURCE_ERROR
  else UNKNOWN_ERROR.

(** *** Retries *)

(** [_should_retry] *)
Definition _should_retry (task : TaskDefinition) (execution : TaskExecution)
    (failure_reason : FailureReason) : bool :=
  if bool_decide (retry_count execution >= max_attempts (retry_policy task))
  then false
  else if bool_decide (failure_reason ∈ failure_types (retry_policy task))
  then true
  else false.

Definition with_status (e : TaskExecution) (st : TaskStatus) : TaskExecution :=
  {| execution_id := execution_id e; e_task_id := e_task_id e;
     e_start_time := e_start_time e; e_end_time := e_end_time e;
     status := st; node_id := node_id e; data_points := data_points e;
     aggregated_value := aggregated_value e; error := error e;
     retry_count := retry_count e;
     performance_metrics := performance_metrics e |}.

Definition with_retry_count (e : TaskExecution) (n : Z) : TaskExecution :=
  {| execution_id := execution_id e; e_task_id := e_task_id e;
     e_start_time := e_start_time e; e_end_time := e_end_time e;
     status := status e; node_id := node_id e; data_points := data_points e;
     aggregated_value := aggregated_value e; error := error e;
     retry_count := n;
     performance_metrics := performance_metrics e |}.

(** The outcome of the [try] body written into the record. *)
Definition finished (e : TaskExecution) (st : TaskStatus)
    (err : option string) (now : Z) (perf : list (string * Q))
    : TaskExecution :=
  {| execution_id := execution_id e; e_task_id := e_task_id e;
     e_start_time := e_start_time e; e_end_time := Some now;
     status := st; node_id := node_id e; data_points := data_points e;
     aggregated_value := aggregated_value e; error := err;
     retry_count := retry_count e;
     performance_metrics := perf |}.

(** [_schedule_retry]: the new count, the job and the status. *)
Definition _schedule_retry (task : TaskDefinition) (execution : TaskExecution)
    (now : Z) : TaskExecution * RetryJob :=
  let count := retry_count execution + 1 in
  let delay :=
    Qmin (backoff_base (retry_policy task)
            * backoff_multiplier (retry_policy task) ^ (count - 1))%Q
         (max_delay (retry_policy task)) in
  (with_status (with_retry_count execution count) RETRYING,
   {| job_task := task_id task; job_retry := count;
      job_from := now; job_delay := delay |}).

(** The [except] block of [_execute_task]. *)
Definition on_exception (task : TaskDefinition) (execution : TaskExecution)
    (e : PyExn) (now : Z) : TaskExecution * list RetryJob :=
  let failed :=
    finished execution FAILED (Some (str e)) now
      (performance_metrics execution) in
  let failure_reason := _classify_failure (str e) in
  if _should_retry task failed failure_reason
  then let '(retrying, job) := _schedule_retry task failed now in
       (retrying, [job])
  else (failed, []).

(** *** Execution *)

(** [_is_in_maintenance] *)
Definition _is_in_maintenance (self : TaskScheduler) (tid : UUID) (now : Z)
    : bool :=
  existsb
    (fun window =>
       bool_decide (start_time window <= now) &&
       bool_decide (now <= end_time window) &&
       (bool_decide (affected_tasks window = []) ||
        bool_decide (tid ∈ affected_tasks window)))
    (dict_values (_maintenance_windows self)).

(** The executions of the task that are Running. *)
Definition running_executions (self : TaskScheduler) (tid : UUID)
    : list TaskExecution :=
  List.filter
    (fun e => bool_decide (e_task_id e = tid) &&
              bool_decide (status e = RUNNING))
    (dict_values (_executions self)).

(** What one firing of [_execute_task] gets from outside: the clock,
    the fresh identifier, the adapters created for the task's source
    configurations with what their fetch comes to (or the exception of
    [create_adapter]), the measured duration of the cycle, and what
    [contract_manager.get_contract] answers for a contract identifier. *)
Record Tick := {
  now : Z;
  fresh_id : UUID;
  adapters : result (list Oracle.Source);
  elapsed : Q;
  get_contract : UUID -> result (option UUID)
}.

(** The class [ContractManager] of the sources defines no method
    [get_contract] (its registry does): on an instance of it the call
    raises. *)
Definition ContractManager_get_contract (_ : UUID) : result (option UUID) :=
  Raise (mkExn AttributeError
           "'ContractManager' object has no attribute 'get_contract'").

(** The loop over [task.contracts]: the contract is looked up and nothing
    is done with it. *)
Fixpoint update_contracts (lookup : UUID -> result (option UUID))
    (contracts : list UUID) : result unit :=
  match contracts with
  | [] => Ok tt
  | contract_id :: rest =>
      _ ← lookup contract_id;
      update_contracts lookup rest
  end.

Section Execute.
Context {Signature : Type}.
Variable sign : Oracle.Aggregated -> Signature.

(** The adapters, an [OracleService] of the base class and one update
    cycle. *)
Definition run_cycle (task : TaskDefinition) (tick : Tick)
    : result (option Oracle.Aggregated) :=
  sources ← adapters tick;
  Oracle._update_cycle sign Oracle.base_submit_to_chain sources
    (validation_rules task) (now tick).

Definition with_duration (e : TaskExecution) (d : Q) : TaskExecution :=
  {| execution_id := execution_id e; e_task_id := e_task_id e;
     e_start_time := e_start_time e; e_end_time := e_end_time e;
     status := status e; node_id := node_id e; data_points := data_points e;
     aggregated_value := aggregated_value e; error := error e;
     retry_count := retry_count e;
     performance_metrics :=
       dict_set "duration"%string d (performance_metrics e) |}.

(** The body of the [try] from the creation of the adapters on: the
    cycle, its duration written into the record, the loop over the
    contracts.  It returns what the cycle produced, or the exception,
    next to the record. *)
Definition try_body (task : TaskDefinition) (tick : Tick)
    (running : TaskExecution)
    : result (option Oracle.Aggregated) * TaskExecution :=
  match run_cycle task tick with
  | Raise e => (Raise e, running)
  | Ok produced =>
      let timed := with_duration running (elapsed tick) in
      match update_contracts (get_contract tick) (contracts task) with
      | Raise e => (Raise e, timed)
      | Ok _ => (Ok produced, timed)
      end
  end.

(** [_execute_task] *)
Definition _execute_task (self : TaskScheduler) (tid : UUID) (tick : Tick)
    : TaskScheduler :=
  match _tasks self !! tid with
  | None => self
  | Some task =>
      if _is_in_maintenance self tid (now tick) then self
      else if bool_decide
                (Z.of_nat (length (running_executions self tid))
                 >= max_concurrent task)
      then self
      else
        let execution :=
          {| execution_id := fresh_id tick; e_task_id := tid;
             e_start_time := now tick; e_end_time := None;
             status := PENDING; node_id := s_node_id self;
             data_points := []; aggregated_value := None;
             error := None; retry_count := 0;
             performance_metrics := [] |} in
        let running := with_status execution RUNNING in
        let '(final, jobs) :=
          match try_body task tick running with
          | (Ok _, execution1) =>
              (finished execution1 COMPLETED None (now tick)
                 (performance_metrics execution1), [])
          | (Raise e, execution1) =>
              on_exception task execution1 e (now tick)
          end in
        {| s_node_id := s_node_id self;
           _tasks := _tasks self;
           _executions :=
             dict_set (fresh_id tick) final (_executions self);
           _maintenance_windows := _maintenance_windows self;
           _running_tasks :=
             List.filter (fun t => negb (bool_decide (t = tid)))
               (_running_tasks self);
           retry_jobs := retry_jobs self ++ jobs |}
  end.
End Execute.

End Scheduler.

(** ** The validation pipeline *)

Module Validation.
Local Open Scope R_scope.

Inductive ValidationStage :=
| SOURCE | CROSS_SOURCE | TEMPORAL | CONSENSUS | CRYPTOGRAPHIC | FORMAL.

Inductive ValidationSeverity := CRITICAL | HIGH | MEDIUM | LOW.

Inductive AnomalyType :=
| STATISTICAL_OUTLIER
| RAPID_CHANGE
| VOLUME_MISMATCH
| CONSENSUS_DEVIATION
| PATTERN_BREAK
| MANIPULATION_SUSPECT.

#[export] Instance ValidationStage_eq_dec : EqDecision ValidationStage.
Proof. solve_decision. Defined.
#[export] Instance ValidationSeverity_eq_dec : EqDecision ValidationSeverity.
Proof. solve_decision. Defined.
#[export] Instance AnomalyType_eq_dec : EqDecision AnomalyType.
Proof. solve_decision. Defined.

Definition UUID := N.

(** *** Rule conditions

    A rule carries a Python expression that [_validate_source] hands
    to [eval] with no builtins and with the dictionary
    [{"value": value, "timestamp": timestamp, **metadata,
    **rule.parameters}] as its names.  The expression is represented
    by what it evaluates to on such a dictionary. *)

(** A value bound to a name: a float, an infinity or a naive
    [datetime].  The parameters of the rules are such values; metadata
    are taken to be such values too, so that a function bound to a name
    by the metadata is outside this development. *)
Inductive CVal :=
| CNum (x : R)
| CInf
| CNegInf
| CTime (t : Z).

Definition Context := list (string * CVal).

Definition Condition := Context -> result bool.

(** A name of the expression. *)
Definition lookup_name (ctx : Context) (x : string) : result CVal :=
  match dict_get x ctx with
  | Some v => Ok v
  | None => Raise (mkExn NameError ("name '" +:+ x +:+ "' is not defined"))
  end.

(** [a <= b] *)
Definition cle (a b : CVal) : result bool :=
  match a, b with
  | CNum x, CNum y => Ok (bool_decide (x <= y))
  | CNegInf, (CNum _ | CInf | CNegInf) => Ok true
  | (CNum _ | CInf), CInf => Ok true
  | CInf, (CNum _ | CNegInf) => Ok false
  | CNum _, CNegInf => Ok false
  | CTime t, CTime u => Ok (bool_decide (t <= u)%Z)
  | _, _ =>
      Raise (mkExn TypeError "'<=' not supported between these instances")
  end.

(** ["lo <= x <= hi"]: the second comparison is made only when the
    first holds. *)
Definition cond_between (lo x hi : string) : Condition := fun ctx =>
  a ← lookup_name ctx lo;
  v ← lookup_name ctx x;
  first ← cle a v;
  if first : bool then b ← lookup_name ctx hi; cle v b else Ok false.

(** ["abs(x) <= t"]: without builtins [abs] is an unbound name, and a
    value bound to it by the metadata is not a function. *)
Definition cond_abs_le (x t : string) : Condition := fun ctx =>
  _ ← lookup_name ctx "abs";
  Raise (mkExn TypeError "object is not callable").

(** ["x <= t"] *)
Definition cond_le (x t : string) : Condition := fun ctx =>
  a ← lookup_name ctx x;
  b ← lookup_name ctx t;
  cle a b.

Record ValidationRule := {
  rule_id : UUID;
  name : string;
  description : string;
  stage : ValidationStage;
  severity : ValidationSeverity;
  source_types : gset string;
  condition : Condition;
  parameters : list (string * CVal);
  enabled : bool
}.

(** A finding.  The random [finding_id] and the [details] dictionary
    are left out; [f_rule_id] is [None] where the source draws a fresh
    identifier instead of naming a rule. *)
Record ValidationFinding := {
  f_rule_id : option UUID;
  f_source_id : string;
  f_stage : ValidationStage;
  f_severity : ValidationSeverity;
  anomaly_type : option AnomalyType;
  message : string;
  f_timestamp : Z
}.

Record SourceStats := {
  mean : R;
  std_dev : R;
  min_value : R;
  max_value : R;
  last_update : Z;
  update_frequency : R;
  confidence_score : R
}.

Definition RSAPublicKey := (N * N)%type.
Definition bytes := list Byte.byte.

Record ValidationService := {
  history_window : Z;
  min_history_points : Z;
  confidence_threshold : R;
  max_source_deviation : R;
  rapid_change_threshold : R;
  min_consensus_sources : Z;
  _rules : list (UUID * ValidationRule);
  _findings : list ValidationFinding;
  _source_stats : list (string * SourceStats);
  _historical_data : gmap string (list (Z * R));
  _source_signatures : gmap string RSAPublicKey
}.

Definition with_history (self : ValidationService)
    (h : gmap string (list (Z * R))) : ValidationService :=
  {| history_window := history_window self;
     min_history_points := min_history_points self;
     confidence_threshold := confidence_threshold self;
     max_source_deviation := max_source_deviation self;
     rapid_change_threshold := rapid_change_threshold self;
     min_consensus_sources := min_consensus_sources self;
     _rules := _rules self; _findings := _findings self;
     _source_stats := _source_stats self;
     _historical_data := h;
     _source_signatures := _source_signatures self |}.

Definition with_stats (self : ValidationService)
    (st : list (string * SourceStats)) : ValidationService :=
  {| history_window := history_window self;
     min_history_points := min_history_points self;
     confidence_threshold := confidence_threshold self;
     max_source_deviation := max_source_deviation self;
     rapid_change_threshold := rapid_change_threshold self;
     min_consensus_sources := min_consensus_sources self;
     _rules := _rules self; _findings := _findings self;
     _source_stats := st;
     _historical_data := _historical_data self;
     _source_signatures := _source_signatures self |}.

(** [_initialize_default_rules]; the five random rule identifiers are
    taken to be 1 to 5. *)
Definition default_rules : list (UUID * ValidationRule) :=
  [ (1%N, {| rule_id := 1%N; name := "basic_range_check";
             description := "Validate value within allowed range";
             stage := SOURCE; severity := CRITICAL;
             source_types := {[ "all"%string ]};
             condition := cond_between "min_value" "value" "max_value";
             parameters := [("min_value"%string, CNum 0);
                            ("max_value"%string, CInf)];
             enabled := true |});
    (2%N, {| rule_id := 2%N; name := "statistical_outlier";
             description := "Detect statistical outliers";
             stage := SOURCE; severity := HIGH;
             source_types := {[ "price"%string; "rate"%string ]};
             condition := cond_abs_le "zscore" "threshold";
             parameters := [("threshold"%string, CNum 3)];
             enabled := true |});
    (3%N, {| rule_id := 3%N; name := "rapid_change";
             description := "Detect suspicious rapid changes";
             stage := TEMPORAL; severity := HIGH;
             source_types := {[ "price"%string; "rate"%string ]};
             condition := cond_abs_le "pct_change" "threshold";
             parameters := [("threshold"%string, CNum (5 / 100));
                            ("min_interval"%string, CNum 60)];
             enabled := true |});
    (4%N, {| rule_id := 4%N; name := "volume_weighted";
             description := "Volume-weighted price validation";
             stage := CROSS_SOURCE; severity := MEDIUM;
             source_types := {[ "price"%string ]};
             condition := cond_abs_le "vwap_deviation" "threshold";
             parameters := [("threshold"%string, CNum (2 / 100))];
             enabled := true |});
    (5%N, {| rule_id := 5%N; name := "consensus_check";
             description := "Multi-source consensus validation";
             stage := CONSENSUS; severity := HIGH;
             source_types := {[ "all"%string ]};
             condition := cond_le "consensus_deviation" "threshold";
             parameters := [("threshold"%string, CNum (1 / 10));
                            ("min_sources"%string, CNum 3)];
             enabled := true |}) ].

(** [__init__] with its default arguments. *)
Definition init : ValidationService :=
  {| history_window := 3600;
     min_history_points := 10;
     confidence_threshold := 8 / 10;
     max_source_deviation := 1 / 10;
     rapid_change_threshold := 5 / 100;
     min_consensus_sources := 3;
     _rules := default_rules; _findings := [];
     _source_stats := [];
     _historical_data := ∅;
     _source_signatures := ∅ |}.

(** *** Stage 1: source *)

Definition blocking (sev : ValidationSeverity) : bool :=
  match sev with CRITICAL | HIGH => true | _ => false end.

(** The dictionary given to [eval]. *)
Definition build_context (value : R) (timestamp : Z)
    (metadata parameters : list (string * CVal)) : Context :=
  fold_left (fun ctx kv => dict_set (fst kv) (snd kv) ctx)
    (metadata ++ parameters)
    [("value"%string, CNum value); ("timestamp"%string, CTime timestamp)].

Definition applies (rule : ValidationRule) (source_type : string) : bool :=
  bool_decide (stage rule = SOURCE) &&
  (bool_decide (source_types rule = {[ "all"%string ]}) ||
   bool_decide (source_type ∈ source_types rule)).

(** The loop of [_validate_source] over the applicable rules. *)
Fixpoint source_rules (rules : list ValidationRule) (source_id : string)
    (value : R) (timestamp : Z) (metadata : list (string * CVal)) (now : Z)
    (is_valid : bool) (findings : list ValidationFinding)
    : bool * list ValidationFinding :=
  match rules with
  | [] => (is_valid, findings)
  | rule :: rest =>
      let context := build_context value timestamp metadata (parameters rule) in
      let '(is_valid', findings') :=
        match condition rule context with
        | Raise _ => (false, findings)
        | Ok true => (is_valid, findings)
        | Ok false =>
            (if blocking (severity rule) then false else is_valid,
             findings ++
             [ {| f_rule_id := Some (rule_id rule); f_source_id := source_id;
                  f_stage := SOURCE; f_severity := severity rule;
                  anomaly_type := Some STATISTICAL_OUTLIER;
                  message := "Source validation failed: "
                             +:+ description rule;
                  f_timestamp := now |} ])
        end in
      source_rules rest source_id value timestamp metadata now
        is_valid' findings'
  end.

(** [_validate_source] *)
Definition _validate_source (self : ValidationService)
    (source_id source_type : string) (value : R) (timestamp : Z)
    (metadata : list (string * CVal)) (now : Z)
    (findings : list ValidationFinding) : bool * list ValidationFinding :=
  let rules :=
    List.filter (fun rule => applies rule source_type)
      (dict_values (_rules self)) in
  source_rules rules source_id value timestamp metadata now true findings.

(** *** Stage 2: cross-source *)

(** [_validate_cross_source] *)
Definition _validate_cross_source (self : ValidationService)
    (source_id source_type : string) (value : R) (now : Z)
    (findings : list ValidationFinding) : bool * list ValidationFinding :=
  if bool_decide (length (_source_stats self) < 2)%nat then (true, findings)
  else
    let other_sources :=
      List.filter (fun kv => negb (bool_decide (fst kv = source_id)))
        (_source_stats self) in
    let all_values := map (fun kv => mean (snd kv)) other_sources ++ [value] in
    let mean := Py.np_mean all_values in
    let std := Py.np_std all_values in
    if bool_decide (std > 0) then
      let z_score := Rabs ((value - mean) / std) in
      if bool_decide (z_score > 3) then
        (false,
         findings ++
         [ {| f_rule_id := None; f_source_id := source_id;
              f_stage := CROSS_SOURCE; f_severity := HIGH;
              anomaly_type := Some CONSENSUS_DEVIATION;
              message := "Significant deviation from other sources";
              f_timestamp := now |} ])
      else (true, findings)
    else (true, findings).

(** *** Stage 3: temporal *)

(** [(t - u).total_seconds()] *)
Definition total_seconds (t u : Z) : R := IZR (t - u) / 1000000.

(** The rapid-change check against [history[-2]]. *)
Definition rapid_change (self : ValidationService) (source_id : string)
    (history : list (Z * R)) (value : R) (timestamp : Z) (now : Z)
    (findings : list ValidationFinding)
    : result (bool * list ValidationFinding) :=
  match history !! (length history - 2)%nat with
  | Some (last_time, last_value) =>
      if bool_decide (2 <= length history)%nat then
        let time_diff := total_seconds timestamp last_time in
        if bool_decide (time_diff > 0) then
          change_rate ←
            Py.div (Rabs (value - last_value)) (last_value * time_diff);
          if bool_decide (change_rate > rapid_change_threshold self) then
            Ok (false,
                findings ++
                [ {| f_rule_id := None; f_source_id := source_id;
                     f_stage := TEMPORAL; f_severity := HIGH;
                     anomaly_type := Some RAPID_CHANGE;
                     message := "Suspicious rapid value change";
                     f_timestamp := now |} ])
          else Ok (true, findings)
        else Ok (true, findings)
      else Ok (true, findings)
  | None => Ok (true, findings)
  end.

(** The pattern-break check against [values[-1]]. *)
Definition pattern_break (source_id : string) (history : list (Z * R))
    (value : R) (now : Z) (findings : list ValidationFinding)
    : result (list ValidationFinding) :=
  let values := map snd history in
  if bool_decide (30 <= length values)%nat then
    let volatility := Py.np_std (Py.np_diff (map Py.np_log values)) in
    match last values with
    | None => Ok findings
    | Some last_value =>
        ratio ← Py.div value last_value;
        let current_return := Py.np_log ratio in
        if bool_decide (Rabs current_return > 3 * volatility) then
          Ok (findings ++
              [ {| f_rule_id := None; f_source_id := source_id;
                   f_stage := TEMPORAL; f_severity := MEDIUM;
                   anomaly_type := Some PATTERN_BREAK;
                   message := "Break in historical pattern detected";
                   f_timestamp := now |} ])
        else Ok findings
    end
  else Ok findings.

(** [_validate_temporal] *)
Definition _validate_temporal (self : ValidationService)
    (source_id source_type : string) (value : R) (timestamp : Z) (now : Z)
    (findings : list ValidationFinding)
    : result (bool * list ValidationFinding) :=
  match _historical_data self !! source_id with
  | None => Ok (true, findings)
  | Some history =>
      if bool_decide (Z.of_nat (length history) < min_history_points self)%Z
      then Ok (true, findings)
      else
        '(is_valid, findings1) ←
           rapid_change self source_id history value timestamp now findings;
        findings2 ← pattern_break source_id history value now findings1;
        Ok (is_valid, findings2)
  end.

(** *** Stage 4: consensus *)

(** [_validate_consensus] *)
Definition _validate_consensus (self : ValidationService)
    (source_id source_type : string) (value : R) (now : Z)
    (findings : list ValidationFinding) : bool * list ValidationFinding :=
  if bool_decide (Z.of_nat (length (_source_stats self))
                  < min_consensus_sources self)%Z
  then (true, findings)
  else
    let all_values := map (fun kv => mean (snd kv)) (_source_stats self) in
    let median := Py.np_median all_values in
    let mad := Py.median_abs_deviation all_values in
    if bool_decide (mad > 0) then
      let deviation := Rabs (value - median) / mad in
      if bool_decide (deviation > 3) then
        (false,
         findings ++
         [ {| f_rule_id := None; f_source_id := source_id;
              f_stage := CONSENSUS; f_severity := HIGH;
              anomaly_type := Some CONSENSUS_DEVIATION;
              message := "Significant deviation from consensus";
              f_timestamp := now |} ])
      else (true, findings)
    else (true, findings).

Section Pipeline.
(** [public_key.verify(signature, message, PSS, SHA256)] on the
    message ["{source_id}:{value}:{timestamp.isoformat()}"]: it
    returns, raises [InvalidSignature] or raises something else. *)
Variable verify : RSAPublicKey -> bytes -> string -> R -> Z -> result unit.

(** *** Stage 5: cryptographic *)

(** [_validate_cryptographic] *)
Definition _validate_cryptographic (self : ValidationService)
    (source_id : string) (value : R) (timestamp : Z) (signature : bytes)
    (now : Z) (findings : list ValidationFinding)
    : bool * list ValidationFinding :=
  match _source_signatures self !! source_id with
  | None => (true, findings)
  | Some key =>
      match verify key signature source_id value timestamp with
      | Ok _ => (true, findings)
      | Raise e =>
          match exn_class e with
          | InvalidSignature =>
              (false,
               findings ++
               [ {| f_rule_id := None; f_source_id := source_id;
                    f_stage := CRYPTOGRAPHIC; f_severity := CRITICAL;
                    anomaly_type := None;
                    message := "Invalid cryptographic signature";
                    f_timestamp := now |} ])
          | _ => (false, findings)
          end
      end
  end.

(** [t.timestamp()] *)
Definition seconds (t : Z) : R := IZR t / 1000000.

(** [_update_source_stats] *)
Definition _update_source_stats (self : ValidationService)
    (source_id : string) (value : R) (timestamp : Z)
    : result ValidationService :=
  match _historical_data self !! source_id with
  | None => Ok self
  | Some history =>
      let values := map snd history in
      if bool_decide (Z.of_nat (length values) >= min_history_points self)%Z
      then
        let mean := Py.np_mean values in
        let std_dev := Py.np_std values in
        min_value ← Py.min values;
        max_value ← Py.max values;
        let times := map fst history in
        let intervals := Py.np_diff (map seconds times) in
        let update_frequency :=
          if bool_decide (0 < length intervals)%nat
          then Py.np_mean intervals else 0 in
        let recency := 1 in
        let consistency :=
          1 - (if bool_decide (mean <> 0) then std_dev / mean else 0) in
        let update_regularity :=
          1 - (if bool_decide (update_frequency > 0)
               then Py.np_std intervals / update_frequency else 0) in
        let confidence_score :=
          (recency + consistency + update_regularity) / 3 in
        Ok (with_stats self
              (dict_set source_id
                 {| mean := mean; std_dev := std_dev;
                    min_value := min_value; max_value := max_value;
                    last_update := timestamp;
                    update_frequency := update_frequency;
                    confidence_score := confidence_score |}
                 (_source_stats self)))
      else Ok self
  end.

(** The first lines of [validate_data_point] for a naive [timestamp]:
    the point is appended to the series of its source, and the series is
    cut down to the entries newer than [utcnow() - history_window].
    The comparison of the cut is between naive datetimes here;
    [validate_data_point_at] below has the aware ones. *)
Definition record_point (self : ValidationService) (source_id : string)
    (value : R) (timestamp : Z) (now : Z) : ValidationService :=
  let series := default [] (_historical_data self !! source_id) in
  let cutoff_time := (now - history_window self * 1000000)%Z in
  with_history self
    (<[source_id :=
         List.filter (fun e => bool_decide (fst e > cutoff_time)%Z)
           (series ++ [(timestamp, value)])]>
       (_historical_data self)).

(** The five stages, each one ending the call when it fails. *)
Definition stages (self : ValidationService)
    (source_id source_type : string) (value : R) (timestamp : Z)
    (metadata : list (string * CVal)) (signature : option bytes) (now : Z)
    : result (bool * list ValidationFinding) :=
  let findings := [] in
  let '(source_valid, findings) :=
    _validate_source self source_id source_type value timestamp metadata
      now findings in
  if negb source_valid then Ok (false, findings) else
  let '(cross_valid, findings) :=
    _validate_cross_source self source_id source_type value now findings in
  if negb cross_valid then Ok (false, findings) else
  '(temporal_valid, findings) ←
     _validate_temporal self source_id source_type value timestamp now
       findings;
  if negb temporal_valid then Ok (false, findings) else
  let '(consensus_valid, findings) :=
    _validate_consensus self source_id source_type value now findings in
  if negb consensus_valid then Ok (false, findings) else
  let '(crypto_valid, findings) :=
    match signature with
    | Some ((_ :: _) as sig) =>
        _validate_cryptographic self source_id value timestamp sig now
          findings
    | _ => (true, findings)
    end in
  if negb crypto_valid then Ok (false, findings) else
  Ok (true, findings).

(** [validate_data_point]; [now] is [datetime.utcnow()].  The service
    is returned as the call leaves it, also when the call raises. *)
Definition validate_data_point (self : ValidationService)
    (source_id source_type : string) (value : R) (timestamp : Z)
    (metadata : list (string * CVal)) (signature : option bytes) (now : Z)
    : result (bool * list ValidationFinding) * ValidationService :=
  let self1 := record_point self source_id value timestamp now in
  match stages self1 source_id source_type value timestamp metadata
          signature now with
  | Raise e => (Raise e, self1)
  | Ok (false, findings) => (Ok (false, findings), self1)
  | Ok (true, findings) =>
      match _update_source_stats self1 source_id value timestamp with
      | Raise e => (Raise e, self1)
      | Ok self2 => (Ok (true, findings), self2)
      end
  end.

(** The [timestamp] argument as a caller can pass it.  A naive
    [datetime] (no [tzinfo]) is what [datetime.utcnow()] returns and what
    the series, the findings and the statistics above hold; an aware one
    carries a time zone. *)
Inductive datetime :=
| Naive (t : Z)
| Aware (t : Z).

(** [validate_data_point] for any [timestamp], on a service whose
    series hold naive timestamps.  An aware timestamp is appended to the
    series like any other; the comprehension that cuts the series then
    compares it with the naive [cutoff_time] and raises [TypeError],
    before the cut series is stored and before any stage runs.  The
    series is left holding the aware entry, which the series of this
    development cannot hold: no service is given for that case. *)
Definition validate_data_point_at (self : ValidationService)
    (source_id source_type : string) (value : R) (timestamp : datetime)
    (metadata : list (string * CVal)) (signature : option bytes) (now : Z)
    : result (bool * list ValidationFinding) * option ValidationService :=
  match timestamp with
  | Naive t =>
      let '(r, self') :=
        validate_data_point self source_id source_type value t metadata
          signature now in
      (r, Some self')
  | Aware _ =>
      (Raise (mkExn TypeError
                "can't compare offset-naive and offset-aware datetimes"),
       None)
  end.
End Pipeline.

(** [get_findings]: a filter applies when its argument is given and is
    not the empty string. *)
Definition get_findings (self : ValidationService)
    (source_id : option string) (severity : option ValidationSeverity)
    (stage : option ValidationStage) (start_time end_time : option Z)
    : list ValidationFinding :=
  let findings := _findings self in
  let findings :=
    match source_id with
    | Some ((String _ _) as sid) =>
        List.filter (fun f => bool_decide (f_source_id f = sid)) findings
    | _ => findings
    end in
  let findings :=
    match severity with
    | Some sev => List.filter (fun f => bool_decide (f_severity f = sev)) findings
    | None => findings
    end in
  let findings :=
    match stage with
    | Some st => List.filter (fun f => bool_decide (f_stage f = st)) findings
    | None => findings
    end in
  let findings :=
    match start_time with
    | Some t => List.filter (fun f => bool_decide (f_timestamp f >= t)%Z) findings
    | None => findings
    end in
  let findings :=
    match end_time with
    | Some t => List.filter (fun f => bool_decide (f_timestamp f <= t)%Z) findings
    | None => findings
    end in
  findings.

End Validation.

(** ** The circuit breaker *)

Module Breaker.

Record CircuitBreaker := {
  threshold : Z;
  reset_timeout : Q;
  failure_count : Z;
  last_failure_time : Q;
  is_open : bool
}.

(** [__init__] *)
Definition init (threshold : Z) (reset_timeout : Q) : CircuitBreaker :=
  {| threshold := threshold; reset_timeout := reset_timeout;
     failure_count := 0; last_failure_time := 0%Q; is_open := false |}.

(** The check at the head of [execute]: an open breaker closes again
    once [reset_timeout] has passed since the last failure, and turns
    the call down before that. *)
Definition enter (self : CircuitBreaker) (current_time : Q)
    : result CircuitBreaker :=
  if is_open self then
    if Qlt_le_dec (current_time - last_failure_time self) (reset_timeout self)
    then Raise (mkExn Exception_ "Circuit breaker is open")
    else Ok {| threshold := threshold self;
               reset_timeout := reset_timeout self;
               failure_count := 0;
               last_failure_time := last_failure_time self;
               is_open := false |}
  else Ok self.

(** [execute]; [current_time] is the reading of [time.time()] and
    [func] is what [await func(...)] comes to when the call reaches
    it.  One call runs at a time. *)
Definition execute {A : Type} (self : CircuitBreaker) (current_time : Q)
    (func : result A) : result A * CircuitBreaker :=
  match enter self current_time with
  | Raise e => (Raise e, self)
  | Ok self1 =>
      match func with
      | Ok r =>
          (Ok r,
           {| threshold := threshold self1;
              reset_timeout := reset_timeout self1;
              failure_count := 0;
              last_failure_time := last_failure_time self1;
              is_open := is_open self1 |})
      | Raise e =>
          let count := failure_count self1 + 1 in
          (Raise e,
           {| threshold := threshold self1;
              reset_timeout := reset_timeout self1;
              failure_count := count;
              last_failure_time := current_time;
              is_open :=
                if bool_decide (count >= threshold self1) then true
                else is_open self1 |})
      end
  end.

(** A series of calls, one after the other: the clock reading of each
    and what its function comes to. *)
Fixpoint execute_all {A : Type} (self : CircuitBreaker)
    (calls : list (Q * result A)) : list (result A) * CircuitBreaker :=
  match calls with
  | [] => ([], self)
  | (current_time, func) :: rest =>
      let '(r, self1) := execute self current_time func in
      let '(rs, self2) := execute_all self1 rest in
      (r :: rs, self2)
  end.

End Breaker.

(** ** The fetches of one cycle under the breaker of the service

    [OracleService] has one [CircuitBreaker], and [_fetch_all_sources]
    sends the fetch of every source through it, all of them as tasks of
    one [asyncio.gather].  A task runs up to its first wait, so the
    checks and the outcomes of the sources meet the breaker in an order
    that the event loop decides. *)

Module Gather.
Import Breaker.

(** The second half of [execute], when [await func(...)] has come back
    with [func]: the outcome is written into the breaker as it is at
    that moment; [current_time] is the clock reading the call took when
    it started. *)
Definition settle {A : Type} (self : CircuitBreaker) (current_time : Q)
    (func : result A) : CircuitBreaker :=
  match func with
  | Ok _ =>
      {| threshold := threshold self; reset_timeout := reset_timeout self;
         failure_count := 0;
         last_failure_time := last_failure_time self;
         is_open := is_open self |}
  | Raise _ =>
      let count := failure_count self + 1 in
      {| threshold := threshold self; reset_timeout := reset_timeout self;
         failure_count := count;
         last_failure_time := current_time;
         is_open :=
           if bool_decide (count >= threshold self) then true
           else is_open self |}
  end.

(** One task of [asyncio.gather], called with [return_exceptions=True], a
    call of [fetch_with_circuit_breaker(source)]: not started yet, past
    the check of the breaker and waiting for [source.fetch_data()], or
    done with its result. *)
Inductive Task (A : Type) :=
| Waiting
| Fetching (current_time : Q)
| Done (r : result A).
Arguments Waiting {A}.
Arguments Fetching {A} current_time.
Arguments Done {A} r.

(** What the event loop does next: it starts a task, which reads the
    clock and meets the check of the breaker, or it resumes a task
    whose fetch has come back. *)
Inductive Event :=
| Start (i : nat) (current_time : Q)
| Resume (i : nat).

(** The one breaker of the service and the tasks of the cycle. *)
Record Cycle (A : Type) := {
  breaker : CircuitBreaker;
  tasks : list (Task A)
}.
Arguments breaker {A} c.
Arguments tasks {A} c.

(** One step of the event loop; [fetches] is what [source.fetch_data()]
    comes to for each source of the list in this cycle.  An event for a
    task that is not in the state for it changes nothing. *)
Definition step {A : Type} (fetches : list (result A)) (c : Cycle A)
    (ev : Event) : Cycle A :=
  match ev with
  | Start i current_time =>
      match tasks c !! i with
      | Some Waiting =>
          match enter (breaker c) current_time with
          | Raise e =>
              {| breaker := breaker c;
                 tasks := <[i := Done (Raise e)]> (tasks c) |}
          | Ok b =>
              {| breaker := b;
                 tasks := <[i := Fetching current_time]> (tasks c) |}
          end
      | _ => c
      end
  | Resume i =>
      match tasks c !! i, fetches !! i with
      | Some (Fetching current_time), Some func =>
          {| breaker := settle (breaker c) current_time func;
             tasks := <[i := Done func]> (tasks c) |}
      | _, _ => c
      end
  end.

(** The cycle after the events, from a breaker [b] and tasks that have
    not started. *)
Definition run {A : Type} (fetches : list (result A)) (b : CircuitBreaker)
    (events : list Event) : Cycle A :=
  fold_left (step fetches) events
    {| breaker := b; tasks := replicate (length fetches) Waiting |}.

(** What [gather] returns once every task is done: the results in the
    order of the sources, which are the [fetched] of [Oracle.Source]. *)
Definition results {A : Type} (c : Cycle A) : option (list (result A)) :=
  mapM (fun t => match t with Done r => Some r | _ => None end) (tasks c).

End Gather.

(** ** Rate limiting, retries and tokens of the adapters *)

Module Limiter.
Local Open Scope Q_scope.

Record RateLimiter := {
  calls : Z;
  period : Q;
  timestamps : list Q
}.

(** [acquire]; [now] is the reading of [time.time()].  The answer is
    the time slept (zero when the call does not sleep) and the limiter
    afterwards; [None] is the [IndexError] of [self.timestamps[0]] on
    an empty list, which a limit of no calls at all runs into. *)
Definition acquire (self : RateLimiter) (now : Q)
    : option (Q * RateLimiter) :=
  let kept :=
    List.filter (fun ts => Qle_bool (now - ts) (period self))
      (timestamps self) in
  let stamped :=
    {| calls := calls self; period := period self;
       timestamps := kept ++ [now] |} in
  if bool_decide (Z.of_nat (length kept) >= calls self)%Z then
    match kept with
    | [] => None
    | oldest :: _ =>
        let sleep_time := oldest + period self - now in
        if Qlt_le_dec 0 sleep_time
        then Some (sleep_time, stamped)
        else Some (0, stamped)
    end
  else Some (0, stamped).

End Limiter.

Module Retry.
Local Open Scope Q_scope.

(** [retry_config] *)
Record RetryConfig := {
  max_attempts : Z;
  backoff_factor : Q;
  initial_delay : Q
}.

(** The defaults of [BaseAdapter.__init__]. *)
Definition default_retry_config : RetryConfig :=
  {| max_attempts := 3; backoff_factor := 2; initial_delay := 1 |}.

(** The class [MonitoringService] defines no method
    [record_source_error]: with a monitor attached the call made on
    the last failure raises. *)
Definition record_source_error : PyExn :=
  mkExn AttributeError
    "'MonitoringService' object has no attribute 'record_source_error'".

Section HandleRequest.
Context {A : Type}.
(** What the [n]-th call of [request_func] comes to. *)
Variable request_func : nat -> result A.
Variable has_monitor : bool.
Variable backoff_factor : Q.

(** The [while] loop of [_handle_request].  The source counts
    [attempt] up to [max_attempts]; the loop below counts the attempts
    that are left, [attempt] being the number of the next call.  It
    answers with the result ([None] when the loop ends without a
    [return]) and the sleeps made, in order. *)
Fixpoint attempts (left : nat) (attempt : nat) (delay : Q) (slept : list Q)
    : result (option A) * list Q :=
  match left with
  | O => (Ok None, slept)
  | S left' =>
      match request_func attempt with
      | Ok r => (Ok (Some r), slept)
      | Raise e =>
          match left' with
          | O =>
              if has_monitor then (Raise record_source_error, slept)
              else (Raise e, slept)
          | S _ =>
              attempts left' (S attempt) (delay * backoff_factor)
                (slept ++ [delay])
          end
      end
  end.
End HandleRequest.

(** [_handle_request] of an adapter without a rate limiter. *)
Definition _handle_request {A : Type} (retry_config : RetryConfig)
    (has_monitor : bool) (request_func : nat -> result A)
    : result (option A) * list Q :=
  attempts request_func has_monitor (backoff_factor retry_config)
    (Z.to_nat (max_attempts retry_config)) 0 (initial_delay retry_config) [].

End Retry.

Module Auth.
Local Open Scope Q_scope.

(** An entry of [token_cache]. *)
Record TokenData := { access_token : string; expires_at : Q }.

(** The handler of an ["oauth2"] configuration; [client_id] is the key
    of its token in the cache. *)
Record AuthHandler := {
  client_id : string;
  token_cache : gmap string TokenData
}.

(** The answer of the token endpoint. *)
Record TokenResponse := {
  resp_status : Z;
  resp_text : string;
  resp_access_token : string;
  resp_expires_in : Q
}.

(** [_get_oauth_token]; [now] is the reading of [time.time()] and
    [post] what the request to the token endpoint comes to when it is
    made. *)
Definition _get_oauth_token (self : AuthHandler) (now : Q)
    (post : result TokenResponse) : result string * AuthHandler :=
  let request : result string * AuthHandler :=
    match post with
    | Raise e => (Raise e, self)
    | Ok resp =>
        if bool_decide (resp_status resp <> 200)%Z
        then (Raise (mkExn Exception_
                       ("OAuth token request failed: " +:+ resp_text resp)),
              self)
        else
          (Ok (resp_access_token resp),
           {| client_id := client_id self;
              token_cache :=
                <[client_id self :=
                    {| access_token := resp_access_token resp;
                       expires_at := now + resp_expires_in resp |}]>
                  (token_cache self) |})
    end in
  match token_cache self !! client_id self with
  | Some token_data =>
      if Qlt_le_dec 300 (expires_at token_data - now)
      then (Ok (access_token token_data), self)
      else request
  | None => request
  end.

End Auth.

(** ** Maintenance windows and schedule updates *)

Module Maintenance.
Import Scheduler.

(** [create_maintenance_window]; [fresh] is the identifier drawn by
    [uuid4()] and [save] what the write of the window to the store
    comes to.  The window is entered into the table before the write. *)
Definition create_maintenance_window (self : TaskScheduler)
    (starts ends : Z) (text : string) (affected : option (list UUID))
    (fresh : UUID) (save : result unit)
    : result MaintenanceWindow * TaskScheduler :=
  let window :=
    {| window_id := fresh; start_time := starts; end_time := ends;
       description := text; affected_tasks := default [] affected |} in
  let self1 :=
    {| s_node_id := s_node_id self;
       _tasks := _tasks self;
       _executions := _executions self;
       _maintenance_windows :=
         dict_set fresh window (_maintenance_windows self);
       _running_tasks := _running_tasks self;
       retry_jobs := retry_jobs self |} in
  match save with
  | Ok _ => (Ok window, self1)
  | Raise e => (Raise e, self1)
  end.

End Maintenance.

(** ** Keys, rules and statistics of the validation service *)

Module ValidationConfig.
Import Validation.

Definition with_rules (self : ValidationService)
    (rules : list (UUID * ValidationRule)) : ValidationService :=
  {| history_window := history_window self;
     min_history_points := min_history_points self;
     confidence_threshold := confidence_threshold self;
     max_source_deviation := max_source_deviation self;
     rapid_change_threshold := rapid_change_threshold self;
     min_consensus_sources := min_consensus_sources self;
     _rules := rules; _findings := _findings self;
     _source_stats := _source_stats self;
     _historical_data := _historical_data self;
     _source_signatures := _source_signatures self |}.

(** [register_source_key] *)
Definition register_source_key (self : ValidationService)
    (source_id : string) (public_key : RSAPublicKey) : ValidationService :=
  {| history_window := history_window self;
     min_history_points := min_history_points self;
     confidence_threshold := confidence_threshold self;
     max_source_deviation := max_source_deviation self;
     rapid_change_threshold := rapid_change_threshold self;
     min_consensus_sources := min_consensus_sources self;
     _rules := _rules self; _findings := _findings self;
     _source_stats := _source_stats self;
     _historical_data := _historical_data self;
     _source_signatures :=
       <[source_id := public_key]> (_source_signatures self) |}.

(** [add_validation_rule] *)
Definition add_validation_rule (self : ValidationService)
    (rule : ValidationRule) : ValidationService :=
  with_rules self (dict_set (rule_id rule) rule (_rules self)).

(** [rule.parameters.update(parameters)] *)
Definition update_parameters (rule : ValidationRule)
    (new_parameters : list (string * CVal)) : ValidationRule :=
  {| rule_id := rule_id rule; name := name rule;
     description := description rule; stage := stage rule;
     severity := severity rule; source_types := source_types rule;
     condition := condition rule;
     parameters :=
       fold_left (fun d kv => dict_set (fst kv) (snd kv) d) new_parameters
         (parameters rule);
     enabled := enabled rule |}.

(** [update_rule_parameters]: nothing happens for an unknown rule. *)
Definition update_rule_parameters (self : ValidationService)
    (rule_id : UUID) (new_parameters : list (string * CVal))
    : ValidationService :=
  match dict_get rule_id (_rules self) with
  | Some rule =>
      with_rules self
        (dict_set rule_id (update_parameters rule new_parameters)
           (_rules self))
  | None => self
  end.

(** [rule.enabled = flag], an assignment to the field of a rule. *)
Definition set_enabled (flag : bool) (rule : ValidationRule)
    : ValidationRule :=
  {| rule_id := rule_id rule; name := name rule;
     description := description rule; stage := stage rule;
     severity := severity rule; source_types := source_types rule;
     condition := condition rule; parameters := parameters rule;
     enabled := flag |}.

End ValidationConfig.

(** * Properties *)

(** ** Dictionaries *)

Section PyDictFacts.
Context {K V : Type} `{EqDecision K}.
Implicit Types (d : list (K * V)).

Lemma dict_get_set_eq k v d : dict_get k (dict_set k v d) = Some v.
Proof.
  induction d as [|[k' v'] d IH]; simpl.
  - by rewrite decide_True.
  - destruct (decide (k = k')) as [->|Hne]; simpl.
    + by rewrite decide_True.
    + by rewrite decide_False.
Qed.

Lemma dict_get_set_ne k k' v d :
  k ≠ k' -> dict_get k (dict_set k' v d) = dict_get k d.
Proof.
  intros Hne. induction d as [|[k0 v0] d IH]; simpl.
  - by rewrite decide_False.
  - destruct (decide (k' = k0)) as [->|Hne']; simpl.
    + by rewrite !decide_False.
    + destruct (decide (k = k0)); auto.
Qed.
End PyDictFacts.

(** ** Transaction manager *)

Section EthFacts.
Import Eth.

Lemma get_next_nonce_hit self chain address t c t0 :
  _nonce_cache self !! address = Some (c, t0) ->
  (t - t0 < max_nonce_cache_age self)%Q ->
  _get_next_nonce self chain address t = (c, self).
Proof.
  intros Hc Hlt. unfold _get_next_nonce. rewrite Hc.
  destruct (Qlt_le_dec _ _) as [_|Hle]; [done|].
  exfalso. apply (Qlt_not_le _ _ Hlt Hle).
Qed.

Lemma get_next_nonce_miss self chain address t :
  _nonce_cache self !! address = None ->
  _get_next_nonce self chain address t =
    (get_transaction_count chain address,
     set_nonce_cache self
       (<[address := (get_transaction_count chain address + 1, t)]>
          (_nonce_cache self))).
Proof. intros Hc. unfold _get_next_nonce. by rewrite Hc. Qed.

(** [_get_next_nonce] writes the nonce cache and nothing else. *)
Lemma get_next_nonce_frame self chain address t :
  let self' := snd (_get_next_nonce self chain address t) in
  account self' = account self /\
  config self' = config self /\
  _gas_price_cache self' = _gas_price_cache self /\
  _pending_transactions self' = _pending_transactions self.
Proof.
  unfold _get_next_nonce.
  destruct (_nonce_cache self !! address) as [[c t0]|]; [|done].
  by destruct (Qlt_le_dec _ _).
Qed.

(** No call of [_get_optimal_gas_price] changes the service: a fresh
    cached price is returned as it is, and the refresh raises before it
    writes. *)
Lemma get_optimal_gas_price_frame self chain t :
  snd (_get_optimal_gas_price self chain t) = self.
Proof.
  unfold _get_optimal_gas_price.
  destruct (_gas_price_cache self); [destruct (Qlt_le_dec _ _)|]; done.
Qed.

(** Without a cached price there is no price to be had. *)
Lemma get_optimal_gas_price_empty self chain t :
  _gas_price_cache self = None ->
  _get_optimal_gas_price self chain t
  = (Raise (mkExn TypeError "'coroutine' object is not subscriptable"), self).
Proof. intros Hc. unfold _get_optimal_gas_price. by rewrite Hc. Qed.


Definition demo_config : NetworkConfig :=
  {| rpc_url := "http://localhost:8545"; chain_id := 1;
     network_type := PRIVATE; block_time := 12;
     required_confirmations := 2; max_gas_price := 110;
     priority_fee := 1 |}.

Definition demo_chain : Chain :=
  {| get_transaction_count := fun _ => 7;
     base_fee_per_gas := 10;
     generate_gas_price := 15;
     block_number := Ok 100;
     get_transaction_receipt := fun _ => Ok None;
     get_transaction := fun _ =>
       Ok (Some {| tx_from := "0xA1"; tx_to := "0xB2"; tx_value := 0;
                   tx_input := "0x"; tx_nonce := 7; tx_gasPrice := 100;
                   tx_blockNumber := Some 80 |}) |}.

(** The service of the node 0xA1 as [__init__] builds it, with the
    default cache ages. *)
Definition demo_service : EthereumService :=
  init demo_config (Some "0xA1") 300 60 600.


(** C1 at the failing input: the chain reports 7 pending transactions of
    0xA1.  The first call, at time 0, raises [TypeError] and leaves
    [(8, 0)] in the nonce cache; the second call, at time 1, raises
    again.  The nonce 7 was taken from the chain and given to no
    transaction. *)
Example C1_failing_input :
  let r1 := _get_tx_params demo_service demo_chain 0 0 in
  let r2 := _get_tx_params (snd r1) demo_chain 1 1 in
  (exists e, fst r1 = Raise e /\ exn_class e = TypeError) /\
  _nonce_cache (snd r1) !! "0xA1"%string = Some (8, 0%Q) /\
  (exists e, fst r2 = Raise e /\ exn_class e = TypeError) /\
  _nonce_cache (snd r2) !! "0xA1"%string = Some (8, 0%Q).
Proof.
  simpl. split; [eexists; split; [vm_compute; reflexivity|done]|].
  split; [vm_compute; reflexivity|].
  split; [eexists; split; [vm_compute; reflexivity|done]|].
  vm_compute. reflexivity.
Qed.

(** [int(100 * 1.2)] is 120 and [int(7 * 1.2)] is 8. *)
Example bump_gas_price_small :
  bump_gas_price 100 = Some 120 /\ bump_gas_price 7 = Some 8.
Proof. vm_compute. done. Qed.

(** Above 2^53 wei the product is taken on a rounded price: a tenth of
    an ether and one wei gives [int(1.2e17)], one less than the exact
    six fifths cut to an integer. *)
Example bump_gas_price_rounds :
  bump_gas_price 100000000000000001 = Some 120000000000000000 /\
  Z.quot (100000000000000001 * 12) 10 = 120000000000000001.
Proof. vm_compute. done. Qed.

Section Monitoring.
Variable impl :
  option (EthereumService -> TxParams -> result HexStr * EthereumService).

Lemma monitor_entries_app self chain current_block pre rest :
  monitor_entries impl self chain current_block (pre ++ rest)
  = match monitor_entries impl self chain current_block pre with
    | (Ok _, self1) => monitor_entries impl self1 chain current_block rest
    | (Raise e, self1) => (Raise e, self1)
    end.
Proof.
  revert self. induction pre as [|[h s] pre IH]; intros self; [done|].
  simpl.
  destruct (monitor_entry impl self chain current_block h s)
    as [[[]|e] self1].
  - apply IH.
  - done.
Qed.

(** Entries that are not Pending are passed over. *)
Lemma monitor_entries_not_pending self chain current_block items :
  Forall (fun p => snd p <> PENDING) items ->
  monitor_entries impl self chain current_block items = (Ok tt, self).
Proof.
  induction 1 as [|[h s] items Hs _ IH]; [done|].
  simpl in *. unfold monitor_entry. by rewrite decide_False.
Qed.

(** The explicit guard: a bumped price above [max_gas_price] sends
    nothing and leaves the service as it is. *)
Lemma handle_stuck_above_cap self chain tx_hash tx new_gas_price :
  get_transaction chain tx_hash = Ok (Some tx) ->
  bump_gas_price (tx_gasPrice tx) = Some new_gas_price ->
  max_gas_price (config self) < new_gas_price ->
  _handle_stuck_transaction impl self chain tx_hash = self.
Proof.
  intros Htx Hb Hcap. unfold _handle_stuck_transaction.
  rewrite Htx, Hb. rewrite decide_False by lia. done.
Qed.

(** C5 (the code at the failing input and beyond).  A tracked Pending
    transaction without a receipt whose body has no block number, as
    every transaction has that still waits in the mempool, is never
    replaced, however long it has waited: the check subtracts the
    missing block number from the current block and raises
    [TypeError].  Nothing is built or sent and the entry stays as it
    is; when no Pending entry comes before it in the table, the round
    leaves the whole service as it found it. *)
Theorem C5_unmined_transaction_is_not_replaced
    self chain current_block pre tx_hash tx post :
  block_number chain = Ok current_block ->
  _pending_transactions self = pre ++ (tx_hash, PENDING) :: post ->
  Forall (fun p => snd p <> PENDING) pre ->
  get_transaction_receipt chain tx_hash = Ok None ->
  get_transaction chain tx_hash = Ok (Some tx) ->
  tx_blockNumber tx = None ->
  (exists e,
     monitor_entry impl self chain current_block tx_hash PENDING
     = (Raise e, self) /\
     exn_class e = TypeError) /\
  _monitor_pending_transactions impl self chain = self.
Proof.
  intros Hb Hp Hpre Hr Ht Hn.
  assert (He : monitor_entry impl self chain current_block tx_hash PENDING
               = (Raise (mkExn TypeError
                    "unsupported operand type(s) for -: 'int' and 'NoneType'"),
                  self)).
  { unfold monitor_entry. rewrite decide_True by done.
    by rewrite Hr, Ht, Hn. }
  split; [eexists; split; [exact He|done]|].
  unfold _monitor_pending_transactions.
  rewrite Hb, Hp, monitor_entries_app.
  rewrite monitor_entries_not_pending by done.
  simpl. by rewrite He.
Qed.
End Monitoring.

(** The class as the sources define it has no [_send_transaction_impl]:
    whatever the chain says of a transaction, handling it as stuck
    changes nothing. *)
Lemma handle_stuck_without_sender self chain tx_hash :
  _handle_stuck_transaction None self chain tx_hash = self.
Proof.
  unfold _handle_stuck_transaction, send_transaction.
  destruct (get_transaction chain tx_hash) as [[tx|]|]; try done.
  destruct (bump_gas_price _); [|done]. by destruct (decide _).
Qed.

(** A class that supplies the missing method: every submission succeeds
    with the hash 0xbb. *)
Definition demo_sender
    : option (EthereumService -> TxParams -> result HexStr * EthereumService) :=
  Some (fun self _ => (Ok "0xbb"%string, self)).

(** One tracked Pending transaction under a cap of [cap] wei. *)
Definition demo_tracking (cap : Wei) : EthereumService :=
  {| config :=
       {| rpc_url := "http://localhost:8545"; chain_id := 1;
          network_type := PRIVATE; block_time := 12;
          required_confirmations := 2; max_gas_price := cap;
          priority_fee := 1 |};
     account := Some "0xA1";
     _nonce_cache := ∅;
     _pending_transactions := [("0xaa", PENDING)];
     _gas_price_cache := None;
     _last_gas_update := 0%Q;
     max_nonce_cache_age := 300%Q;
     gas_price_update_interval := 60%Q;
     transaction_timeout := 600%Q |}.

(** The transaction 0xaa as the node sees it while it waits in the
    mempool: gas price 100, nonce 7, no block number. *)
Definition mempool_tx : Tx :=
  {| tx_from := "0xA1"; tx_to := "0xB2"; tx_value := 0;
     tx_input := "0x"; tx_nonce := 7; tx_gasPrice := 100;
     tx_blockNumber := None |}.

(** The chain at block 100: no receipt for any hash, and the body
    [mempool_tx] for every hash. *)
Definition mempool_chain : Chain :=
  {| get_transaction_count := fun _ => 7;
     base_fee_per_gas := 10;
     generate_gas_price := 15;
     block_number := Ok 100;
     get_transaction_receipt := fun _ => Ok None;
     get_transaction := fun _ => Ok (Some mempool_tx) |}.

Lemma C5_unmined_transaction_is_not_replaced_witness :
  (exists e,
     monitor_entry None (demo_tracking 200) mempool_chain 100 "0xaa" PENDING
     = (Raise e, demo_tracking 200) /\
     exn_class e = TypeError) /\
  _monitor_pending_transactions None (demo_tracking 200) mempool_chain
  = demo_tracking 200.
Proof.
  apply (C5_unmined_transaction_is_not_replaced None (demo_tracking 200)
           mempool_chain 100 [] "0xaa" mempool_tx []).
  - reflexivity.
  - reflexivity.
  - constructor.
  - reflexivity.
  - reflexivity.
  - reflexivity.
Defined.

(** C5 at the failing input: the bumped price 120 is within the cap of
    200, and yet after the round the table still holds 0xaa as Pending
    and nothing else, with the class of the sources and with a class
    that can send. *)
Example C5_failing_input :
  bump_gas_price (tx_gasPrice mempool_tx) = Some 120 /\
  _pending_transactions
    (_monitor_pending_transactions None (demo_tracking 200) mempool_chain)
  = [("0xaa"%string, PENDING)] /\
  _pending_transactions
    (_monitor_pending_transactions demo_sender (demo_tracking 200)
       mempool_chain)
  = [("0xaa"%string, PENDING)].
Proof. vm_compute. done. Qed.

End EthFacts.

(** ** Adapters and their cache *)

Section AdapterFacts.
Import Adapter.
Variable validate : Payload -> bool.
Variable normalize : Payload -> Payload.

Lemma with_cache_id a : with_cache a (adapter_cache a) = a.
Proof. by destruct a. Qed.

Lemma get_hit c key now e :
  cache c !! key = Some e ->
  (now - timestamp e < ttl c)%Q ->
  get c key now = (Some (data e), c).
Proof.
  intros Hc Hlt. unfold get. rewrite Hc.
  destruct (Qlt_le_dec _ _) as [_|Hle]; [done|].
  exfalso. apply (Qlt_not_le _ _ Hlt Hle).
Qed.

Lemma cached_or_hit a env miss e :
  cache (adapter_cache a) !! endpoint a = Some e ->
  (t_get env - timestamp e < ttl (adapter_cache a))%Q ->
  truthy (data e) = true ->
  cached_or a env miss = (Ok (data e), a).
Proof.
  intros Hc Hlt Ht. unfold cached_or.
  rewrite (get_hit _ _ _ _ Hc Hlt), Ht. by rewrite with_cache_id.
Qed.

(** The three recording helpers leave the adapter as it is: each builds
    the coroutine of [record_metric] and drops it. *)
Lemma record_latency_id a op : _record_latency a op = a.
Proof. unfold _record_latency, discard. by destruct (has_monitor a). Qed.

Lemma record_error_id a error_type : _record_error a error_type = a.
Proof. unfold _record_error, discard. by destruct (has_monitor a). Qed.

Lemma record_data_point_id a d : _record_data_point a d = a.
Proof.
  unfold _record_data_point, discard.
  by destruct (has_monitor a && numeric_value d).
Qed.

(** Had the call been awaited, the sample would have been recorded. *)
Lemma awaited_latency_is_recorded a labels :
  latency_samples
    (await a (record_metric {| m_name := "source_latency";
                               m_labels := labels |}))
  = S (latency_samples a).
Proof.
  unfold latency_samples. simpl.
  rewrite filter_app, length_app. simpl. lia.
Qed.

(** A fetch that finds a fresh, non-empty entry returns it and leaves
    the adapter as it is: it neither connects nor requests. *)
Lemma fetch_data_hit a env e :
  kind a ≠ WebSocket ->
  (kind a = Database -> connected a = true) ->
  cache (adapter_cache a) !! endpoint a = Some e ->
  (t_get env - timestamp e < ttl (adapter_cache a))%Q ->
  truthy (data e) = true ->
  fetch_data validate normalize a env = (Ok (data e), a).
Proof.
  intros Hk Hdb Hc Hlt Ht. unfold fetch_data, _fetch_data_impl.
  destruct (kind a) eqn:K; try done.
  - rewrite (cached_or_hit _ _ _ _ Hc Hlt Ht).
    by rewrite record_latency_id, record_data_point_id.
  - unfold ensure_connected. rewrite Hdb by done.
    rewrite (cached_or_hit _ _ _ _ Hc Hlt Ht).
    by rewrite record_latency_id, record_data_point_id.
  - rewrite (cached_or_hit _ _ _ _ Hc Hlt Ht).
    by rewrite record_latency_id, record_data_point_id.
Qed.

(** Facts that a fetch keeps, whatever path it takes. *)
Definition stored (a : BaseAdapter) (d : Payload) (t : Q) : Prop :=
  cache (adapter_cache a) !! endpoint a = Some {| data := d; timestamp := t |}.

Lemma request_validate_store_stores a env d a1 :
  request_validate_store validate normalize a env = (Ok d, a1) ->
  stored a1 d (t_set env) /\
  ttl (adapter_cache a1) = ttl (adapter_cache a) /\
  kind a1 = kind a /\ has_monitor a1 = has_monitor a /\
  connected a1 = connected a.
Proof.
  unfold request_validate_store, stored.
  destruct (request_outcome env) as [res|]; [|done].
  destruct (validate res); [|done].
  intros [= <- <-]. simpl. rewrite lookup_insert_eq. auto.
Qed.

Lemma connect_request_store_stores a env d a1 :
  connect_request_store a env = (Ok d, a1) ->
  stored a1 d (t_set env) /\
  ttl (adapter_cache a1) = ttl (adapter_cache a) /\
  kind a1 = kind a /\ has_monitor a1 = has_monitor a /\
  metrics a1 = metrics a.
Proof.
  unfold connect_request_store, ensure_connected, connect, stored.
  destruct (connected a) eqn:Hcon.
  - destruct (request_outcome env) as [res|]; [|done].
    intros [= <- <-]. simpl. rewrite lookup_insert_eq. auto.
  - destruct (connect_outcome env); [|done].
    rewrite record_latency_id.
    destruct (request_outcome env) as [res|]; [|done].
    intros [= <- <-]. simpl. rewrite lookup_insert_eq. auto.
Qed.

Lemma get_frame c key now :
  ttl (snd (get c key now)) = ttl c.
Proof.
  unfold get. destruct (cache c !! key); [|done].
  by destruct (Qlt_le_dec _ _).
Qed.

(** A successful fetch that went to the source has cached what it
    returns, stamped with the time read by [cache.set]. *)
Lemma fetch_data_stores a env d a1 :
  kind a ≠ WebSocket ->
  fetch_data validate normalize a env = (Ok d, a1) ->
  requests a1 = S (requests a) ->
  stored a1 d (t_set env) /\
  ttl (adapter_cache a1) = ttl (adapter_cache a) /\
  kind a1 = kind a /\ has_monitor a1 = has_monitor a /\
  (kind a = Database -> connected a1 = true).
Proof.
  intros Hk Hf Hr. unfold fetch_data in Hf.
  destruct (_fetch_data_impl validate normalize a env) as [[d'|e] a0] eqn:Hi;
    [|done].
  rewrite record_latency_id, record_data_point_id in Hf.
  injection Hf as <- <-.
  unfold _fetch_data_impl in Hi.
  destruct (kind a) eqn:K; try done.
  - (* REST *)
    unfold cached_or in Hi.
    pose proof (get_frame (adapter_cache a) (endpoint a) (t_get env)) as Ht.
    destruct (get (adapter_cache a) (endpoint a) (t_get env)) as [cd c].
    simpl in Ht.
    assert (Hmiss : connect_request_store (with_cache a c) env = (Ok d', a0)).
    { destruct cd as [d0|]; [destruct (truthy d0)|]; try done.
      injection Hi as <- <-. simpl in Hr. lia. }
    destruct (connect_request_store_stores _ _ _ _ Hmiss)
      as (S1 & T1 & K1 & M1 & _).
    simpl in *. repeat split; congruence.
  - (* database *)
    unfold ensure_connected in Hi.
    assert (exists a', connected a' = true /\ kind a' = kind a /\
              has_monitor a' = has_monitor a /\
              ttl (adapter_cache a') = ttl (adapter_cache a) /\
              requests a' = requests a /\
              cached_or a' env
                (fun a2 => request_validate_store validate normalize a2 env)
                = (Ok d', a0)) as (a' & Hc' & K' & M' & T' & R' & Hi').
    { destruct (connected a) eqn:Hcon.
      - exists a. auto 10.
      - unfold connect in Hi. destruct (connect_outcome env); [|done].
        rewrite record_latency_id in Hi.
        eexists. split; [|split; [|split; [|split; [|split; [|exact Hi]]]]];
          done. }
    unfold cached_or in Hi'.
    pose proof (get_frame (adapter_cache a') (endpoint a') (t_get env)) as Ht.
    destruct (get (adapter_cache a') (endpoint a') (t_get env)) as [cd c].
    simpl in Ht.
    assert (Hmiss : request_validate_store validate normalize
                      (with_cache a' c) env = (Ok d', a0)).
    { destruct cd as [d0|]; [destruct (truthy d0)|]; try done.
      injection Hi' as <- <-. simpl in Hr. lia. }
    destruct (request_validate_store_stores _ _ _ _ Hmiss)
      as (S1 & T1 & K1 & M1 & N1).
    simpl in *. repeat split; try congruence.
  - (* file *)
    unfold cached_or in Hi.
    pose proof (get_frame (adapter_cache a) (endpoint a) (t_get env)) as Ht.
    destruct (get (adapter_cache a) (endpoint a) (t_get env)) as [cd c].
    simpl in Ht.
    assert (Hmiss : request_validate_store validate normalize
                      (with_cache a c) env = (Ok d', a0)).
    { destruct cd as [d0|]; [destruct (truthy d0)|]; try done.
      injection Hi as <- <-. simpl in Hr. lia. }
    destruct (request_validate_store_stores _ _ _ _ Hmiss)
      as (S1 & T1 & K1 & M1 & N1).
    simpl in *. repeat split; congruence.
Qed.

(** C7 (amended).  For the REST, database and file adapters: after a
    fetch that went to the source and returned a non-empty [d], a second
    fetch whose cache read happens less than [cache_ttl] after the first
    one stored its result returns the same [d] from the cache, with no
    connection attempt and no request to the source, and the monitor
    has no more [source_latency] samples after it than before. *)
Theorem C7_cache_hit_skips_source_and_adds_no_sample a env1 env2 d a1 :
  kind a ≠ WebSocket ->
  fetch_data validate normalize a env1 = (Ok d, a1) ->
  requests a1 = S (requests a) ->
  truthy d = true ->
  (t_get env2 - t_set env1 < ttl (adapter_cache a))%Q ->
  exists a2,
    fetch_data validate normalize a1 env2 = (Ok d, a2) /\
    requests a2 = requests a1 /\
    connects a2 = connects a1 /\
    adapter_cache a2 = adapter_cache a1 /\
    latency_samples a2 = latency_samples a1.
Proof.
  intros Hk Hf Hr Ht Hlt.
  destruct (fetch_data_stores a env1 d a1 Hk Hf Hr) as (S1 & T1 & K1 & M1 & N1).
  unfold stored in S1.
  exists a1. split; [|done].
  apply (fetch_data_hit a1 env2 {| data := d; timestamp := t_set env1 |}).
  - by rewrite K1.
  - rewrite K1. exact N1.
  - exact S1.
  - simpl. by rewrite T1.
  - exact Ht.
Qed.

End AdapterFacts.

Section AdapterExamples.
Import Adapter.

(** A REST adapter with a monitor and [cache_ttl = 60], not yet
    connected, nothing cached. *)
Definition demo_adapter : BaseAdapter :=
  {| kind := Rest; source_id := "src-1"; source_type := "rest";
     endpoint := "https://example.org/price"; has_monitor := true;
     adapter_cache := {| ttl := 60%Q; cache := ∅ |};
     connected := false; _latest_data := None;
     metrics := []; requests := 0; connects := 0 |}.

Definition demo_payload : Payload := [("value", JNum 100%Q)].

(** The source answers [{"value": 100}]; the clock reads [t]. *)
Definition demo_env (t : Q) : Env :=
  {| t_get := t; t_set := t; connect_outcome := Ok tt;
     request_outcome := Ok demo_payload |}.

Definition accept_all (_ : Payload) : bool := true.
Definition keep (d : Payload) : Payload := d.

Definition demo_adapter_after_first : BaseAdapter :=
  snd (fetch_data accept_all keep demo_adapter (demo_env 0)).

Lemma C7_cache_hit_skips_source_and_adds_no_sample_witness :
  exists a2,
    fetch_data accept_all keep demo_adapter_after_first (demo_env 1)
      = (Ok demo_payload, a2) /\
    requests a2 = requests demo_adapter_after_first /\
    connects a2 = connects demo_adapter_after_first /\
    adapter_cache a2 = adapter_cache demo_adapter_after_first /\
    latency_samples a2 = latency_samples demo_adapter_after_first.
Proof.
  apply (C7_cache_hit_skips_source_and_adds_no_sample accept_all keep
           demo_adapter (demo_env 0) (demo_env 1) demo_payload
           demo_adapter_after_first).
  - discriminate.
  - reflexivity.
  - reflexivity.
  - reflexivity.
  - vm_compute. reflexivity.
Defined.

(** Two fetches one second apart under a [cache_ttl] of 60 s: the second
    is served from the cache (one connection and one request in all),
    and the monitor of the adapter has recorded nothing, neither for the
    fetch that went to the source nor for the cache hit. *)
Example cache_hit_after_fetch :
  let a1 := snd (fetch_data accept_all keep demo_adapter (demo_env 0)) in
  let a2 := snd (fetch_data accept_all keep a1 (demo_env 1)) in
  fst (fetch_data accept_all keep demo_adapter (demo_env 0)) = Ok demo_payload /\
  fst (fetch_data accept_all keep a1 (demo_env 1)) = Ok demo_payload /\
  requests a1 = 1%nat /\ requests a2 = 1%nat /\
  connects a1 = 1%nat /\ connects a2 = 1%nat /\
  metrics a1 = [] /\ metrics a2 = [].
Proof. vm_compute. repeat split. Qed.

(** A WebSocket adapter, connected, whose listener has received
    [{"value": 100}]; [cache_ttl = 60]. *)
Definition demo_socket : BaseAdapter :=
  {| kind := WebSocket; source_id := "ws-1"; source_type := "websocket";
     endpoint := "wss://example.org/feed"; has_monitor := false;
     adapter_cache := {| ttl := 60%Q; cache := ∅ |};
     connected := true; _latest_data := Some demo_payload;
     metrics := []; requests := 0; connects := 0 |}.

(** C7 (as stated) fails for the WebSocket adapter, which does not use
    the cache: of two fetches one second apart, under a [cache_ttl] of
    60 s, the first returns [{"value": 100}] and the second, after the
    listener received [{"value": 101}], returns [{"value": 101}]. *)
Lemma C7_counterexample :
  let a1 := snd (fetch_data accept_all keep demo_socket (demo_env 0)) in
  let a2 := _listen_message accept_all keep a1 [("value", JNum 101%Q)] in
  (t_get (demo_env 1) - t_get (demo_env 0) < ttl (adapter_cache demo_socket))%Q /\
  fst (fetch_data accept_all keep demo_socket (demo_env 0))
    = Ok [("value", JNum 100%Q)] /\
  fst (fetch_data accept_all keep a2 (demo_env 1))
    = Ok [("value", JNum 101%Q)].
Proof. vm_compute. repeat split. Qed.

End AdapterExamples.

(** ** Aggregation *)

Section OracleFacts.
Import Oracle.
Local Open Scope R_scope.

Lemma div_nonzero x y : y <> 0 -> Py.div x y = Ok (x / y).
Proof. intros Hy. unfold Py.div. by rewrite decide_False. Qed.

Lemma div_by_zero x :
  Py.div x 0 = Raise (mkExn ZeroDivisionError "float division by zero").
Proof. unfold Py.div. by rewrite decide_True. Qed.

Lemma sum_constant c l :
  Forall (fun v => v = c) l -> Py.sum l = INR (length l) * c.
Proof.
  induction 1 as [|v l -> _ IH].
  - simpl. lra.
  - change (Py.sum (c :: l)) with (c + Py.sum l).
    rewrite IH. rewrite length_cons, S_INR. lra.
Qed.

Lemma sum_squares_constant c l :
  Forall (fun v => v = c) l ->
  Py.sum (map (fun x => (x - c) * (x - c)) l) = 0.
Proof.
  induction 1 as [|v l -> _ IH]; simpl; [done|].
  rewrite IH. lra.
Qed.

Lemma mean_constant c l :
  l <> [] -> Forall (fun v => v = c) l -> Py.mean l = Ok c.
Proof.
  intros Hne Hall. unfold Py.mean. destruct l as [|v l]; [done|].
  f_equal. rewrite (sum_constant c) by done.
  assert (INR (length (v :: l)) <> 0) by (apply not_0_INR; done).
  by field.
Qed.

(** The sample deviation of equal values is zero. *)
Lemma stdev_constant c l :
  (2 <= length l)%nat -> Forall (fun v => v = c) l -> Py.stdev l = Ok 0.
Proof.
  intros Hlen Hall. unfold Py.stdev, Py.variance.
  destruct (Nat.ltb_spec (length l) 2) as [?|_]; [lia|].
  assert (Hn : INR (length l) <> 0) by (apply not_0_INR; lia).
  replace (Py.sum l / INR (length l)) with c
    by (rewrite (sum_constant c) by done; by field).
  rewrite sum_squares_constant by done.
  simpl. f_equal. unfold Rdiv. rewrite Rmult_0_l. apply sqrt_0.
Qed.

(** C10.  Two or more data points with one and the same numeric value
    (and as many weights) make [aggregate] raise [ZeroDivisionError]:
    the deviation is zero and the first z-score divides by it. *)
Theorem C10_equal_values_raise_zero_division
    outlier_threshold (data_points : list Data) (weights : list R) c :
  length data_points = length weights ->
  (2 <= length data_points)%nat ->
  Forall (fun d => default 0 (d_value d) = c) data_points ->
  aggregate outlier_threshold data_points weights =
    Raise (mkExn ZeroDivisionError "float division by zero").
Proof.
  intros Hlen H2 Hall. unfold aggregate.
  assert (Hv : Forall (fun v => v = c)
                 (map (fun d => default 0 (d_value d)) data_points)).
  { apply Forall_map. exact Hall. }
  set (values := map (fun d => default 0 (d_value d)) data_points) in *.
  assert (Hlv : length values = length data_points)
    by (unfold values; apply length_map).
  destruct data_points as [|d1 ds]; [simpl in H2; lia|].
  destruct weights as [|w1 ws]; [simpl in Hlen; lia|].
  simpl bool_decide. rewrite Hlen, Nat.eqb_refl. simpl negb. cbn match.
  unfold _remove_outliers.
  destruct (Nat.ltb_spec (length values) 2) as [?|_]; [lia|].
  rewrite (mean_constant c) by (done || (intros E; rewrite E in Hlv; done)).
  rewrite (stdev_constant c) by (done || lia).
  destruct values as [|v vs] eqn:Ev; [simpl in Hlv; lia|].
  simpl. by rewrite div_by_zero.
Qed.

Lemma C10_equal_values_raise_zero_division_witness :
  aggregate 2
    [ {| d_value := Some 100; d_type := None |};
      {| d_value := Some 100; d_type := None |} ] [1; 1]
  = Raise (mkExn ZeroDivisionError "float division by zero").
Proof.
  apply (C10_equal_values_raise_zero_division 2 _ _ 100).
  - reflexivity.
  - simpl. lia.
  - repeat constructor.
Defined.

(** *** The happy path of the specification *)

Definition pt (v : R) : Data := {| d_value := Some v; d_type := None |}.

Lemma mean3 : Py.mean [100; 201/2; 199/2] = Ok 100.
Proof. unfold Py.mean. f_equal. simpl. lra. Qed.

Lemma stdev3 : Py.stdev [100; 201/2; 199/2] = Ok (1/2).
Proof.
  unfold Py.stdev, Py.variance. simpl. f_equal.
  replace (_ / _) with ((1/2) * (1/2)) by lra.
  apply sqrt_square. lra.
Qed.

Lemma keep_inliers_cons t m s v w rest :
  s <> 0 ->
  keep_inliers t m s ((v, w) :: rest) =
    (rest' ← keep_inliers t m s rest;
     Ok (if decide (Rabs ((v - m) / s) < t) then (v, w) :: rest' else rest')).
Proof. intros Hs. simpl. unfold Py.div. by rewrite decide_False. Qed.

(** The three z-scores are 0, 1 and -1: nothing is removed. *)
Lemma remove_outliers3 :
  _remove_outliers 2 [100; 201/2; 199/2] [1; 1; 1]
  = Ok ([100; 201/2; 199/2], [1; 1; 1]).
Proof.
  unfold _remove_outliers. simpl length. cbn [Nat.ltb Nat.leb].
  rewrite mean3, stdev3. cbn [mbind result_bind zip zip_with].
  rewrite !keep_inliers_cons by lra. cbn [keep_inliers mbind result_bind].
  rewrite !decide_True; [reflexivity| | |];
    unfold Rabs; destruct (Rcase_abs _); lra.
Qed.

(** The variance is 1/4, the average weight 1 and 3 sources count for
    3/5: the confidence is 4/5 * 1 * 3/5. *)
Lemma confidence3 :
  _calculate_confidence [100; 201/2; 199/2] [1; 1; 1] = Ok (12/25).
Proof.
  unfold _calculate_confidence. simpl length. cbn [Nat.ltb Nat.leb].
  unfold Py.variance. simpl.
  rewrite !div_nonzero by lra. simpl. f_equal.
  unfold Rmin. repeat destruct (Rle_dec _ _); lra.
Qed.

Lemma aggregate_happy_path :
  aggregate 2 [pt 100; pt (201/2); pt (199/2)] [1; 1; 1]
  = Ok {| value := 100; confidence := 12/25; num_sources := 3 |}.
Proof.
  unfold aggregate. simpl bool_decide. cbn [orb negb length Nat.eqb].
  change (map _ [pt 100; pt (201/2); pt (199/2)]) with [100; 201/2; 199/2].
  rewrite remove_outliers3. cbn [mbind result_bind].
  rewrite confidence3. simpl.
  rewrite div_nonzero by lra. simpl. f_equal. f_equal. lra.
Qed.

(** C6 (amended).  Aggregating 100.0, 100.5 and 99.5 under the weights
    [1, 1, 1] and the threshold 2.0 returns the weighted mean 100.0
    with [num_sources = 3] and the confidence
    1/(1 + 0.25) * 1 * min(1, 3/5) = 0.48, which is below 0.5. *)
Theorem C6_happy_path_confidence :
  exists r,
    aggregate 2 [pt 100; pt (201/2); pt (199/2)] [1; 1; 1] = Ok r /\
    value r = 100 /\ num_sources r = 3%nat /\
    confidence r = 12/25 /\ confidence r < 1/2.
Proof.
  eexists. split; [apply aggregate_happy_path|]. simpl.
  repeat split; lra.
Qed.

(** C6 (as stated) fails: no result of that aggregation has a
    confidence above 0.5. *)
Lemma C6_counterexample :
  ~ exists r,
      aggregate 2 [pt 100; pt (201/2); pt (199/2)] [1; 1; 1] = Ok r /\
      value r = 100 /\ num_sources r = 3%nat /\ confidence r > 1/2.
Proof.
  intros (r & Hr & _ & _ & Hc).
  rewrite aggregate_happy_path in Hr. injection Hr as <-.
  simpl in Hc. lra.
Qed.

(** A single data point is not filtered; its confidence is its weight
    scaled by 1/5. *)
Lemma aggregate_single v w :
  w <> 0 ->
  aggregate 2 [pt v] [w]
  = Ok {| value := v; confidence := Rmin 1 (w / 5); num_sources := 1 |}.
Proof.
  intros Hw. unfold aggregate. simpl.
  rewrite !div_nonzero by lra. simpl.
  assert (E : Rmin 1 (1 / 5) = 1 / 5)
    by (unfold Rmin; destruct (Rle_dec _ _); lra).
  rewrite E. f_equal. f_equal.
  - by field.
  - f_equal. lra.
Qed.

End OracleFacts.

(** ** Scheduler *)

Section SchedulerFacts.
Import Scheduler.
Local Open Scope Z_scope.

Lemma should_retry_validation_default task execution :
  retry_policy task = _retry_policies (priority task) ->
  _should_retry task execution VALIDATION_ERROR =
    match priority task with
    | CRITICAL => bool_decide (retry_count execution < 5)
    | _ => false
    end.
Proof.
  intros Hdef. unfold _should_retry. rewrite Hdef.
  destruct (priority task); simpl; repeat case_bool_decide;
    try done; try lia; exfalso; set_solver.
Qed.

Lemma on_exception_no_retry task execution e now :
  _should_retry task
    (finished execution FAILED (Some (str e)) now (performance_metrics execution))
    (_classify_failure (str e)) = false ->
  on_exception task execution e now =
    (finished execution FAILED (Some (str e)) now (performance_metrics execution), []).
Proof. intros H. unfold on_exception. by rewrite H. Qed.

Lemma on_exception_status task execution e now :
  status (fst (on_exception task execution e now)) = FAILED \/
  status (fst (on_exception task execution e now)) = RETRYING.
Proof.
  unfold on_exception. destruct (_should_retry _ _ _); simpl; auto.
Qed.

(** C3 (amended).  Under the default retry policy of its priority, a
    failure classified as ValidationError is never retried for a High,
    Medium or Low task: [_should_retry] is false and the execution ends
    as Failed, with no retry job.  For a Critical task the policy lists
    every failure reason, so the same failure is retried while fewer
    than 5 retries were counted, and the execution becomes Retrying. *)
Theorem C3_validation_error_retry_by_priority task execution e now :
  retry_policy task = _retry_policies (priority task) ->
  _classify_failure (str e) = VALIDATION_ERROR ->
  (priority task <> CRITICAL ->
     _should_retry task execution VALIDATION_ERROR = false /\
     status (fst (on_exception task execution e now)) = FAILED /\
     snd (on_exception task execution e now) = []) /\
  (priority task = CRITICAL -> retry_count execution < 5 ->
     _should_retry task execution VALIDATION_ERROR = true /\
     status (fst (on_exception task execution e now)) = RETRYING).
Proof.
  intros Hdef Hcl. split.
  - intros Hp.
    assert (forall ex, _should_retry task ex VALIDATION_ERROR = false) as Hno.
    { intros ex. rewrite should_retry_validation_default by done.
      by destruct (priority task). }
    split; [apply Hno|].
    rewrite on_exception_no_retry by (rewrite Hcl; apply Hno). done.
  - intros Hp Hrc.
    assert (forall ex, retry_count ex = retry_count execution ->
              _should_retry task ex VALIDATION_ERROR = true) as Hyes.
    { intros ex Hex. rewrite should_retry_validation_default by done.
      rewrite Hp, Hex. by rewrite bool_decide_eq_true_2. }
    split; [by apply Hyes|].
    unfold on_exception. rewrite Hcl. rewrite Hyes by done. done.
Qed.

Context {Signature : Type}.
Variable sign : Oracle.Aggregated -> Signature.

(** The record of a firing when the [try] is entered. *)
Definition started (self : TaskScheduler) (tid : UUID) (tick : Tick)
    : TaskExecution :=
  {| execution_id := fresh_id tick; e_task_id := tid;
     e_start_time := now tick; e_end_time := None;
     status := RUNNING; node_id := s_node_id self;
     data_points := []; aggregated_value := None;
     error := None; retry_count := 0;
     performance_metrics := [] |}.

(** The record of a firing that is not skipped. *)
Lemma execute_task_runs self tid tick task :
  _tasks self !! tid = Some task ->
  _is_in_maintenance self tid (now tick) = false ->
  Z.of_nat (length (running_executions self tid)) < max_concurrent task ->
  dict_get (fresh_id tick)
    (_executions (_execute_task sign self tid tick)) =
  Some (match try_body sign task tick (started self tid tick) with
        | (Ok _, execution1) =>
            finished execution1 COMPLETED None (now tick)
              (performance_metrics execution1)
        | (Raise e, execution1) =>
            fst (on_exception task execution1 e (now tick))
        end).
Proof.
  intros Ht Hm Hc. unfold _execute_task. rewrite Ht, Hm.
  rewrite bool_decide_eq_false_2 by lia.
  change (with_status _ RUNNING) with (started self tid tick).
  destruct (try_body sign task tick (started self tid tick)) as [[r|e] e1];
    simpl.
  - apply dict_get_set_eq.
  - destruct (on_exception task e1 e (now tick)) as [final jobs]. simpl.
    apply dict_get_set_eq.
Qed.

Lemma on_exception_aggregated task execution e now :
  aggregated_value (fst (on_exception task execution e now)) =
  aggregated_value execution.
Proof.
  unfold on_exception. destruct (_should_retry _ _ _); simpl; auto.
Qed.

Lemma try_body_aggregated task tick running :
  aggregated_value (snd (try_body sign task tick running)) =
  aggregated_value running.
Proof.
  unfold try_body. destruct (run_cycle sign task tick); [|done].
  by destruct (update_contracts _ _).
Qed.

(** The [try] body returns when the cycle and the loop over the
    contracts do. *)
Lemma try_body_returns task tick running produced :
  fst (try_body sign task tick running) = Ok produced <->
  run_cycle sign task tick = Ok produced /\
  update_contracts (get_contract tick) (contracts task) = Ok tt.
Proof.
  unfold try_body. destruct (run_cycle sign task tick) as [p|e].
  - destruct (update_contracts _ _) as [[]|e]; simpl; split.
    + intros [= ->]. done.
    + by intros [[= ->] _].
    + done.
    + by intros [_ [=]].
  - simpl. split; [done|]. by intros [[=] _].
Qed.

(** C2 (amended).  An execution that is started completes exactly
    when the body of the [try] raises nothing, whatever the cycle
    produced: an aggregate of any [num_sources] and confidence, or
    nothing at all when no valid data was found.  [task.min_sources]
    and a confidence threshold are not consulted, and the record's
    [aggregated_value] stays [None].  When the body raises, the
    execution is Failed or Retrying. *)
Theorem C2_completed_iff_cycle_returns self tid tick task :
  _tasks self !! tid = Some task ->
  _is_in_maintenance self tid (now tick) = false ->
  Z.of_nat (length (running_executions self tid)) < max_concurrent task ->
  let outcome := fst (try_body sign task tick (started self tid tick)) in
  exists execution,
    dict_get (fresh_id tick)
      (_executions (_execute_task sign self tid tick)) = Some execution /\
    aggregated_value execution = None /\
    (forall produced, outcome = Ok produced -> status execution = COMPLETED) /\
    (forall e, outcome = Raise e ->
       status execution = FAILED \/ status execution = RETRYING).
Proof.
  intros Ht Hm Hc outcome. eexists. split.
  - apply (execute_task_runs self tid tick task Ht Hm Hc).
  - pose proof (try_body_aggregated task tick (started self tid tick)) as Ha.
    unfold outcome.
    destruct (try_body sign task tick (started self tid tick)) as [[r|e] e1];
      simpl in *.
    + split; [done|]. split; [done|]. intros e [=].
    + rewrite on_exception_aggregated. split; [done|]. split.
      * intros p [=].
      * intros e' _. apply on_exception_status.
Qed.
End SchedulerFacts.

Section SchedulerExamples.
Import Scheduler.
Local Open Scope R_scope.

Definition numeric_rules : Oracle.Rules :=
  {| Oracle.r_type := Some "numeric"%string; Oracle.r_min := None;
     Oracle.r_max := None; Oracle.r_allowed_values := [] |}.

Definition demo_task (p : TaskPriority) : TaskDefinition :=
  {| task_id := 1%N; name := "price"; priority := p;
     schedule := IntervalTrigger 60; data_sources := ["src-1"%string];
     validation_rules := {[ "numeric"%string := numeric_rules ]};
     min_sources := 3; max_concurrent := 1; timeout := 300;
     retry_policy := _retry_policies p; contracts := [];
     created_at := 0; updated_at := 0; owner_id := 0%N |}.

Definition demo_scheduler (p : TaskPriority) : TaskScheduler :=
  {| s_node_id := "node-1"; _tasks := {[ 1%N := demo_task p ]};
     _executions := []; _maintenance_windows := [];
     _running_tasks := []; retry_jobs := [] |}.

Definition demo_tick : Tick :=
  {| now := 1000; fresh_id := 7%N;
     adapters := Ok [ {| Oracle.fetched := Ok (pt 100);
                         Oracle.reputation_score := 1 |} ];
     elapsed := 1%Q;
     get_contract := ContractManager_get_contract |}.

Definition no_signature (_ : Oracle.Aggregated) : unit := tt.

Lemma demo_cycle p :
  run_cycle no_signature (demo_task p) demo_tick =
    Ok (Some {| Oracle.value := 100; Oracle.confidence := 1/5;
                Oracle.num_sources := 1 |}).
Proof.
  unfold run_cycle, Oracle._update_cycle. simpl.
  unfold Oracle.validate. simpl. rewrite lookup_singleton_eq. simpl.
  change {| Oracle.d_value := Some 100; Oracle.d_type := None |} with (pt 100).
  rewrite aggregate_single by lra. simpl.
  replace (Rmin 1 (1 / 5)) with (1 / 5)
    by (unfold Rmin; destruct (Rle_dec _ _); lra).
  reflexivity.
Qed.

Lemma demo_try_body p running :
  fst (try_body no_signature (demo_task p) demo_tick running) =
    Ok (Some {| Oracle.value := 100; Oracle.confidence := 1/5;
                Oracle.num_sources := 1 |}).
Proof. apply try_body_returns. split; [apply demo_cycle|done]. Qed.

(** C2 (as stated) fails: a task with [min_sources = 3] and a single
    source completes with an aggregate of one source and confidence
    0.2. *)
Lemma C2_counterexample :
  exists execution agg,
    dict_get 7%N
      (_executions (_execute_task no_signature (demo_scheduler MEDIUM) 1%N demo_tick))
      = Some execution /\
    run_cycle no_signature (demo_task MEDIUM) demo_tick = Ok (Some agg) /\
    status execution = COMPLETED /\
    (Z.of_nat (Oracle.num_sources agg) < min_sources (demo_task MEDIUM))%Z /\
    Oracle.confidence agg < 4/5.
Proof.
  eexists _, _. split; [|split; [apply demo_cycle|]].
  - apply (execute_task_runs no_signature (demo_scheduler MEDIUM) 1%N
             demo_tick (demo_task MEDIUM)).
    + apply lookup_singleton_eq.
    + reflexivity.
    + simpl. lia.
  - pose proof (demo_try_body MEDIUM
                  (started (demo_scheduler MEDIUM) 1%N demo_tick)) as Hb.
    destruct (try_body _ _ _ _) as [[r|e] e1]; simpl in Hb; [|done].
    simpl. split; [done|]. split; [lia | lra].
Qed.

Lemma C2_completed_iff_cycle_returns_witness :
  let outcome :=
    fst (try_body no_signature (demo_task MEDIUM) demo_tick
           (started (demo_scheduler MEDIUM) 1%N demo_tick)) in
  exists execution,
    dict_get 7%N
      (_executions
         (_execute_task no_signature (demo_scheduler MEDIUM) 1%N demo_tick))
      = Some execution /\
    aggregated_value execution = None /\
    (forall produced, outcome = Ok produced -> status execution = COMPLETED) /\
    (forall e, outcome = Raise e ->
       status execution = FAILED \/ status execution = RETRYING).
Proof.
  apply (C2_completed_iff_cycle_returns no_signature (demo_scheduler MEDIUM)
           1%N demo_tick (demo_task MEDIUM)).
  - apply lookup_singleton_eq.
  - reflexivity.
  - simpl. lia.
Defined.

(** A firing of a task that has no source at all: the cycle stops for want
    of valid data, nothing is aggregated, and the execution completes. *)
Example completes_without_data :
  let tick := {| now := 1000; fresh_id := 7%N; adapters := Ok [];
                 elapsed := 1%Q;
                 get_contract := ContractManager_get_contract |} in
  run_cycle no_signature (demo_task MEDIUM) tick = Ok None /\
  exists execution,
    dict_get 7%N
      (_executions (_execute_task no_signature (demo_scheduler MEDIUM) 1%N tick))
      = Some execution /\
    status execution = COMPLETED /\ aggregated_value execution = None.
Proof.
  intros tick. split; [reflexivity|]. eexists. split.
  - apply (execute_task_runs no_signature (demo_scheduler MEDIUM) 1%N tick
             (demo_task MEDIUM)).
    + apply lookup_singleton_eq.
    + reflexivity.
    + simpl. lia.
  - split; reflexivity.
Qed.

(** With the [ContractManager] of the sources, a task that lists a
    contract fails after its cycle: the lookup of the contract raises. *)
Example contract_lookup_fails :
  update_contracts ContractManager_get_contract [9%N] =
    Raise (mkExn AttributeError
             "'ContractManager' object has no attribute 'get_contract'").
Proof. reflexivity. Qed.

Definition demo_execution : TaskExecution :=
  {| execution_id := 7%N; e_task_id := 1%N; e_start_time := 1000%Z;
     e_end_time := None; status := RUNNING; node_id := "node-1";
     data_points := []; aggregated_value := None; error := None;
     retry_count := 0%Z; performance_metrics := [] |}.

Definition demo_error : PyExn := mkExn ValueError "Validation failed".

Lemma C3_validation_error_retry_by_priority_witness :
  (priority (demo_task HIGH) <> CRITICAL ->
     _should_retry (demo_task HIGH) demo_execution VALIDATION_ERROR = false /\
     status (fst (on_exception (demo_task HIGH) demo_execution demo_error 1000))
       = FAILED /\
     snd (on_exception (demo_task HIGH) demo_execution demo_error 1000) = []) /\
  (priority (demo_task HIGH) = CRITICAL ->
     (retry_count demo_execution < 5)%Z ->
     _should_retry (demo_task HIGH) demo_execution VALIDATION_ERROR = true /\
     status (fst (on_exception (demo_task HIGH) demo_execution demo_error 1000))
       = RETRYING).
Proof.
  apply (C3_validation_error_retry_by_priority (demo_task HIGH)
           demo_execution demo_error 1000).
  - reflexivity.
  - vm_compute. reflexivity.
Defined.

(** C3 (as stated) fails for a Critical task: a failure whose message
    is classified as ValidationError is retried, the execution becomes
    Retrying and a retry job is scheduled one second later. *)
Lemma C3_counterexample :
  priority (demo_task CRITICAL) = CRITICAL /\
  retry_policy (demo_task CRITICAL) = _retry_policies CRITICAL /\
  _classify_failure (str demo_error) = VALIDATION_ERROR /\
  _should_retry (demo_task CRITICAL) demo_execution VALIDATION_ERROR = true /\
  status (fst (on_exception (demo_task CRITICAL) demo_execution demo_error 1000))
    = RETRYING /\
  snd (on_exception (demo_task CRITICAL) demo_execution demo_error 1000)
    = [ {| job_task := 1%N; job_retry := 1; job_from := 1000;
           job_delay := 1%Q |} ].
Proof. repeat split. Qed.

End SchedulerExamples.

(** ** Validation *)

Section ValidationFacts.
Import Validation.
Local Open Scope Z_scope.
Variable verify : RSAPublicKey -> bytes -> string -> R -> Z -> result unit.

Lemma update_source_stats_frame self sid v ts self2 :
  _update_source_stats self sid v ts = Ok self2 ->
  _historical_data self2 = _historical_data self /\
  _findings self2 = _findings self.
Proof.
  unfold _update_source_stats.
  destruct (_historical_data self !! sid) as [history|]; [|by intros [= <-]].
  case_bool_decide; [|by intros [= <-]].
  destruct (Py.min _); [|done]. destruct (Py.max _); [|done].
  simpl. by intros [= <-].
Qed.

Lemma validate_data_point_frame self sid sty v ts md sg now :
  let self' := snd (validate_data_point verify self sid sty v ts md sg now) in
  _findings self' = _findings self /\
  _historical_data self' = _historical_data (record_point self sid v ts now).
Proof.
  unfold validate_data_point.
  destruct (stages _ _ _ _ _ _ _ _ _) as [[[] fs]|e]; simpl; try done.
  destruct (_update_source_stats _ _ _ _) as [self2|e] eqn:E; simpl; try done.
  destruct (update_source_stats_frame _ _ _ _ _ E) as [-> ->]. done.
Qed.

(** C9 (the code, at every input).  [validate_data_point] leaves the
    findings store as it found it: the findings it produces are returned
    to the caller only, and [get_findings] answers after the call what it
    answered before, for every choice of filters. *)
Theorem C9_findings_store_never_written
    self sid sty v ts md sg now f_sid f_sev f_stage f_start f_end :
  let self' := snd (validate_data_point verify self sid sty v ts md sg now) in
  _findings self' = _findings self /\
  get_findings self' f_sid f_sev f_stage f_start f_end =
  get_findings self f_sid f_sev f_stage f_start f_end.
Proof.
  intros self'.
  destruct (validate_data_point_frame self sid sty v ts md sg now) as [Hf _].
  fold self' in Hf. split; [done|]. unfold get_findings. by rewrite Hf.
Qed.

(** C4 (amended).  Called with a naive timestamp, [validate_data_point]
    appends [(ts, value)] to the series of the source before any stage
    runs and then keeps the entries newer than [now - history_window];
    this holds whether the point is accepted, rejected or a stage
    raises.  So after the call no entry of that series is older than
    [history_window], the point has an entry whenever its own timestamp
    is newer than the cutoff, and the series of the other sources are
    unchanged. *)
Theorem C4_point_recorded_before_validation self sid sty v ts md sg now :
  exists r self',
    validate_data_point_at verify self sid sty v (Naive ts) md sg now
    = (r, Some self') /\
    let cutoff := now - history_window self * 1000000 in
    let series := default [] (_historical_data self !! sid) in
    _historical_data self' !! sid =
      Some (List.filter (fun e => bool_decide (fst e > cutoff))
              (series ++ [(ts, v)])) /\
    (forall e, e ∈ default [] (_historical_data self' !! sid) ->
       fst e > cutoff) /\
    (ts > cutoff -> (ts, v) ∈ default [] (_historical_data self' !! sid)) /\
    (forall other, other <> sid ->
       _historical_data self' !! other = _historical_data self !! other).
Proof.
  unfold validate_data_point_at.
  destruct (validate_data_point_frame self sid sty v ts md sg now) as [_ Hh].
  destruct (validate_data_point verify self sid sty v ts md sg now)
    as [r self'].
  exists r, self'. split; [done|]. cbv zeta.
  simpl in Hh. rewrite Hh. unfold record_point. simpl.
  set (cutoff := now - history_window self * 1000000).
  set (series := default [] (_historical_data self !! sid)).
  rewrite lookup_insert_eq. simpl.
  split; [done|]. split; [|split].
  - intros e He. apply list_elem_of_In, filter_In in He as [_ He].
    by apply bool_decide_eq_true_1 in He.
  - intros Hts. apply list_elem_of_In, filter_In. split.
    + apply in_or_app. right. by left.
    + by apply bool_decide_eq_true_2.
  - intros other Hne. by rewrite lookup_insert_ne.
Qed.

(** With an aware timestamp the call raises at the cut of the series,
    whatever the point and the state of the service. *)
Lemma aware_timestamp_raises self sid sty v t md sg now :
  exists e,
    fst (validate_data_point_at verify self sid sty v (Aware t) md sg now)
    = Raise e /\
    exn_class e = TypeError.
Proof. eexists. split; [reflexivity|done]. Qed.

(** No finding of the list reports a pattern break. *)
Definition no_pattern_break (fs : list ValidationFinding) : Prop :=
  Forall (fun f => anomaly_type f <> Some PATTERN_BREAK) fs.

Lemma no_pattern_break_snoc fs f :
  no_pattern_break fs -> anomaly_type f <> Some PATTERN_BREAK ->
  no_pattern_break (fs ++ [f]).
Proof. intros Hfs Hf. apply Forall_app. split; [done|]. by constructor. Qed.

Lemma source_rules_no_pattern_break rules sid v ts md now ok fs :
  no_pattern_break fs ->
  no_pattern_break (snd (source_rules rules sid v ts md now ok fs)).
Proof.
  revert ok fs. induction rules as [|rule rules IH]; intros ok fs Hfs; [done|].
  simpl. destruct (condition rule _) as [[]|]; apply IH; try done.
  by apply no_pattern_break_snoc.
Qed.

Lemma cross_source_no_pattern_break self sid sty v now fs :
  no_pattern_break fs ->
  no_pattern_break (snd (_validate_cross_source self sid sty v now fs)).
Proof.
  intros Hfs. unfold _validate_cross_source.
  repeat case_bool_decide; simpl; try done.
  by apply no_pattern_break_snoc.
Qed.

Lemma consensus_no_pattern_break self sid sty v now fs :
  no_pattern_break fs ->
  no_pattern_break (snd (_validate_consensus self sid sty v now fs)).
Proof.
  intros Hfs. unfold _validate_consensus.
  repeat case_bool_decide; simpl; try done.
  by apply no_pattern_break_snoc.
Qed.

Lemma cryptographic_no_pattern_break self sid v ts sg now fs :
  no_pattern_break fs ->
  no_pattern_break (snd (_validate_cryptographic verify self sid v ts sg now fs)).
Proof.
  intros Hfs. unfold _validate_cryptographic.
  destruct (_source_signatures self !! sid); [|done].
  destruct (verify _ _ _ _ _) as [|e]; [done|].
  destruct (exn_class e); simpl; try done.
  by apply no_pattern_break_snoc.
Qed.

Lemma rapid_change_no_pattern_break self sid history v ts now fs ok fs' :
  no_pattern_break fs ->
  rapid_change self sid history v ts now fs = Ok (ok, fs') ->
  no_pattern_break fs'.
Proof.
  intros Hfs. unfold rapid_change.
  destruct (history !! _) as [[lt lv]|]; [|by intros [= <- <-]].
  repeat case_bool_decide; try by intros [= <- <-].
  destruct (Py.div _ _) as [rate|]; [|done]. simpl.
  case_bool_decide; intros [= <- <-]; [|done].
  by apply no_pattern_break_snoc.
Qed.

Local Open Scope R_scope.

Lemma np_std_nonneg l : 0 <= Py.np_std l.
Proof. unfold Py.np_std. apply sqrt_pos. Qed.

(** When the series ends with the value under validation, the return
    it is compared with is [log(value / value)]: the check is silent. *)
Lemma pattern_break_silent sid history v now fs :
  last (map snd history) = Some v ->
  pattern_break sid history v now fs = Ok fs \/
  exists e, pattern_break sid history v now fs = Raise e.
Proof.
  intros Hlast. unfold pattern_break. case_bool_decide; [|by left].
  rewrite Hlast. unfold Py.div. destruct (decide (v = 0)) as [|Hv].
  - right. by eexists.
  - left. simpl. rewrite bool_decide_eq_false_2; [done|].
    pose proof (np_std_nonneg
                  (Py.np_diff (map Py.np_log (map snd history)))) as Hs.
    unfold Py.np_log at 1. unfold Rdiv. rewrite Rinv_r by done.
    rewrite ln_1, Rabs_R0. lra.
Qed.

Lemma temporal_no_pattern_break self sid sty v ts now fs history ok fs' :
  _historical_data self !! sid = Some history ->
  last (map snd history) = Some v ->
  no_pattern_break fs ->
  _validate_temporal self sid sty v ts now fs = Ok (ok, fs') ->
  no_pattern_break fs'.
Proof.
  intros Hh Hlast Hfs. unfold _validate_temporal. rewrite Hh.
  case_bool_decide; [by intros [= <- <-]|].
  destruct (rapid_change self sid history v ts now fs) as [[ok1 fs1]|] eqn:Er;
    [|done].
  simpl.
  pose proof (rapid_change_no_pattern_break _ _ _ _ _ _ _ _ _ Hfs Er) as H1.
  destruct (pattern_break_silent sid history v now fs1 Hlast) as [->|[e ->]];
    [|done].
  simpl. by intros [= <- <-].
Qed.

Lemma stages_no_pattern_break self sid sty v ts md sg now history ok fs :
  _historical_data self !! sid = Some history ->
  last (map snd history) = Some v ->
  stages verify self sid sty v ts md sg now = Ok (ok, fs) ->
  no_pattern_break fs.
Proof.
  intros Hh Hlast. unfold stages, _validate_source.
  pose proof (source_rules_no_pattern_break
    (List.filter (fun rule => applies rule sty) (dict_values (_rules self)))
    sid v ts md now true [] ltac:(constructor)) as H1.
  destruct (source_rules _ _ _ _ _ _ _ _) as [ok1 fs1]. simpl in H1.
  destruct ok1; simpl; [|by intros [= <- <-]].
  pose proof (cross_source_no_pattern_break self sid sty v now fs1 H1) as H2.
  destruct (_validate_cross_source _ _ _ _ _ _) as [ok2 fs2]. simpl in H2.
  destruct ok2; simpl; [|by intros [= <- <-]].
  destruct (_validate_temporal self sid sty v ts now fs2) as [[ok3 fs3]|] eqn:Et;
    [|done].
  pose proof (temporal_no_pattern_break _ _ _ _ _ _ _ _ _ _ Hh Hlast H2 Et) as H3.
  simpl. destruct ok3; simpl; [|by intros [= <- <-]].
  pose proof (consensus_no_pattern_break self sid sty v now fs3 H3) as H4.
  destruct (_validate_consensus _ _ _ _ _ _) as [ok4 fs4]. simpl in H4.
  destruct ok4; simpl; [|by intros [= <- <-]].
  assert (forall okc fsc,
            match sg with
            | Some ((_ :: _) as sig) =>
                _validate_cryptographic verify self sid v ts sig now fs4
            | _ => (true, fs4)
            end = (okc, fsc) -> no_pattern_break fsc) as H5.
  { intros okc fsc. destruct sg as [[|b sig]|]; try by intros [= <- <-].
    intros E.
    pose proof (cryptographic_no_pattern_break self sid v ts (b :: sig) now
                  fs4 H4) as Hc.
    by rewrite E in Hc. }
  destruct (match sg with Some ((_ :: _) as sig) => _ | _ => _ end)
    as [ok5 fs5] eqn:E5.
  specialize (H5 _ _ eq_refl).
  destruct ok5; simpl; by intros [= <- <-].
Qed.

Lemma record_point_last self sid v ts now :
  (ts > now - history_window self * 1000000)%Z ->
  exists history,
    _historical_data (record_point self sid v ts now) !! sid
      = Some history /\
    last (map snd history) = Some v.
Proof.
  intros Hts. eexists. split.
  - unfold record_point. simpl. apply lookup_insert_eq.
  - rewrite List.filter_app. simpl.
    rewrite bool_decide_eq_true_2 by done.
    rewrite map_app. simpl. apply last_snoc.
Qed.

(** C8 (the code, at the failing input and beyond).  When the timestamp
    of the point is newer than [now - history_window], the series ends
    with the point itself, the return of the pattern check is
    [log(value / value)], and no finding of [validate_data_point] is a
    PatternBreak, however far the value lies from the one before it. *)
Theorem C8_pattern_break_never_reported self sid sty v ts md sg now :
  (ts > now - history_window self * 1000000)%Z ->
  match fst (validate_data_point verify self sid sty v ts md sg now) with
  | Ok (_, fs) => no_pattern_break fs
  | Raise _ => True
  end.
Proof.
  intros Hts. unfold validate_data_point.
  destruct (record_point_last self sid v ts now Hts) as (history & Hh & Hlast).
  destruct (stages _ _ _ _ _ _ _ _ _) as [[ok1 fs1]|] eqn:Es; [|done].
  pose proof (stages_no_pattern_break _ _ _ _ _ _ _ _ _ _ _ Hh Hlast Es) as H.
  destruct ok1; simpl; [|done].
  by destruct (_update_source_stats _ _ _ _).
Qed.
End ValidationFacts.

Section ValidationExamples.
Import Validation.
Local Open Scope R_scope.

(** No key is registered in the examples; the verifier is never called. *)
Definition no_keys (_ : RSAPublicKey) (_ : bytes) (_ : string) (_ : R) (_ : Z)
  : result unit := Ok tt.

(** The finding of the default rule [basic_range_check]. *)
Definition range_finding (sid : string) (now : Z) : ValidationFinding :=
  {| f_rule_id := Some 1%N; f_source_id := sid; f_stage := SOURCE;
     f_severity := CRITICAL; anomaly_type := Some STATISTICAL_OUTLIER;
     message := "Source validation failed: Validate value within allowed range";
     f_timestamp := now |}.

(** For a source of type "sensor" the only applicable default rule is the
    range check. *)
Lemma applicable_default_rules :
  List.filter (fun rule => applies rule "sensor") (dict_values default_rules)
  = match default_rules with (_, r) :: _ => [r] | [] => [] end.
Proof. vm_compute. reflexivity. Qed.

(** A negative value fails the range check, a Critical rule: the call
    ends at the first stage. *)
Lemma negative_value_rejected self now ts :
  _rules self = default_rules ->
  stages no_keys self "s1" "sensor" (-1) ts [] None now =
    Ok (false, [range_finding "s1" now]).
Proof.
  intros Hr. unfold stages, _validate_source.
  rewrite Hr, applicable_default_rules. simpl.
  unfold cond_between, build_context. simpl.
  rewrite bool_decide_eq_false_2 by lra. simpl. reflexivity.
Qed.

Lemma negative_value_call :
  fst (validate_data_point no_keys init "s1" "sensor" (-1) 1000 [] None 1000)
  = Ok (false, [range_finding "s1" 1000]).
Proof.
  unfold validate_data_point.
  by rewrite negative_value_rejected.
Qed.

(** C4 (as stated) fails: on a fresh validator the point [(1000, -1)] is
    rejected with a Critical finding, and yet the series of its source,
    absent before the call, holds the point after it. *)
Lemma C4_counterexample :
  let r := validate_data_point no_keys init "s1" "sensor" (-1) 1000 [] None 1000 in
  fst r = Ok (false, [range_finding "s1" 1000]) /\
  _historical_data init !! "s1" = None /\
  _historical_data (snd r) !! "s1" = Some [(1000%Z, -1)].
Proof.
  split; [apply negative_value_call|]. split; [done|].
  destruct (validate_data_point_frame no_keys init "s1" "sensor" (-1) 1000 []
              None 1000) as [_ Hh].
  rewrite Hh. unfold record_point. simpl. by rewrite lookup_insert_eq.
Qed.

(** C9 at the failing input: the call returns its Critical finding, and
    the store queried with the finding's own source, severity, stage and
    time is empty. *)
Example C9_failing_input :
  let r := validate_data_point no_keys init "s1" "sensor" (-1) 1000 [] None 1000 in
  fst r = Ok (false, [range_finding "s1" 1000]) /\
  get_findings (snd r) (Some "s1"%string) (Some CRITICAL) (Some SOURCE)
    (Some 1000%Z) (Some 1000%Z) = [].
Proof.
  split; [apply negative_value_call|].
  destruct (validate_data_point_frame no_keys init "s1" "sensor" (-1) 1000 []
              None 1000) as [Hf _].
  unfold get_findings. rewrite Hf. reflexivity.
Qed.

Lemma C8_pattern_break_never_reported_witness :
  match fst (validate_data_point no_keys init "s1" "sensor" 100 1000 [] None 1000)
  with
  | Ok (_, fs) => no_pattern_break fs
  | Raise _ => True
  end.
Proof.
  apply (C8_pattern_break_never_reported no_keys init "s1" "sensor" 100 1000
           [] None 1000).
  simpl. lia.
Defined.

End ValidationExamples.

(** *** The pattern check at thirty steady samples *)

Section PatternBreakExample.
Import Validation.
Local Open Scope R_scope.

Lemma pattern_break_silent_nonzero sid history v now fs :
  v <> 0 ->
  last (map snd history) = Some v ->
  pattern_break sid history v now fs = Ok fs.
Proof.
  intros Hv Hlast.
  destruct (pattern_break_silent sid history v now fs Hlast) as [H|[e H]];
    [done|].
  exfalso. unfold pattern_break in H. case_bool_decide; [|done].
  rewrite Hlast in H. unfold Py.div in H. rewrite decide_False in H by done.
  simpl in H. by case_bool_decide.
Qed.

Lemma filter_keeps_all {A} (f : A -> bool) (l : list A) :
  Forall (fun x => f x = true) l -> List.filter f l = l.
Proof. induction 1 as [|x l Hx _ IH]; simpl; [done|]. by rewrite Hx, IH. Qed.

(** A non-negative value of a "sensor" source that moves slowly enough
    since the previous entry is accepted without any finding, whatever
    the volatility of the series. *)
Lemma slow_change_accepted self sid h tp vp v ts now :
  _rules self = default_rules ->
  (length (_source_stats self) < 2)%nat ->
  (Z.of_nat (length (_source_stats self)) < min_consensus_sources self)%Z ->
  _historical_data self !! sid = Some (h ++ [(tp, vp)]) ->
  Forall (fun e => (fst e > now - history_window self * 1000000)%Z)
    (h ++ [(tp, vp)]) ->
  (ts > now - history_window self * 1000000)%Z ->
  (tp < ts)%Z ->
  0 < v -> 0 < vp ->
  Rabs (v - vp) / (vp * total_seconds ts tp) <= rapid_change_threshold self ->
  stages no_keys (record_point self sid v ts now) sid "sensor" v ts [] None now
  = Ok (true, []).
Proof.
  intros Hrules Hstats Hmcs Hh Hfresh Hts Htp Hv Hvp Hrate.
  assert (Hcons : forall fs,
            _validate_consensus (record_point self sid v ts now) sid "sensor"
              v now fs = (true, fs)).
  { intros fs. unfold _validate_consensus. simpl.
    by rewrite bool_decide_eq_true_2 by lia. }
  unfold stages, _validate_source. simpl _rules.
  rewrite Hrules, applicable_default_rules. simpl source_rules.
  unfold cond_between, build_context. simpl.
  rewrite bool_decide_eq_true_2 by lra. simpl.
  unfold _validate_cross_source. simpl _source_stats.
  rewrite bool_decide_eq_true_2 by done. simpl.
  unfold _validate_temporal. simpl. rewrite lookup_insert_eq, Hh. simpl.
  rewrite List.filter_app. simpl. rewrite (bool_decide_eq_true_2 (ts > _)%Z) by done.
  rewrite filter_keeps_all
    by (eapply Forall_impl; [exact Hfresh|]; intros e He; simpl;
        by apply bool_decide_eq_true_2).
  set (history := (h ++ [(tp, vp)]) ++ [(ts, v)]).
  case_bool_decide as Hlen; simpl.
  - (* too short a series: nothing is checked *)
    by rewrite Hcons.
  - assert (Hr : rapid_change (record_point self sid v ts now) sid history v ts
                   now [] = Ok (true, [])).
    { unfold rapid_change, history.
      replace (length ((h ++ [(tp, vp)]) ++ [(ts, v)]) - 2)%nat with (length h)
        by (rewrite !length_app; simpl; lia).
      rewrite <- app_assoc. cbn [app]. rewrite list_lookup_middle by done.
      rewrite bool_decide_eq_true_2 by (rewrite !length_app; simpl; lia).
      assert (0 < total_seconds ts tp).
      { unfold total_seconds. apply Rdiv_lt_0_compat; [|lra].
        apply IZR_lt. lia. }
      rewrite bool_decide_eq_true_2 by lra.
      unfold Py.div. rewrite decide_False by nra. simpl.
      by rewrite bool_decide_eq_false_2 by lra. }
    rewrite Hr. simpl.
    rewrite pattern_break_silent_nonzero;
      [|lra|unfold history; rewrite map_app; apply last_snoc].
    simpl. by rewrite Hcons.
Qed.

Lemma sum_zeros l : Forall (fun x => x = 0) l -> Py.sum l = 0.
Proof. induction 1 as [|x l -> _ IH]; simpl; [done|]. rewrite IH. lra. Qed.

Lemma np_std_zeros l : Forall (fun x => x = 0) l -> Py.np_std l = 0.
Proof.
  intros Hl. unfold Py.np_std, Py.np_mean.
  rewrite (sum_zeros l Hl). unfold Rdiv at 2. rewrite Rmult_0_l.
  rewrite sum_zeros.
  - unfold Rdiv. rewrite Rmult_0_l. apply sqrt_0.
  - apply Forall_map. eapply Forall_impl; [exact Hl|].
    intros x ->. simpl. lra.
Qed.

Lemma np_diff_constant c l :
  Forall (fun x => x = c) l -> Forall (fun x => x = 0) (Py.np_diff l).
Proof.
  induction 1 as [|x l -> Hl IH]; [constructor|].
  destruct Hl as [|y l -> Hl]; [constructor|].
  change (Py.np_diff (c :: c :: l)) with ((c - c) :: Py.np_diff (c :: l)).
  constructor; [lra|]. exact IH.
Qed.

Lemma min_nonempty l : l <> [] -> exists m, Py.min l = Ok m.
Proof. destruct l; [done|]. intros _. by eexists. Qed.

Lemma max_nonempty l : l <> [] -> exists m, Py.max l = Ok m.
Proof. destruct l; [done|]. intros _. by eexists. Qed.

(** Thirty samples of 100, one per minute. *)
Definition steady_series : list (Z * R) :=
  map (fun i => ((Z.of_nat i * 60000000)%Z, 100)) (seq 0 30).

(** The validator after those thirty samples: the series and the
    statistics of the source. *)
Definition steady_service : ValidationService :=
  with_stats
    (with_history init {[ "s1"%string := steady_series ]})
    [ ("s1"%string,
       {| mean := 100; std_dev := 0; min_value := 100; max_value := 100;
          last_update := 1740000000; update_frequency := 60;
          confidence_score := 1 |}) ].

(** At the failing input of C8 the series holds thirty samples of 100;
    the deviation of its log-differences is 0, so the new value 101 is a
    break of the pattern as the specification defines it.  The call
    accepts the point and reports no finding at all. *)
Example C8_failing_input :
  let r := validate_data_point no_keys steady_service "s1" "sensor" 101
             1800000000 [] None 1800000000 in
  _historical_data steady_service !! "s1" = Some steady_series /\
  (30 <= length steady_series)%nat /\
  Rabs (Py.np_log (101 / 100)) >
    3 * Py.np_std (Py.np_diff (map Py.np_log (map snd steady_series))) /\
  fst r = Ok (true, []).
Proof.
  split; [apply lookup_singleton_eq|]. split; [simpl; lia|]. split.
  - rewrite np_std_zeros.
    + assert (0 < ln (101 / 100))
        by (rewrite <- ln_1; apply ln_increasing; lra).
      unfold Py.np_log. rewrite Rabs_right by lra. lra.
    + apply (np_diff_constant (Py.np_log 100)).
      unfold steady_series. rewrite !Forall_map. apply Forall_forall. done.
  - unfold validate_data_point.
    rewrite (slow_change_accepted steady_service "s1"
               (map (fun i => ((Z.of_nat i * 60000000)%Z, 100)) (seq 0 29))
               1740000000 100).
    + unfold _update_source_stats. simpl _historical_data.
      rewrite lookup_insert_eq. case_bool_decide; [|done].
      set (values := map snd _).
      assert (values <> []) as Hne.
      { unfold values. rewrite List.filter_app, map_app.
        intros E. apply app_eq_nil in E as [_ E]. revert E.
        cbn [List.filter fst]. rewrite bool_decide_eq_true_2; [done|].
        simpl. lia. }
      destruct (min_nonempty values Hne) as [lo ->].
      destruct (max_nonempty values Hne) as [hi ->]. done.
    + done.
    + simpl. lia.
    + simpl. lia.
    + apply lookup_singleton_eq.
    + unfold steady_service. simpl history_window.
      change (map _ (seq 0 29) ++ [(1740000000%Z, 100)]) with steady_series.
      unfold steady_series. apply Forall_map. apply Forall_forall.
      intros i _. simpl. lia.
    + simpl. lia.
    + lia.
    + lra.
    + lra.
    + unfold total_seconds. simpl rapid_change_threshold.
      replace (1800000000 - 1740000000)%Z with 60000000%Z by lia.
      rewrite Rabs_right by lra.
      replace ((101 - 100) / (100 * (60000000 / 1000000))) with (1 / 6000)
        by (field; lra).
      lra.
Qed.
End PatternBreakExample.

(** * Further properties *)

(** ** The outlier filter and the aggregate *)

Section AggregationFacts.
Import Oracle.
Local Open Scope R_scope.

Lemma sum_app l1 l2 : Py.sum (l1 ++ l2) = Py.sum l1 + Py.sum l2.
Proof. induction l1 as [|a l1 IH]; simpl; [lra|]. rewrite IH. lra. Qed.

Lemma sum_squares_nonneg (f : R -> R) l :
  0 <= Py.sum (map (fun x => f x * f x) l).
Proof. induction l as [|a l IH]; simpl; [lra|]. nra. Qed.

Lemma sum_nonneg l : Forall (fun w => 0 <= w) l -> 0 <= Py.sum l.
Proof. induction 1; simpl; lra. Qed.

(** The inequality of Cauchy and Schwarz against the constant vector. *)
Lemma square_of_sum_le (f : R -> R) l :
  Py.sum (map f l) * Py.sum (map f l)
  <= INR (length l) * Py.sum (map (fun x => f x * f x) l).
Proof.
  induction l as [|a l IH].
  - simpl. lra.
  - rewrite length_cons, S_INR. simpl.
    pose proof (pos_INR (length l)) as Hk.
    pose proof (sum_squares_nonneg f l) as Hq.
    set (k := INR (length l)) in *. set (s := Py.sum (map f l)) in *.
    set (q := Py.sum (map (fun x => f x * f x) l)) in *.
    clearbody k s q.
    destruct (Req_dec k 0) as [Hk0|Hk0].
    + subst k.
      assert (Hs : s * s = 0)
        by (pose proof (Rle_0_sqr s); unfold Rsqr in *; lra).
      assert (s = 0) by (destruct (Rmult_integral _ _ Hs); done). subst s.
      replace ((f a + 0) * (f a + 0)) with (f a * f a) by ring. lra.
    + assert (0 < k) by lra.
      assert (0 <= k * (k * (f a * f a) - 2 * f a * s + q)).
      { replace (k * (k * (f a * f a) - 2 * f a * s + q))
          with ((k * f a - s) * (k * f a - s) + (k * q - s * s)) by ring.
        pose proof (Rle_0_sqr (k * f a - s)) as Hsq. unfold Rsqr in Hsq. lra. }
      assert (0 <= k * (f a * f a) - 2 * f a * s + q).
      { apply (Rmult_le_reg_l k); [done|]. lra. }
      lra.
Qed.

Lemma sum_map_minus m l :
  Py.sum (map (fun x => x - m) l) = Py.sum l - INR (length l) * m.
Proof.
  induction l as [|a l IH]; [simpl; lra|].
  rewrite length_cons, S_INR. simpl. rewrite IH. lra.
Qed.

(** Samuelson's inequality: no element lies further from the mean than
    the spread of the list allows. *)
Lemma samuelson l x :
  x ∈ l ->
  let n := INR (length l) in
  let m := Py.sum l / n in
  n * ((x - m) * (x - m))
  <= (n - 1) * Py.sum (map (fun y => (y - m) * (y - m)) l).
Proof.
  intros Hx n m.
  apply list_elem_of_split in Hx as (l1 & l2 & ->).
  assert (Hn : INR (length (l1 ++ l2)) = n - 1).
  { unfold n. rewrite !length_app, length_cons, !plus_INR, S_INR. lra. }
  assert (Hnpos : 0 < n).
  { pose proof (pos_INR (length (l1 ++ l2))). lra. }
  assert (Hsum : Py.sum l1 + x + Py.sum l2 = n * m).
  { unfold m. rewrite sum_app. simpl. field. lra. }
  pose proof (square_of_sum_le (fun y => y - m) (l1 ++ l2)) as Hcs.
  rewrite sum_map_minus, Hn, sum_app in Hcs.
  rewrite map_app, sum_app in Hcs.
  rewrite map_app, sum_app. simpl.
  set (q1 := Py.sum (map (fun y => (y - m) * (y - m)) l1)) in *.
  set (q2 := Py.sum (map (fun y => (y - m) * (y - m)) l2)) in *.
  replace (Py.sum l1 + Py.sum l2 - (n - 1) * m) with (- (x - m)) in Hcs by lra.
  clearbody q1 q2 n m. nra.
Qed.

Lemma sum_squares_zero m l :
  Py.sum (map (fun y => (y - m) * (y - m)) l) = 0 -> Forall (fun y => y = m) l.
Proof.
  induction l as [|a l IH]; [constructor|]. simpl. intros H.
  pose proof (sum_squares_nonneg (fun y => y - m) l) as Hq.
  pose proof (Rle_0_sqr (a - m)) as Ha. unfold Rsqr in Ha.
  assert (Ha0 : (a - m) * (a - m) = 0) by lra.
  constructor.
  - destruct (Rmult_integral _ _ Ha0); lra.
  - apply IH. lra.
Qed.

Lemma keep_inliers_all t m s vw :
  s <> 0 ->
  Forall (fun p => Rabs ((fst p - m) / s) < t) vw ->
  keep_inliers t m s vw = Ok vw.
Proof.
  intros Hs. induction 1 as [|[v w] vw Hv _ IH]; [done|].
  rewrite keep_inliers_cons by done. rewrite IH. simpl.
  by rewrite decide_True.
Qed.

(** Every z-score of a sample of [n] values is at most
    [(n - 1) / sqrt n]. *)
Lemma zscore_bound t l x :
  0 < t ->
  (2 <= length l)%nat ->
  (INR (length l) - 1) * (INR (length l) - 1) < t * t * INR (length l) ->
  x ∈ l ->
  let m := Py.sum l / INR (length l) in
  let V := Py.sum (map (fun y => (y - m) * (y - m)) l) / (INR (length l) - 1) in
  0 < V ->
  Rabs ((x - m) / sqrt V) < t.
Proof.
  intros Ht Hlen Hn Hx m V HV.
  pose proof (samuelson l x Hx) as Hsam. cbv zeta in Hsam. fold m in Hsam.
  assert (Hn2 : 2 <= INR (length l)) by (apply (le_INR 2); lia).
  set (n := INR (length l)) in *.
  set (S := Py.sum (map (fun y => (y - m) * (y - m)) l)) in *.
  assert (HS : S = (n - 1) * V) by (unfold V; field; lra).
  assert (Hs : 0 < sqrt V) by (by apply sqrt_lt_R0).
  assert (Hd : (x - m) * (x - m) < (t * sqrt V) * (t * sqrt V)).
  { replace (t * sqrt V * (t * sqrt V)) with (t * t * (sqrt V * sqrt V)) by ring.
    rewrite sqrt_sqrt by lra.
    clearbody n S V m. subst S.
    assert (n * ((x - m) * (x - m)) < n * (t * t * V)); [|nra].
    assert ((n - 1) * ((n - 1) * V) < t * t * n * V) by nra. nra. }
  unfold Rdiv. rewrite Rabs_mult, Rabs_inv, (Rabs_right (sqrt V)) by lra.
  apply (Rmult_lt_reg_r (sqrt V)); [done|].
  rewrite Rmult_assoc, Rinv_l by lra. rewrite Rmult_1_r.
  assert (0 < t * sqrt V) by nra.
  destruct (Rlt_dec (Rabs (x - m)) (t * sqrt V)) as [|Hge]; [done|].
  exfalso. apply Rnot_lt_le in Hge.
  assert (Rabs (x - m) * Rabs (x - m) = (x - m) * (x - m)).
  { rewrite <- Rabs_mult. apply Rabs_right. apply Rle_ge.
    pose proof (Rle_0_sqr (x - m)) as H0. by unfold Rsqr in H0. }
  pose proof (Rabs_pos (x - m)). nra.
Qed.

Lemma variance_positive l a b :
  (2 <= length l)%nat -> a ∈ l -> b ∈ l -> a <> b ->
  let m := Py.sum l / INR (length l) in
  0 < Py.sum (map (fun y => (y - m) * (y - m)) l) / (INR (length l) - 1).
Proof.
  intros Hlen Ha Hb Hab m.
  assert (Hn2 : 2 <= INR (length l)) by (apply (le_INR 2); lia).
  apply Rdiv_lt_0_compat; [|lra].
  pose proof (sum_squares_nonneg (fun y => y - m) l) as Hq.
  destruct (Req_dec (Py.sum (map (fun y => (y - m) * (y - m)) l)) 0) as [E|E];
    [|lra].
  exfalso. apply sum_squares_zero in E.
  rewrite Forall_forall in E. rewrite (E a Ha), (E b Hb) in Hab. done.
Qed.

(** When no z-score reaches the threshold, the comprehension of
    [_remove_outliers] keeps every pair and the lists come back as
    they went in. *)
Ltac keep_every_pair values weights Hlen Ha Hb Hab :=
  unfold _remove_outliers;
  destruct (Nat.ltb_spec (length values) 2) as [?|_]; [lia|];
  pose proof (variance_positive values _ _ Hlen Ha Hb Hab) as HV;
  cbv zeta in HV;
  unfold Py.mean, Py.stdev, Py.variance;
  destruct (Nat.ltb_spec (length values) 2) as [?|_]; [lia|];
  let Ev := fresh "Ev" in
  let Ez := fresh "Ez" in
  destruct values as [|v0 vs] eqn:Ev; [simpl in Hlen; lia|];
  rewrite <- Ev in *;
  simpl mbind;
  rewrite keep_inliers_all;
  [ simpl; destruct (zip values weights) as [|p z] eqn:Ez;
    [ exfalso; apply (f_equal length) in Ez; rewrite length_zip in Ez;
      simpl in Ez; lia
    | rewrite <- Ez; f_equal; f_equal; [apply fst_zip|apply snd_zip]; lia ]
  | apply Rgt_not_eq; by apply sqrt_lt_R0
  | apply Forall_forall; intros [v w] Hvw; simpl;
    apply zscore_bound; try done;
    by apply elem_of_zip_l in Hvw ].

Lemma small_sample_bound n :
  (2 <= n <= 5)%nat -> (INR n - 1) * (INR n - 1) < 2 * 2 * INR n.
Proof.
  intros [H2 H5].
  assert (Hn : n = 2%nat \/ n = 3%nat \/ n = 4%nat \/ n = 5%nat) by lia.
  destruct Hn as [-> | [-> | [-> | ->]]]; simpl; lra.
Qed.

(** Under the default threshold, two to five values that are not all
    equal are all kept. *)
Lemma remove_outliers_default values weights a b :
  (2 <= length values <= 5)%nat ->
  length weights = length values ->
  a ∈ values -> b ∈ values -> a <> b ->
  _remove_outliers 2 values weights = Ok (values, weights).
Proof.
  intros [Hlen H5] Hw Ha Hb Hab.
  assert (Ht : 0 < 2) by lra.
  assert (Hn : (INR (length values) - 1) * (INR (length values) - 1)
               < 2 * 2 * INR (length values))
    by (apply small_sample_bound; lia).
  keep_every_pair values weights Hlen Ha Hb Hab.
Qed.

Lemma variance_nonneg values v : Py.variance values = Ok v -> 0 <= v.
Proof.
  unfold Py.variance. destruct (Nat.ltb_spec (length values) 2); [done|].
  intros [= <-].
  assert (2 <= INR (length values)) by (apply (le_INR 2); lia).
  apply Rmult_le_pos; [apply sum_squares_nonneg with (f := fun x => x - _)|].
  apply Rlt_le, Rinv_0_lt_compat. lra.
Qed.

(** The confidence of a non-empty sample is defined. *)
Lemma calculate_confidence_defined values weights :
  length weights = length values -> values <> [] ->
  exists variance,
    0 <= variance /\
    _calculate_confidence values weights
    = Ok (Rmin 1 (1 / (1 + variance)
                  * (Py.sum weights / INR (length weights))
                  * Rmin 1 (INR (length values) / 5))).
Proof.
  intros Hlen Hne. unfold _calculate_confidence.
  destruct values as [|v0 vs] eqn:Ev; [done|]. rewrite <- Ev in *.
  assert (Hl : (1 <= length values)%nat) by (rewrite Ev; simpl; lia).
  assert (Hw : INR (length weights) <> 0).
  { rewrite Hlen. apply not_0_INR. lia. }
  destruct (Nat.ltb_spec 1 (length values)) as [H2|H1].
  - unfold Py.variance at 1.
    destruct (Nat.ltb_spec (length values) 2) as [?|_]; [lia|].
    set (variance := Py.sum (map _ values) / _).
    assert (Hv : 0 <= variance).
    { apply (variance_nonneg values). unfold Py.variance.
      destruct (Nat.ltb_spec (length values) 2) as [?|_]; [lia|]. done. }
    exists variance. split; [done|]. simpl.
    rewrite !div_nonzero by lra. done.
  - exists 0. split; [lra|]. simpl. rewrite !div_nonzero by lra. done.
Qed.

(** What [_remove_outliers] returns is cut out of what it was given. *)
Lemma keep_inliers_sublist t m s vw clean :
  keep_inliers t m s vw = Ok clean -> sublist clean vw.
Proof.
  revert clean. induction vw as [|[v w] vw IH]; intros clean; simpl.
  - intros [= <-]. constructor.
  - destruct (Py.div (v - m) s) as [z|]; [|done]. simpl.
    destruct (keep_inliers t m s vw) as [rest|]; [|done]. simpl.
    intros [= <-]. destruct (decide _).
    + constructor. by apply IH.
    + constructor. by apply IH.
Qed.

Lemma remove_outliers_sublist t values weights cv cw :
  length weights = length values ->
  _remove_outliers t values weights = Ok (cv, cw) ->
  exists clean,
    sublist clean (zip values weights) /\
    cv = map fst clean /\ cw = map snd clean.
Proof.
  intros Hlen. unfold _remove_outliers.
  destruct (length values <? 2)%nat.
  - intros [= <- <-]. exists (zip values weights).
    split; [done|]. split; symmetry; [apply fst_zip|apply snd_zip]; lia.
  - destruct (Py.mean values) as [m|]; [|done]. simpl.
    destruct (Py.stdev values) as [s|]; [|done]. simpl.
    destruct (keep_inliers t m s (zip values weights)) as [clean|] eqn:E;
      [|done]. simpl.
    apply keep_inliers_sublist in E.
    destruct clean as [|p clean'] eqn:Ec.
    + intros [= <- <-]. by exists [].
    + rewrite <- Ec in *. intros [= <- <-]. by exists clean.
Qed.

(** X3.  Whatever [aggregate] returns, it counts at least one and at
    most all of the data points and its confidence is at most 1; when
    no weight is negative the confidence is not negative either. *)
Theorem aggregate_counts_and_confidence_bounds t data_points weights r :
  aggregate t data_points weights = Ok r ->
  (1 <= num_sources r <= length data_points)%nat /\
  confidence r <= 1 /\
  (Forall (fun w => 0 <= w) weights -> 0 <= confidence r).
Proof.
  unfold aggregate.
  destruct (bool_decide (data_points = []) || bool_decide (weights = [])
            || negb (length data_points =? length weights)%nat) eqn:Eg; [done|].
  apply orb_false_elim in Eg as [_ Eg]. apply negb_false_iff in Eg.
  apply Nat.eqb_eq in Eg.
  set (values := map (fun d => default 0 (d_value d)) data_points).
  assert (Hlv : length values = length data_points)
    by (unfold values; apply length_map).
  destruct (_remove_outliers t values weights) as [[cv cw]|] eqn:Er; [|done].
  apply remove_outliers_sublist in Er as (clean & Hsub & -> & ->);
    [|congruence].
  cbn [mbind result_bind].
  destruct (map fst clean) as [|v0 vs] eqn:Ecv; [done|]. rewrite <- Ecv.
  assert (Hne : map fst clean <> []) by (rewrite Ecv; done).
  unfold Py.div at 1. destruct (decide (Py.sum (map snd clean) = 0)) as [|Hws];
    [done|]. cbn [mbind result_bind].
  destruct (calculate_confidence_defined (map fst clean) (map snd clean))
    as (var & Hvar & Hc); [by rewrite !length_map|done|].
  rewrite Hc. cbn [mbind result_bind]. intros [= <-]. simpl.
  assert (Hlc : (1 <= length clean)%nat).
  { destruct clean; [done|simpl; lia]. }
  assert (Hin : forall p, p ∈ clean -> fst p ∈ values /\ snd p ∈ weights).
  { intros [v w] Hp. eapply elem_of_sublist in Hp; [|exact Hsub].
    split; [by eapply elem_of_zip_l|by eapply elem_of_zip_r]. }
  split; [|split].
  - rewrite length_map. split; [done|].
    apply sublist_length in Hsub. rewrite length_zip in Hsub. lia.
  - apply Rmin_l.
  - intros Hw. apply Rmin_glb; [lra|].
    assert (0 <= Py.sum (map snd clean)).
    { apply sum_nonneg, Forall_forall. intros w Hwin.
      apply list_elem_of_fmap in Hwin as (p & -> & Hp).
      rewrite Forall_forall in Hw. apply Hw. by apply Hin. }
    assert (0 < INR (length (map snd clean))).
    { rewrite length_map. apply lt_0_INR. lia. }
    assert (0 <= INR (length (map fst clean)) / 5).
    { pose proof (pos_INR (length (map fst clean))). lra. }
    apply Rmult_le_pos; [apply Rmult_le_pos|].
    + apply Rlt_le, Rdiv_lt_0_compat; lra.
    + apply Rmult_le_pos; [done|]. apply Rlt_le, Rinv_0_lt_compat. done.
    + apply Rmin_glb; lra.
Qed.

Lemma aggregate_counts_and_confidence_bounds_witness :
  let r := {| value := 100; confidence := 12 / 25; num_sources := 3 |} in
  (1 <= num_sources r <= length [pt 100; pt (201/2); pt (199/2)])%nat /\
  confidence r <= 1 /\
  (Forall (fun w => 0 <= w) [1; 1; 1] -> 0 <= confidence r).
Proof.
  apply (aggregate_counts_and_confidence_bounds 2
           [pt 100; pt (201/2); pt (199/2)] [1; 1; 1]).
  apply aggregate_happy_path.
Defined.

(** Two or more equal values: the deviation is zero and the first
    z-score divides by it. *)
Lemma aggregate_constant_raises t (data_points : list Data)
    (weights : list R) c :
  length data_points = length weights ->
  (2 <= length data_points)%nat ->
  Forall (fun d => default 0 (d_value d) = c) data_points ->
  aggregate t data_points weights =
    Raise (mkExn ZeroDivisionError "float division by zero").
Proof.
  intros Hlen H2 Hall. unfold aggregate.
  assert (Hv : Forall (fun v => v = c)
                 (map (fun d => default 0 (d_value d)) data_points)).
  { apply Forall_map. exact Hall. }
  set (values := map (fun d => default 0 (d_value d)) data_points) in *.
  assert (Hlv : length values = length data_points)
    by (unfold values; apply length_map).
  destruct data_points as [|d1 ds]; [simpl in H2; lia|].
  destruct weights as [|w1 ws]; [simpl in Hlen; lia|].
  simpl bool_decide. rewrite Hlen, Nat.eqb_refl. simpl negb. cbn match.
  unfold _remove_outliers.
  destruct (Nat.ltb_spec (length values) 2) as [?|_]; [lia|].
  rewrite (mean_constant c) by (done || (intros E; rewrite E in Hlv; done)).
  rewrite (stdev_constant c) by (done || lia).
  destruct values as [|v vs] eqn:Ev; [simpl in Hlv; lia|].
  simpl. by rewrite div_by_zero.
Qed.

Lemma constant_or_distinct (l : list R) :
  (exists c, Forall (fun v => v = c) l) \/
  (exists a b, a ∈ l /\ b ∈ l /\ a <> b).
Proof.
  induction l as [|x l IH]; [left; exists 0; constructor|].
  destruct IH as [[c Hc]|(a & b & Ha & Hb & Hab)].
  - destruct l as [|y l].
    + left. exists x. by repeat constructor.
    + apply Forall_cons in Hc as [-> Hc].
      destruct (Req_dec x c) as [->|Hne].
      * left. exists c. by repeat constructor.
      * right. exists x, c. split; [by left|]. split; [right; by left|done].
  - right. exists a, b. split; [by right|]. split; [by right|done].
Qed.

(** X4.  When every weight is zero (sources of reputation 0),
    [aggregate] with the default threshold raises [ZeroDivisionError]
    for one to five data points: the weighted sum is divided by the sum
    of the weights. *)
Theorem weightless_sources_raise_zero_division data_points weights :
  (1 <= length data_points <= 5)%nat ->
  length weights = length data_points ->
  Forall (fun w => w = 0) weights ->
  aggregate 2 data_points weights
  = Raise (mkExn ZeroDivisionError "float division by zero").
Proof.
  intros Hn Hlen Hzero.
  pose proof (sum_zeros weights Hzero) as Hsum.
  set (values := map (fun d => default 0 (d_value d)) data_points).
  assert (Hlv : length values = length data_points)
    by (unfold values; apply length_map).
  destruct (decide (length data_points = 1%nat)) as [H1|H1].
  - destruct data_points as [|d [|]]; try (simpl in H1; lia).
    destruct weights as [|w [|]]; try (simpl in Hlen; lia).
    unfold aggregate. simpl. simpl in Hsum.
    unfold Py.div. destruct (decide (w + 0 = 0)); [done|lra].
  - destruct (constant_or_distinct values) as [[c Hc]|(a & b & Ha & Hb & Hab)].
    + apply (aggregate_constant_raises 2 _ _ c); [done|lia|].
      unfold values in Hc. by apply Forall_map in Hc.
    + unfold aggregate.
      rewrite bool_decide_eq_false_2 by (intros ->; simpl in Hn; lia).
      rewrite bool_decide_eq_false_2 by (intros ->; simpl in Hlen; lia).
      rewrite <- Hlen, Nat.eqb_refl. cbn [orb negb]. cbv zeta. fold values.
      rewrite (remove_outliers_default values weights a b); try done;
    [|lia|congruence].
      cbn [mbind result_bind].
      destruct values as [|v0 vs] eqn:Ev; [simpl in Hlv; lia|].
      rewrite Hsum. by rewrite div_by_zero.
Qed.

Lemma weightless_sources_raise_zero_division_witness :
  aggregate 2 [pt 100; pt 101] [0; 0]
  = Raise (mkExn ZeroDivisionError "float division by zero").
Proof.
  apply (weightless_sources_raise_zero_division [pt 100; pt 101] [0; 0]).
  - simpl. lia.
  - reflexivity.
  - by repeat constructor.
Defined.

End AggregationFacts.

(** ** The circuit breaker *)

Section BreakerFacts.
Import Breaker.
Context {A : Type}.

(** A call whose function raises. *)
Definition fails (c : Q * result A) : Prop := exists e, snd c = Raise e.

(** A closed breaker lets a failing call through and counts it. *)
Lemma execute_closed_failure (b : CircuitBreaker) t (e : PyExn) :
  is_open b = false ->
  execute b t (Raise e : result A)
  = (Raise e,
     {| threshold := threshold b; reset_timeout := reset_timeout b;
        failure_count := failure_count b + 1; last_failure_time := t;
        is_open := bool_decide (failure_count b + 1 >= threshold b) |}).
Proof.
  intros Hc. unfold execute, enter. rewrite Hc. simpl.
  rewrite Hc. by case_bool_decide.
Qed.

Lemma execute_open_early (b : CircuitBreaker) t (func : result A) :
  is_open b = true ->
  (t - last_failure_time b < reset_timeout b)%Q ->
  execute b t func = (Raise (mkExn Exception_ "Circuit breaker is open"), b).
Proof.
  intros Ho Ht. unfold execute, enter. rewrite Ho.
  destruct (Qlt_le_dec _ _) as [_|Hle]; [done|].
  exfalso. apply (Qlt_not_le _ _ Ht Hle).
Qed.

Lemma execute_all_app (l1 l2 : list (Q * result A)) b0 :
  execute_all b0 (l1 ++ l2)
  = (fst (execute_all b0 l1)
       ++ fst (execute_all (snd (execute_all b0 l1)) l2),
     snd (execute_all (snd (execute_all b0 l1)) l2)).
Proof.
  revert b0. induction l1 as [|[t f] l1 IH]; intros b0; simpl.
  - by destruct (execute_all b0 l2).
  - destruct (execute b0 t f) as [r b1]. rewrite IH.
    destruct (execute_all b1 l1) as [rs b2]. simpl.
    by destruct (execute_all b2 l2).
Qed.

Lemma failures_below_threshold (calls : list (Q * result A)) b :
  is_open b = false ->
  Forall fails calls ->
  failure_count b + Z.of_nat (length calls) < threshold b ->
  exists b',
    execute_all b calls = (map snd calls, b') /\
    is_open b' = false /\
    threshold b' = threshold b /\
    reset_timeout b' = reset_timeout b /\
    failure_count b' = failure_count b + Z.of_nat (length calls).
Proof.
  revert b. induction calls as [|[t f] calls IH]; intros b Hc Hf Hlt.
  - exists b. simpl. split; [done|]. split; [done|].
    split; [done|]. split; [done|lia].
  - apply Forall_cons in Hf as [[e He] Hf]. simpl in He. subst f.
    simpl length in Hlt.
    simpl. rewrite execute_closed_failure by done.
    set (b1 := Build_CircuitBreaker _ _ _ _ _).
    destruct (IH b1) as (b' & Hrun & Ho & Hth & Hrt & Hcount).
    + simpl. apply bool_decide_eq_false. lia.
    + done.
    + simpl. lia.
    + exists b'. rewrite Hrun. simpl in *. split; [done|]. split; [done|].
      split; [done|]. split; [done|lia].
Qed.

(** X6.  After [threshold] failures in a row a breaker made by
    [__init__] is open: every one of these calls reached its function,
    and until [reset_timeout] has passed since the last of them every
    further call is turned down with "Circuit breaker is open",
    whatever its function would have done, and leaves the breaker as it
    is. *)
Theorem breaker_opens_after_threshold_failures
    th rt (calls : list (Q * result A)) t_last (e_last : PyExn) :
  1 <= th ->
  Z.of_nat (length calls) = th - 1 ->
  Forall fails calls ->
  exists b,
    execute_all (init th rt) (calls ++ [(t_last, Raise e_last)])
    = (map snd calls ++ [Raise e_last], b) /\
    is_open b = true /\
    failure_count b = th /\
    last_failure_time b = t_last /\
    forall t (func : result A),
      (t - t_last < rt)%Q ->
      execute b t func
      = (Raise (mkExn Exception_ "Circuit breaker is open"), b).
Proof.
  intros Hth Hlen Hf.
  destruct (failures_below_threshold calls (init th rt))
    as (b' & Hrun & Ho & Hth' & Hrt & Hcount); [done|done|simpl; lia|].
  simpl in Hth', Hrt, Hcount.
  rewrite execute_all_app, Hrun. simpl.
  rewrite execute_closed_failure by done. simpl.
  eexists. split; [reflexivity|]. simpl.
  split; [apply bool_decide_eq_true; lia|].
  split; [lia|]. split; [done|].
  intros t func Ht. apply execute_open_early; simpl.
  - apply bool_decide_eq_true. lia.
  - by rewrite Hrt.
Qed.

(** The states a breaker made by [init] can be in. *)
Definition consistent (b : CircuitBreaker) : Prop :=
  0 <= failure_count b <= threshold b /\
  (is_open b = true <-> failure_count b = threshold b).

Lemma execute_consistent (b : CircuitBreaker) t (func : result A) :
  1 <= threshold b -> consistent b ->
  consistent (snd (execute b t func)) /\
  threshold (snd (execute b t func)) = threshold b.
Proof.
  intros Hth [Hrange Hopen]. unfold execute, enter.
  destruct (is_open b) eqn:Ho.
  - destruct (Qlt_le_dec _ _); simpl.
    + split; [|done]. split; [done|]. by rewrite Ho.
    + destruct func as [r|e]; simpl.
      * split; [|done]. split; simpl; [lia|]. split; [done|lia].
      * split; [|done]. split; simpl; [lia|].
        case_bool_decide; split; try done; lia.
  - assert (failure_count b <> threshold b)
      by (intros E; apply Hopen in E; done).
    destruct func as [r|e]; simpl.
    + split; [|done]. split; simpl; [lia|]. rewrite Ho. split; [done|lia].
    + split; [|done]. split; simpl; [lia|]. rewrite Ho.
      case_bool_decide; split; try done; lia.
Qed.

(** X7.  Whatever calls a breaker made by [__init__] has served, one
    after the other, its failure count lies between 0 and the
    threshold, and it is open exactly when the count has reached the
    threshold: a success in between starts the count again. *)
Theorem breaker_open_iff_count_at_threshold
    th rt (calls : list (Q * result A)) :
  1 <= th ->
  let b := snd (execute_all (init th rt) calls) in
  0 <= failure_count b <= th /\
  (is_open b = true <-> failure_count b = th).
Proof.
  intros Hth.
  assert (Hgen : forall (l : list (Q * result A)) b0,
             threshold b0 = th -> consistent b0 ->
             consistent (snd (execute_all b0 l)) /\
             threshold (snd (execute_all b0 l)) = th).
  { induction l as [|[t f] l IH]; intros b0 Hb0 Hc; simpl; [done|].
    destruct (execute_consistent b0 t f) as [Hc1 Ht1]; [lia|done|].
    destruct (execute b0 t f) as [r b1]. simpl in Hc1, Ht1.
    destruct (IH b1) as [Hc2 Ht2]; [congruence|done|].
    destruct (execute_all b1 l) as [rs b2]. done. }
  destruct (Hgen calls (init th rt)) as [[Hr Ho] Ht]; [done| |].
  - split; simpl; [lia|]. split; [done|lia].
  - simpl. rewrite Ht in Hr, Ho. done.
Qed.

End BreakerFacts.

(** Three fetches in a row fail under the defaults of [__init__]. *)
Definition source_down : result unit :=
  Raise (mkExn Exception_ "No data received yet").

Lemma breaker_opens_after_threshold_failures_witness :
  exists b,
    Breaker.execute_all (Breaker.init 3 300)
      ([(0%Q, source_down); (1%Q, source_down)]
         ++ [(2%Q, Raise (mkExn Exception_ "No data received yet"))])
    = (map snd [(0%Q, source_down); (1%Q, source_down)]
         ++ [Raise (mkExn Exception_ "No data received yet")], b) /\
    Breaker.is_open b = true /\
    Breaker.failure_count b = 3 /\
    Breaker.last_failure_time b = 2%Q /\
    forall t (func : result unit),
      (t - 2 < 300)%Q ->
      Breaker.execute b t func
      = (Raise (mkExn Exception_ "Circuit breaker is open"), b).
Proof.
  apply (breaker_opens_after_threshold_failures 3 300%Q
           [(0%Q, source_down); (1%Q, source_down)]).
  - lia.
  - reflexivity.
  - repeat constructor; eexists; reflexivity.
Defined.

Lemma breaker_open_iff_count_at_threshold_witness :
  let b := snd (Breaker.execute_all (Breaker.init 3 300)
                  [(0%Q, source_down); (1%Q, Ok tt); (2%Q, source_down)]) in
  0 <= Breaker.failure_count b <= 3 /\
  (Breaker.is_open b = true <-> Breaker.failure_count b = 3).
Proof.
  apply (breaker_open_iff_count_at_threshold 3 300%Q
           [(0%Q, source_down); (1%Q, Ok tt); (2%Q, source_down)]).
  lia.
Defined.

(** ** The breaker shared by the sources of a cycle *)

Section SharedBreaker.
Import Breaker Gather.
Context {A : Type}.
Implicit Types (fetches : list (result A)) (ts : list (Task A)).

(** [execute] is the check followed by the settling of the outcome. *)
Lemma execute_enter_settle (b : CircuitBreaker) t (func : result A) :
  execute b t func
  = match enter b t with
    | Raise e => (Raise e, b)
    | Ok b1 => (func, settle b1 t func)
    end.
Proof.
  unfold execute, settle. destruct (enter b t); [|done]. by destruct func.
Qed.

(** A fetch that raises. *)
Definition raises (func : result A) : bool :=
  match func with Raise _ => true | Ok _ => false end.

Definition is_done (t : Task A) : bool :=
  match t with Done _ => true | _ => false end.

(** The failures that are still to come: the sources whose fetch raises
    and whose task is not done. *)
Fixpoint pending_failures ts fetches : nat :=
  match ts, fetches with
  | t :: ts', f :: fetches' =>
      (if negb (is_done t) && raises f then 1 else 0)
      + pending_failures ts' fetches'
  | _, _ => 0
  end%nat.

Lemma pending_failures_start fetches :
  pending_failures (replicate (length fetches) Waiting) fetches
  = length (List.filter raises fetches).
Proof.
  induction fetches as [|f fetches IH]; [done|]. simpl.
  rewrite IH. by destruct (raises f).
Qed.

Lemma pending_failures_fetching ts fetches i t :
  ts !! i = Some Waiting ->
  pending_failures (<[i := Fetching t]> ts) fetches
  = pending_failures ts fetches.
Proof.
  revert i fetches. induction ts as [|t0 ts IH]; intros [|i] [|f fetches] H;
    try done; simpl in *.
  - by injection H as ->.
  - by rewrite IH.
Qed.

Lemma pending_failures_done ts fetches i t func :
  ts !! i = Some (Fetching t) ->
  fetches !! i = Some func ->
  (pending_failures (<[i := Done func]> ts) fetches
   + (if raises func then 1 else 0))%nat
  = pending_failures ts fetches.
Proof.
  revert i fetches. induction ts as [|t0 ts IH]; intros [|i] [|f fetches] H Hf;
    try done; simpl in *.
  - injection H as ->. injection Hf as ->. simpl. destruct (raises func); lia.
  - rewrite <- (IH i fetches H Hf). lia.
Qed.

(** What holds of a cycle that began under a closed breaker with room
    for the failures to come. *)
Definition sound fetches (th : Z) (c : Cycle A) : Prop :=
  is_open (breaker c) = false /\
  threshold (breaker c) = th /\
  0 <= failure_count (breaker c) /\
  failure_count (breaker c)
    + Z.of_nat (pending_failures (tasks c) fetches) < th /\
  forall i r, tasks c !! i = Some (Done r) -> fetches !! i = Some r.

Lemma step_sound fetches th c ev :
  sound fetches th c -> sound fetches th (step fetches c ev).
Proof.
  intros (Ho & Hth & H0 & Hroom & Hdone). destruct ev as [i t|i];
    cbn [step].
  - destruct (tasks c !! i) as [[| |]|] eqn:Ei; try done.
    unfold enter. rewrite Ho. unfold sound. cbn [breaker tasks].
    split; [done|]. split; [done|]. split; [done|]. split.
    + by rewrite pending_failures_fetching.
    + intros j r Hj. destruct (decide (j = i)) as [->|Hne].
      * rewrite list_lookup_insert_eq in Hj by (by eapply lookup_lt_Some).
        done.
      * rewrite list_lookup_insert_ne in Hj by done. by apply Hdone.
  - destruct (tasks c !! i) as [[|t|]|] eqn:Ei; try done.
    destruct (fetches !! i) as [func|] eqn:Ef; [|done].
    pose proof (pending_failures_done _ _ _ _ _ Ei Ef) as Hp.
    assert (Hd : forall j r,
               <[i := Done func]> (tasks c) !! j = Some (Done r) ->
               fetches !! j = Some r).
    { intros j r Hj. destruct (decide (j = i)) as [->|Hne].
      - rewrite list_lookup_insert_eq in Hj by (by eapply lookup_lt_Some).
        congruence.
      - rewrite list_lookup_insert_ne in Hj by done. by apply Hdone. }
    unfold sound. cbn [breaker tasks].
    destruct func as [d|e]; cbn [settle raises] in *;
      cbn [is_open threshold failure_count].
    + split; [done|]. split; [done|]. split; [done|]. split; [lia|done].
    + split; [rewrite bool_decide_eq_false_2 by lia; done|].
      split; [done|]. split; [lia|]. split; [lia|done].
Qed.

Lemma run_sound fetches b events :
  is_open b = false ->
  0 <= failure_count b ->
  failure_count b + Z.of_nat (length (List.filter raises fetches))
    < threshold b ->
  sound fetches (threshold b) (run fetches b events) /\
  length (tasks (run fetches b events)) = length fetches.
Proof.
  intros Ho H0 Hroom. unfold run.
  set (c0 := {| breaker := b; tasks := replicate (length fetches) Waiting |}).
  assert (Hs : sound fetches (threshold b) c0 /\
               length (tasks c0) = length fetches).
  { split; [|apply length_replicate].
    repeat split; simpl; try done.
    - by rewrite pending_failures_start.
    - intros i r Hi. apply lookup_replicate in Hi as [Hi _]. done. }
  clearbody c0. revert c0 Hs.
  induction events as [|ev events IH]; intros c0 [Hs Hl]; [done|].
  simpl. apply IH. split; [by apply step_sound|].
  destruct ev as [i t|i]; simpl.
  - destruct (tasks c0 !! i) as [[| |]|]; try done.
    destruct (enter _ _); simpl; by rewrite length_insert.
  - destruct (tasks c0 !! i) as [[| |]|]; try done.
    destruct (fetches !! i); [|done]. simpl. by rewrite length_insert.
Qed.

(** X5.  While the breaker of the service is closed and has room for
    the failures of the cycle (its failure count and the number of
    sources whose fetch raises stay below the threshold together), no
    source is turned down, in whatever order the event loop starts and
    resumes the tasks: once all of them are done, [gather] holds for
    each source what its own fetch came to, so that
    [_fetch_all_sources] drops the sources whose fetch raised and no
    other, and the breaker is still closed. *)
Theorem closed_breaker_with_room_refuses_no_source fetches b events rs :
  is_open b = false ->
  0 <= failure_count b ->
  failure_count b + Z.of_nat (length (List.filter raises fetches))
    < threshold b ->
  results (run fetches b events) = Some rs ->
  rs = fetches /\
  is_open (breaker (run fetches b events)) = false.
Proof.
  intros Ho H0 Hroom Hrs.
  destruct (run_sound fetches b events Ho H0 Hroom)
    as [(Hopen & _ & _ & _ & Hdone) Hlen].
  split; [|done].
  unfold results in Hrs. apply mapM_Some in Hrs.
  apply list_eq_same_length with (length fetches); [done| |].
  - apply Forall2_length in Hrs. lia.
  - intros i x y Hi Hx Hy.
    destruct (Forall2_lookup_r _ _ _ _ _ Hrs Hx) as (t & Ht & Htx).
    destruct t as [| |r]; try done. injection Htx as ->.
    apply Hdone in Ht. congruence.
Qed.
End SharedBreaker.

(** The fetch of a source that is down. *)
Definition down : result Z := Raise (mkExn Exception_ "No data received yet").

(** Three sources of which the first and the last are down. *)
Definition two_down : list (result Z) := [down; Ok 100; down].

Lemma closed_breaker_with_room_refuses_no_source_witness :
  two_down = two_down /\
  Breaker.is_open
    (Gather.breaker
       (Gather.run two_down (Breaker.init 3 300)
          [Gather.Start 0 0; Gather.Start 1 0; Gather.Resume 0;
           Gather.Start 2 1; Gather.Resume 2; Gather.Resume 1])) = false.
Proof.
  apply (closed_breaker_with_room_refuses_no_source two_down
           (Breaker.init 3 300)
           [Gather.Start 0 0; Gather.Start 1 0; Gather.Resume 0;
            Gather.Start 2 1; Gather.Resume 2; Gather.Resume 1] two_down).
  - reflexivity.
  - simpl. lia.
  - simpl. lia.
  - vm_compute. reflexivity.
Defined.

(** Without that room a healthy source loses its data: when the fetches
    of three sources have failed by the time the task of a fourth
    starts, the breaker is open and the fourth is turned down, though
    its own fetch would have given 100. *)
Example open_breaker_refuses_a_healthy_source :
  Gather.results
    (Gather.run [down; down; down; Ok 100] (Breaker.init 3 300)
       [Gather.Start 0 0; Gather.Resume 0; Gather.Start 1 0; Gather.Resume 1;
        Gather.Start 2 0; Gather.Resume 2; Gather.Start 3 1])
  = Some [down; down; down;
          Raise (mkExn Exception_ "Circuit breaker is open")].
Proof. vm_compute. reflexivity. Qed.

(** ** The cache, the rate limiter, the retries and the token of the
    adapters *)

Section CacheFacts.
Import Adapter.

(** X8.  What [CacheManager.set] stored under a key at the time [t0] is
    what [get] returns for that key at every time less than [ttl]
    later, the cache staying as it is; from [ttl] on, [get] returns
    [None] and removes the entry, leaving the other keys alone. *)
Theorem cache_round_trip c key d t0 t :
  let c1 := set c key d t0 in
  ((t - t0 < ttl c)%Q -> get c1 key t = (Some d, c1)) /\
  ((ttl c <= t - t0)%Q ->
   fst (get c1 key t) = None /\
   cache (snd (get c1 key t)) !! key = None /\
   forall other, other <> key ->
     cache (snd (get c1 key t)) !! other = cache c !! other).
Proof.
  intros c1. unfold get, c1, set. simpl. rewrite lookup_insert_eq. simpl.
  split; intros Ht.
  - destruct (Qlt_le_dec _ _) as [_|Hle]; [done|].
    exfalso. apply (Qlt_not_le _ _ Ht Hle).
  - destruct (Qlt_le_dec _ _) as [Hlt|_].
    + exfalso. apply (Qlt_not_le _ _ Hlt Ht).
    + simpl. split; [done|]. split; [apply lookup_delete_eq|].
      intros other Hne. rewrite lookup_delete_ne by done.
      by rewrite lookup_insert_ne.
Qed.

End CacheFacts.

Section LimiterFacts.
Import Limiter.
Local Open Scope Q_scope.

(** X9.  The limiter stamps a call with the time of its arrival, not
    with the time at which it lets the call go.  Under a limit of one
    call per [period], with one call stamped [t0]: a call arriving at
    [a] inside the window is held until [t0 + period]; the next call,
    arriving at [b] once the first has been let go and less than
    [period] after [a], is let go less than [period] after the
    first. *)
Theorem delayed_call_is_followed_too_soon self t0 a b :
  calls self = 1%Z ->
  timestamps self = [t0] ->
  t0 < a -> a < t0 + period self ->
  t0 + period self <= b -> b < a + period self ->
  exists sleep_a self1 sleep_b self2,
    acquire self a = Some (sleep_a, self1) /\
    acquire self1 b = Some (sleep_b, self2) /\
    a + sleep_a == t0 + period self /\
    b <= b + sleep_b /\
    (b + sleep_b) - (a + sleep_a) < period self.
Proof.
  intros Hcalls Hts Ha1 Ha2 Hb1 Hb2.
  assert (Hacq : acquire self a
                 = Some (t0 + period self - a,
                         {| calls := calls self; period := period self;
                            timestamps := [t0; a] |})).
  { unfold acquire. rewrite Hts, Hcalls. simpl.
    replace (Qle_bool (a - t0) (period self)) with true
      by (symmetry; apply Qle_bool_iff; Lqa.lra).
    simpl.
    destruct (Qlt_le_dec _ _) as [_|Hle]; [done|]. exfalso. Lqa.lra. }
  rewrite Hacq.
  set (self1 := {| calls := calls self; period := period self;
                   timestamps := [t0; a] |}).
  assert (Hb : exists sleep_b self2,
             acquire self1 b = Some (sleep_b, self2) /\
             ((sleep_b == 0 /\ b - t0 <= period self) \/
              sleep_b == a + period self - b)).
  { unfold acquire, self1. simpl. rewrite Hcalls.
    replace (Qle_bool (b - a) (period self)) with true
      by (symmetry; apply Qle_bool_iff; Lqa.lra).
    destruct (Qle_bool (b - t0) (period self)) eqn:Eb; simpl.
    - apply Qle_bool_iff in Eb.
      destruct (Qlt_le_dec _ _) as [Hlt|_]; [exfalso; Lqa.lra|].
      eexists _, _. split; [reflexivity|]. left. split; [reflexivity|done].
    - destruct (Qlt_le_dec _ _) as [_|Hle]; [|exfalso; Lqa.lra].
      eexists _, _. split; [reflexivity|]. right. reflexivity. }
  destruct Hb as (sleep_b & self2 & Hacq2 & Hsleep).
  exists (t0 + period self - a), self1, sleep_b, self2.
  split; [done|]. split; [done|].
  split; [Lqa.lra|].
  destruct Hsleep as [[Hs Hle]| Hs]; rewrite Hs; split; Lqa.lra.
Qed.

Lemma delayed_call_is_followed_too_soon_witness :
  let self := {| calls := 1; period := 10; timestamps := [0] |} in
  exists sleep_a self1 sleep_b self2,
    acquire self 1 = Some (sleep_a, self1) /\
    acquire self1 10 = Some (sleep_b, self2) /\
    1 + sleep_a == 0 + period self /\
    10 <= 10 + sleep_b /\
    (10 + sleep_b) - (1 + sleep_a) < period self.
Proof.
  intros self.
  apply (delayed_call_is_followed_too_soon self 0 1 10).
  - reflexivity.
  - reflexivity.
  - reflexivity.
  - reflexivity.
  - simpl. Lqa.lra.
  - reflexivity.
Defined.

End LimiterFacts.

Section RetryFacts.
Import Retry.
Local Open Scope Q_scope.
Context {A : Type}.

(** The sleeps before the attempts that follow a first one made after
    a sleep of [delay]. *)
Fixpoint delays (delay factor : Q) (n : nat) : list Q :=
  match n with
  | O => []
  | S n' => delay :: delays (delay * factor) factor n'
  end.

Lemma attempts_retry (request_func : nat -> result A) has_monitor factor
    left attempt delay slept e :
  request_func attempt = Raise e ->
  attempts request_func has_monitor factor (S (S left)) attempt delay slept
  = attempts request_func has_monitor factor (S left) (S attempt)
      (delay * factor) (slept ++ [delay]).
Proof. intros H. simpl. rewrite H. reflexivity. Qed.

Lemma attempts_fail (request_func : nat -> result A) has_monitor factor
    (errors : nat -> PyExn) n first delay slept :
  (forall i, (i <= n)%nat ->
     request_func (first + i)%nat = Raise (errors (first + i)%nat)) ->
  attempts request_func has_monitor factor (S n) first delay slept
  = (Raise (if has_monitor then record_source_error
            else errors (first + n)%nat),
     slept ++ delays delay factor n).
Proof.
  revert first delay slept. induction n as [|n IH]; intros first delay slept Hf.
  - simpl. specialize (Hf 0%nat ltac:(lia)).
    rewrite Nat.add_0_r in *. rewrite Hf, app_nil_r. by destruct has_monitor.
  - pose proof (Hf 0%nat ltac:(lia)) as H0.
    rewrite Nat.add_0_r in H0. rewrite (attempts_retry _ _ _ _ _ _ _ _ H0).
    rewrite IH.
    + replace (S first + n)%nat with (first + S n)%nat by lia.
      simpl. by rewrite <- app_assoc.
    + intros i Hi. replace (S first + i)%nat with (first + S i)%nat by lia.
      apply Hf. lia.
Qed.

Lemma attempts_succeed (request_func : nat -> result A) has_monitor factor
    (errors : nat -> PyExn) k left first delay slept r :
  (forall i, (i < k)%nat ->
     request_func (first + i)%nat = Raise (errors (first + i)%nat)) ->
  request_func (first + k)%nat = Ok r ->
  (k < left)%nat ->
  attempts request_func has_monitor factor left first delay slept
  = (Ok (Some r), slept ++ delays delay factor k).
Proof.
  revert left first delay slept. induction k as [|k IH];
    intros left first delay slept Hf Hok Hlt.
  - destruct left as [|left']; [lia|]. simpl.
    rewrite Nat.add_0_r in Hok. by rewrite Hok, app_nil_r.
  - destruct left as [|[|left']]; [lia|lia|].
    pose proof (Hf 0%nat ltac:(lia)) as H0.
    rewrite Nat.add_0_r in H0. rewrite (attempts_retry _ _ _ _ _ _ _ _ H0).
    rewrite IH.
    + simpl. by rewrite <- app_assoc.
    + intros i Hi. replace (S first + i)%nat with (first + S i)%nat by lia.
      apply Hf. lia.
    + replace (S first + k)%nat with (first + S k)%nat by lia. done.
    + lia.
Qed.

Lemma delays_nth delay factor n i :
  (i < n)%nat ->
  nth i (delays delay factor n) 0 == delay * factor ^ Z.of_nat i.
Proof.
  revert delay i. induction n as [|n IH]; intros delay i Hi; [lia|].
  destruct i as [|i].
  - simpl. ring.
  - cbn [delays nth]. rewrite IH by lia.
    rewrite Nat2Z.inj_succ. unfold Z.succ.
    rewrite Qpower.Qpower_plus' by lia. simpl. ring.
Qed.

Lemma delays_length delay factor n : length (delays delay factor n) = n.
Proof. revert delay. induction n; intros; simpl; auto. Qed.

(** X10.  When each of the [max_attempts >= 1] calls of the request
    raises, [_handle_request] has slept [max_attempts - 1] times, the
    [i]-th time for [initial_delay * backoff_factor ^ i], and then
    raises: the error of the last call for an adapter without a
    monitor, and the [AttributeError] of the call
    [monitor.record_source_error] for an adapter with one. *)
Theorem handle_request_gives_up_after_max_attempts
    cfg has_monitor (request_func : nat -> result A) (errors : nat -> PyExn) n :
  max_attempts cfg = Z.of_nat (S n) ->
  (forall i, (i <= n)%nat -> request_func i = Raise (errors i)) ->
  exists slept,
    _handle_request cfg has_monitor request_func
    = (Raise (if has_monitor then record_source_error else errors n), slept) /\
    length slept = n /\
    forall i, (i < n)%nat ->
      nth i slept 0 == initial_delay cfg * backoff_factor cfg ^ Z.of_nat i.
Proof.
  intros Hmax Hf. unfold _handle_request. rewrite Hmax, Nat2Z.id.
  rewrite (attempts_fail _ _ _ errors) by (intros i Hi; by apply Hf).
  eexists. split; [reflexivity|]. simpl.
  split; [apply delays_length|]. intros i Hi. by apply delays_nth.
Qed.

(** X11.  When the calls of the request raise [k] times and the next
    one returns, with [k < max_attempts], [_handle_request] returns
    that result after [k] sleeps, the [i]-th for
    [initial_delay * backoff_factor ^ i]. *)
Theorem handle_request_returns_first_success
    cfg has_monitor (request_func : nat -> result A) (errors : nat -> PyExn)
    k r :
  (Z.of_nat k < max_attempts cfg)%Z ->
  (forall i, (i < k)%nat -> request_func i = Raise (errors i)) ->
  request_func k = Ok r ->
  exists slept,
    _handle_request cfg has_monitor request_func = (Ok (Some r), slept) /\
    length slept = k /\
    forall i, (i < k)%nat ->
      nth i slept 0 == initial_delay cfg * backoff_factor cfg ^ Z.of_nat i.
Proof.
  intros Hmax Hf Hok. unfold _handle_request.
  rewrite (attempts_succeed _ _ _ errors k _ 0 _ _ r);
    [|intros i Hi; by apply Hf|done|lia].
  eexists. split; [reflexivity|]. simpl.
  split; [apply delays_length|]. intros i Hi. by apply delays_nth.
Qed.

End RetryFacts.

(** The source answers every request with the status 500. *)
Definition http_500 : PyExn := mkExn Exception_ "API request failed: 500".

Lemma handle_request_gives_up_after_max_attempts_witness :
  exists slept,
    Retry._handle_request Retry.default_retry_config true
      (fun _ => Raise http_500 : result unit)
    = (Raise (if true then Retry.record_source_error else http_500), slept) /\
    length slept = 2%nat /\
    forall i, (i < 2)%nat ->
      (nth i slept 0 ==
       Retry.initial_delay Retry.default_retry_config
       * Retry.backoff_factor Retry.default_retry_config ^ Z.of_nat i)%Q.
Proof.
  apply (handle_request_gives_up_after_max_attempts
           Retry.default_retry_config true
           (fun _ => Raise http_500 : result unit) (fun _ => http_500) 2).
  - reflexivity.
  - intros i _. reflexivity.
Defined.

Lemma handle_request_returns_first_success_witness :
  exists slept,
    Retry._handle_request Retry.default_retry_config false
      (fun i => if (i <? 1)%nat then Raise http_500 else Ok tt)
    = (Ok (Some tt), slept) /\
    length slept = 1%nat /\
    forall i, (i < 1)%nat ->
      (nth i slept 0 ==
       Retry.initial_delay Retry.default_retry_config
       * Retry.backoff_factor Retry.default_retry_config ^ Z.of_nat i)%Q.
Proof.
  apply (handle_request_returns_first_success
           Retry.default_retry_config false
           (fun i => if (i <? 1)%nat then Raise http_500 else Ok tt)
           (fun _ => http_500) 1 tt).
  - simpl. lia.
  - intros i Hi. assert (i = 0%nat) as -> by lia. reflexivity.
  - reflexivity.
Defined.

Section AuthFacts.
Import Auth.
Local Open Scope Q_scope.

(** X12.  A token that [_get_oauth_token] has fetched at the time [t0]
    with a lifetime of [expires_in] seconds is returned again, without
    a request, by every call made less than [expires_in - 300] seconds
    later; from then on every call sends a request to the token
    endpoint.  A token with a lifetime of at most 300 seconds is never
    reused. *)
Theorem oauth_token_is_reused_until_five_minutes_before_expiry
    self t0 resp :
  token_cache self !! client_id self = None ->
  resp_status resp = 200%Z ->
  exists self1,
    _get_oauth_token self t0 (Ok resp) = (Ok (resp_access_token resp), self1) /\
    client_id self1 = client_id self /\
    forall t post,
      (t - t0 < resp_expires_in resp - 300 ->
       _get_oauth_token self1 t post = (Ok (resp_access_token resp), self1)) /\
      (resp_expires_in resp - 300 <= t - t0 ->
       (forall e, post = Raise e ->
          _get_oauth_token self1 t post = (Raise e, self1)) /\
       (forall resp', post = Ok resp' -> resp_status resp' = 200%Z ->
          fst (_get_oauth_token self1 t post)
          = Ok (resp_access_token resp'))).
Proof.
  intros Hmiss H200. unfold _get_oauth_token at 1. rewrite Hmiss.
  rewrite bool_decide_eq_false_2 by (rewrite H200; intros H; by apply H).
  eexists. split; [reflexivity|]. split; [done|].
  intros t post. unfold _get_oauth_token. simpl.
  rewrite lookup_insert_eq. simpl. split.
  - intros Ht. destruct (Qlt_le_dec _ _) as [_|Hle]; [done|].
    exfalso. apply (Qlt_not_le _ _ Ht). Lqa.lra.
  - intros Ht. destruct (Qlt_le_dec _ _) as [Hlt|_].
    { exfalso. apply (Qlt_not_le _ _ Hlt). Lqa.lra. }
    split; [by intros e ->|]. intros resp' -> H200'.
    rewrite bool_decide_eq_false_2 by (rewrite H200'; intros H; by apply H).
    done.
Qed.

Lemma oauth_token_is_reused_until_five_minutes_before_expiry_witness :
  let self := {| client_id := "oracle"; token_cache := ∅ |} in
  let resp := {| resp_status := 200; resp_text := "";
                 resp_access_token := "token-1"; resp_expires_in := 3600 |} in
  exists self1,
    _get_oauth_token self 0 (Ok resp) = (Ok (resp_access_token resp), self1) /\
    client_id self1 = client_id self /\
    forall t post,
      (t - 0 < resp_expires_in resp - 300 ->
       _get_oauth_token self1 t post = (Ok (resp_access_token resp), self1)) /\
      (resp_expires_in resp - 300 <= t - 0 ->
       (forall e, post = Raise e ->
          _get_oauth_token self1 t post = (Raise e, self1)) /\
       (forall resp', post = Ok resp' -> resp_status resp' = 200%Z ->
          fst (_get_oauth_token self1 t post)
          = Ok (resp_access_token resp'))).
Proof.
  intros self resp.
  apply (oauth_token_is_reused_until_five_minutes_before_expiry self 0 resp).
  - apply lookup_empty.
  - reflexivity.
Defined.

End AuthFacts.

Section MonitorOfTheAdapters.
Import Adapter.
Variable validate : Payload -> bool.
Variable normalize : Payload -> Payload.

Lemma connect_metrics a env : metrics (snd (connect a env)) = metrics a.
Proof.
  unfold connect.
  destruct (connect_outcome env);
    by rewrite ?record_latency_id, ?record_error_id.
Qed.

Lemma ensure_connected_metrics a env :
  metrics (snd (ensure_connected a env)) = metrics a.
Proof.
  unfold ensure_connected. destruct (connected a); [done|].
  apply connect_metrics.
Qed.

Lemma request_validate_store_metrics a env :
  metrics (snd (request_validate_store validate normalize a env)) = metrics a.
Proof.
  unfold request_validate_store.
  destruct (request_outcome env) as [res|]; [|done].
  by destruct (validate res).
Qed.

Lemma connect_request_store_metrics a env :
  metrics (snd (connect_request_store a env)) = metrics a.
Proof.
  unfold connect_request_store.
  pose proof (ensure_connected_metrics a env) as H.
  destruct (ensure_connected a env) as [[[]|e] a1]; simpl in H; [|done].
  by destruct (request_outcome env).
Qed.

Lemma cached_or_metrics a env miss :
  (forall a0, metrics (snd (miss a0)) = metrics a0) ->
  metrics (snd (cached_or a env miss)) = metrics a.
Proof.
  intros Hmiss. unfold cached_or.
  destruct (get (adapter_cache a) (endpoint a) (t_get env)) as [cd c].
  destruct cd as [d|]; [destruct (truthy d)|]; try done;
    by rewrite Hmiss.
Qed.

Lemma fetch_data_impl_metrics a env :
  metrics (snd (_fetch_data_impl validate normalize a env)) = metrics a.
Proof.
  unfold _fetch_data_impl. destruct (kind a).
  - apply cached_or_metrics. intros a0. apply connect_request_store_metrics.
  - pose proof (ensure_connected_metrics a env) as H.
    destruct (ensure_connected a env) as [[[]|e] a1]; simpl in H; [|done].
    destruct (_latest_data a1) as [d|]; [destruct (truthy d)|]; done.
  - pose proof (ensure_connected_metrics a env) as H.
    destruct (ensure_connected a env) as [[[]|e] a1]; simpl in H; [|done].
    rewrite <- H. apply cached_or_metrics. intros a0.
    apply request_validate_store_metrics.
  - apply cached_or_metrics. intros a0. apply request_validate_store_metrics.
Qed.

(** X13.  The monitor of an adapter records nothing.  Whatever the
    adapter, the state of its cache and the answers of the outside, a
    connection or a fetch, successful or failed, leaves the samples of
    the monitor as they were: [_record_latency], [_record_error] and
    [_record_data_point] call the coroutine function [record_metric]
    without awaiting what it returns. *)
Theorem adapter_calls_record_no_sample a env :
  metrics (snd (connect a env)) = metrics a /\
  metrics (snd (fetch_data validate normalize a env)) = metrics a.
Proof.
  split; [apply connect_metrics|].
  unfold fetch_data.
  pose proof (fetch_data_impl_metrics a env) as H.
  destruct (_fetch_data_impl validate normalize a env) as [[d'|e] a1];
    simpl in H.
  - by rewrite record_latency_id, record_data_point_id.
  - by rewrite record_error_id.
Qed.

End MonitorOfTheAdapters.

(** ** The gas price and the monitoring round *)

Section GasAndMonitor.
Import Eth.

(** What runs [_get_optimal_gas_price]: a round of the background loop
    [_update_gas_price_loop], or a call of [_get_tx_params]. *)
Inductive Call :=
| GasRound (chain : Chain) (current_time : Q)
| PrepareTx (chain : Chain) (t_nonce t_gas : Q).

Definition call (self : EthereumService) (c : Call) : EthereumService :=
  match c with
  | GasRound chain current_time =>
      _update_gas_price_loop self chain current_time
  | PrepareTx chain t_nonce t_gas =>
      snd (_get_tx_params self chain t_nonce t_gas)
  end.

Lemma call_keeps_gas_price_cache self c :
  _gas_price_cache (call self c) = _gas_price_cache self.
Proof.
  destruct c as [chain t|chain t_nonce t_gas]; simpl.
  - unfold _update_gas_price_loop. by rewrite get_optimal_gas_price_frame.
  - unfold _get_tx_params. destruct (account self) as [address|]; [|done].
    pose proof (get_next_nonce_frame self chain address t_nonce)
      as (_ & _ & Hg & _).
    destruct (_get_next_nonce self chain address t_nonce) as [nonce self1].
    simpl in Hg.
    pose proof (get_optimal_gas_price_frame self1 chain t_gas) as Hf.
    destruct (_get_optimal_gas_price self1 chain t_gas) as [[p|e] self2];
      simpl in *; congruence.
Qed.

(** X14.  The gas price is never obtained.  Whatever rounds of the
    background loop and whatever calls of [_get_tx_params] a service has
    been through since [__init__], its price cache is empty, and asking
    for the price raises [TypeError] and leaves the service as it is:
    the refresh fails before it writes the cache, and nothing else
    writes it. *)
Theorem gas_price_is_never_obtained
    cfg acct nonce_age gas_interval timeout calls chain t :
  let self := fold_left call calls
                (init cfg acct nonce_age gas_interval timeout) in
  _gas_price_cache self = None /\
  exists e,
    _get_optimal_gas_price self chain t = (Raise e, self) /\
    exn_class e = TypeError.
Proof.
  intros self.
  assert (Hc : _gas_price_cache self = None).
  { unfold self.
    assert (H : forall l s, _gas_price_cache s = None ->
                  _gas_price_cache (fold_left call l s) = None).
    { induction l as [|c l IH]; intros s Hs; [done|].
      simpl. apply IH. by rewrite call_keeps_gas_price_cache. }
    by apply H. }
  split; [done|]. eexists. split; [by apply get_optimal_gas_price_empty|done].
Qed.

Variable impl :
  option (EthereumService -> TxParams -> result HexStr * EthereumService).

(** X15.  A tracked Pending transaction without a receipt whose body
    has no block number (it is not mined yet) ends the monitoring
    round: the subtraction from the current block raises, the handler
    of the round swallows it, and the entries after that transaction
    are left as they were, whatever the chain says about them. *)
Theorem unmined_transaction_stops_the_round
    self chain current_block pre tx_hash tx post :
  block_number chain = Ok current_block ->
  _pending_transactions self = pre ++ (tx_hash, PENDING) :: post ->
  get_transaction_receipt chain tx_hash = Ok None ->
  get_transaction chain tx_hash = Ok (Some tx) ->
  tx_blockNumber tx = None ->
  _monitor_pending_transactions impl self chain
  = snd (monitor_entries impl self chain current_block pre).
Proof.
  intros Hb Hp Hr Ht Hn. unfold _monitor_pending_transactions.
  rewrite Hb, Hp, monitor_entries_app.
  destruct (monitor_entries impl self chain current_block pre)
    as [[[]|e] self1]; [|done].
  simpl. unfold monitor_entry. rewrite decide_True by done.
  rewrite Hr, Ht, Hn. simpl. done.
Qed.

End GasAndMonitor.

(** The chain knows the transaction, which waits in the pool. *)
Definition pool_chain : Eth.Chain :=
  {| Eth.get_transaction_count := fun _ => 7;
     Eth.base_fee_per_gas := 10;
     Eth.generate_gas_price := 15;
     Eth.block_number := Ok 100;
     Eth.get_transaction_receipt := fun _ => Ok None;
     Eth.get_transaction := fun _ =>
       Ok (Some {| Eth.tx_from := "0xA1"; Eth.tx_to := "0xB2";
                   Eth.tx_value := 0; Eth.tx_input := "0x";
                   Eth.tx_nonce := 7; Eth.tx_gasPrice := 100;
                   Eth.tx_blockNumber := None |}) |}.

Lemma unmined_transaction_stops_the_round_witness :
  Eth._monitor_pending_transactions demo_sender (demo_tracking 200) pool_chain
  = snd (Eth.monitor_entries demo_sender (demo_tracking 200) pool_chain 100 []).
Proof.
  apply (unmined_transaction_stops_the_round demo_sender (demo_tracking 200)
           pool_chain 100 [] "0xaa"%string
           {| Eth.tx_from := "0xA1"; Eth.tx_to := "0xB2";
              Eth.tx_value := 0; Eth.tx_input := "0x";
              Eth.tx_nonce := 7; Eth.tx_gasPrice := 100;
              Eth.tx_blockNumber := None |} []).
  - reflexivity.
  - reflexivity.
  - reflexivity.
  - reflexivity.
  - reflexivity.
Defined.

(** ** Firings, retries and maintenance windows *)

Section SchedulerInvariants.
Import Scheduler.
Context {Signature : Type}.
Variable sign : Oracle.Aggregated -> Signature.

Lemma try_body_record task tick running :
  let e1 := snd (try_body sign task tick running) in
  status e1 = status running /\ retry_count e1 = retry_count running /\
  e_end_time e1 = e_end_time running.
Proof.
  unfold try_body. destruct (run_cycle sign task tick); [|done].
  by destruct (update_contracts _ _).
Qed.

Lemma execute_task_skips self tid tick :
  _tasks self !! tid = None \/
  _is_in_maintenance self tid (now tick) = true \/
  (exists task, _tasks self !! tid = Some task /\
     Z.of_nat (length (running_executions self tid)) >= max_concurrent task) ->
  _execute_task sign self tid tick = self.
Proof.
  unfold _execute_task. intros [H|[H|(task & Ht & H)]].
  - by rewrite H.
  - destruct (_tasks self !! tid); [|done]. by rewrite H.
  - rewrite Ht. destruct (_is_in_maintenance _ _ _); [done|].
    by rewrite bool_decide_eq_true_2.
Qed.


(** X17.  A firing that fails with a failure the task's policy lists is
    retried whenever [max_attempts >= 1], however many retries came
    before it: the record of a firing starts at [retry_count = 0], so
    the job that is added is always the retry number 1 and its delay is
    always [min(backoff_base, max_delay)].  The backoff does not grow
    and [max_attempts] is not reached. *)
Theorem failed_firing_is_retried_as_first_attempt self tid tick task e :
  _tasks self !! tid = Some task ->
  _is_in_maintenance self tid (now tick) = false ->
  Z.of_nat (length (running_executions self tid)) < max_concurrent task ->
  fst (try_body sign task tick (started self tid tick)) = Raise e ->
  1 <= max_attempts (retry_policy task) ->
  _classify_failure (str e) ∈ failure_types (retry_policy task) ->
  let self' := _execute_task sign self tid tick in
  exists execution job,
    dict_get (fresh_id tick) (_executions self') = Some execution /\
    status execution = RETRYING /\
    retry_count execution = 1 /\
    retry_jobs self' = retry_jobs self ++ [job] /\
    job_task job = task_id task /\
    job_retry job = 1 /\
    job_from job = now tick /\
    (job_delay job == Qmin (backoff_base (retry_policy task))
                        (max_delay (retry_policy task)))%Q.
Proof.
  intros Ht Hm Hc Hb Hmax Hin self'.
  pose proof (try_body_record task tick (started self tid tick))
    as (Hs & Hr & He).
  assert (Hretry : forall e1 : TaskExecution,
             retry_count e1 = 0 ->
             on_exception task e1 e (now tick)
             = (with_status
                  (with_retry_count
                     (finished e1 FAILED (Some (str e)) (now tick)
                        (performance_metrics e1)) 1) RETRYING,
                [ {| job_task := task_id task; job_retry := 1;
                     job_from := now tick;
                     job_delay :=
                       Qmin (backoff_base (retry_policy task)
                             * backoff_multiplier (retry_policy task) ^ 0)%Q
                            (max_delay (retry_policy task)) |} ])).
  { intros e1 H0. unfold on_exception, _should_retry, _schedule_retry. simpl.
    rewrite H0. rewrite bool_decide_eq_false_2 by lia.
    rewrite bool_decide_eq_true_2 by done. reflexivity. }
  unfold self'.
  rewrite (execute_task_runs sign self tid tick task Ht Hm Hc).
  unfold _execute_task. rewrite Ht, Hm.
  rewrite bool_decide_eq_false_2 by lia.
  change (with_status _ RUNNING) with (started self tid tick).
  destruct (try_body sign task tick (started self tid tick)) as [[r|e'] e1];
    simpl in Hb; [done|]. injection Hb as ->. simpl in Hr.
  rewrite (Hretry e1 Hr). simpl.
  eexists _, _. split; [reflexivity|]. simpl.
  split; [done|]. split; [done|]. split; [reflexivity|]. simpl.
  split; [done|]. split; [done|]. split; [done|].
  assert (E : (backoff_base (retry_policy task)
               * backoff_multiplier (retry_policy task) ^ 0
               == backoff_base (retry_policy task))%Q) by (simpl; ring).
  by rewrite E.
Qed.

(** X18.  Once [create_maintenance_window] has run, whatever became of
    the write of the window to the store, a firing at a time from the
    start to the end of the window, both included, leaves the scheduler
    as it is, for every task when no tasks were named and for the named
    tasks otherwise. *)
Theorem maintenance_window_skips_firing
    self starts ends text affected fresh save tid tick :
  starts <= now tick <= ends ->
  (affected = None \/ affected = Some [] \/
   exists tasks, affected = Some tasks /\ tid ∈ tasks) ->
  let self1 :=
    snd (Maintenance.create_maintenance_window self starts ends text affected
           fresh save) in
  _execute_task sign self1 tid tick = self1.
Proof.
  intros Hnow Haff self1. apply execute_task_skips. right. left.
  unfold _is_in_maintenance. apply existsb_exists.
  set (window := {| window_id := fresh; start_time := starts; end_time := ends;
                    description := text;
                    affected_tasks := default [] affected |}).
  exists window. split.
  - apply list_elem_of_In. unfold dict_values.
    apply list_elem_of_fmap. exists (fresh, window). split; [done|].
    assert (Hset : forall d : list (UUID * MaintenanceWindow),
               (fresh, window) ∈ dict_set fresh window d).
    { induction d as [|[k v] d IH]; simpl; [by left|].
      destruct (decide (fresh = k)); [by left|by right]. }
    unfold self1, Maintenance.create_maintenance_window.
    destruct save; simpl; apply Hset.
  - simpl. rewrite !bool_decide_eq_true_2 by lia. simpl.
    destruct Haff as [->|[->|(tasks & -> & Hin)]]; simpl.
    + done.
    + done.
    + rewrite (bool_decide_eq_true_2 (tid ∈ tasks)) by done.
      by rewrite orb_true_r.
Qed.

Lemma prefix_append (n b : string) : String.prefix n (n +:+ b) = true.
Proof.
  induction n as [|c n IH]; simpl; [by destruct b|].
  destruct (Ascii.ascii_dec c c); [done|congruence].
Qed.

Lemma contains_prefix (n hay : string) :
  String.prefix n hay = true -> contains n hay = true.
Proof. intros H. destruct hay; cbn [contains]; by rewrite H. Qed.

(** [needle in hay] holds of a string that has the needle inside. *)
Lemma contains_infix (n a b : string) : contains n (a +:+ n +:+ b) = true.
Proof.
  induction a as [|c a IH].
  - change ("" +:+ n +:+ b) with (n +:+ b).
    apply contains_prefix, prefix_append.
  - change (String c a +:+ n +:+ b) with (String c (a +:+ n +:+ b)).
    cbn [contains]. rewrite IH. apply orb_true_r.
Qed.

(** X19.  An error whose message has "network" or "connection" in it,
    in whatever letter case and whatever else it says, is classified as
    a NetworkError, and under the default policy of every priority the
    failed firing is retried. *)
Theorem connection_failures_are_retried_at_every_priority
    task execution e now a b :
  retry_policy task = _retry_policies (priority task) ->
  retry_count execution = 0 ->
  lower (str e) = a +:+ "network" +:+ b \/
  lower (str e) = a +:+ "connection" +:+ b ->
  _classify_failure (str e) = NETWORK_ERROR /\
  status (fst (on_exception task execution e now)) = RETRYING /\
  length (snd (on_exception task execution e now)) = 1%nat.
Proof.
  intros Hdef H0 Hmsg.
  assert (Hcl : _classify_failure (str e) = NETWORK_ERROR).
  { unfold _classify_failure.
    destruct Hmsg as [-> | ->]; rewrite contains_infix; [done|].
    by rewrite orb_true_r. }
  split; [done|].
  unfold on_exception. rewrite Hcl.
  assert (Hr : _should_retry task
                 (finished execution FAILED (Some (str e)) now
                    (performance_metrics execution)) NETWORK_ERROR = true).
  { unfold _should_retry. rewrite Hdef. simpl. rewrite H0.
    destruct (priority task); simpl; repeat case_bool_decide;
      try done; try lia; exfalso; set_solver. }
  rewrite Hr. done.
Qed.

(** A source that answers with the value [v], and whose answer the
    rules of the task accept. *)
Definition answers (task : TaskDefinition) (v : R) (s : Oracle.Source) : Prop :=
  exists d,
    Oracle.fetched s = Ok d /\
    Oracle.d_value d = Some v /\
    Oracle.validate (validation_rules task) d
      (default "numeric"%string (Oracle.d_type d)) = true.

Lemma agreeing_cycle_raises task tick sources v :
  adapters tick = Ok sources ->
  (2 <= length sources)%nat ->
  Forall (answers task v) sources ->
  run_cycle sign task tick
  = Raise (mkExn ZeroDivisionError "float division by zero").
Proof.
  intros Ha H2 Hall. unfold run_cycle. rewrite Ha. cbn [mbind result_bind].
  unfold Oracle._update_cycle.
  set (valid := Oracle._validate_data _ _).
  assert (Hvalid : length valid = length sources /\
                   Forall (fun sd => Oracle.d_value (snd sd) = Some v) valid).
  { unfold valid. clear valid Ha H2.
    induction Hall as [|s sources (d & Hf & Hv & Hok) _ IH]; [done|].
    unfold Oracle._fetch_all_sources. simpl. rewrite Hf. simpl.
    rewrite Hok. simpl. destruct IH as [IH1 IH2].
    split; [by f_equal|]. by constructor. }
  destruct Hvalid as [Hl Hv].
  destruct valid as [|sd valid'] eqn:Ev; [simpl in Hl; lia|]. rewrite <- Ev in *.
  rewrite (aggregate_constant_raises 2 _ _ v).
  - done.
  - by rewrite !length_map.
  - rewrite length_map. lia.
  - apply Forall_map. eapply Forall_impl; [exact Hv|].
    intros sd' H. simpl. by rewrite H.
Qed.

(** X20.  A task with two or more sources of the [DataSource]
    interface (objects with [fetch_data] and [get_reputation_score], as
    an adapter class registered with the factory can be) that all
    answer with one and the same accepted value does not complete: the
    aggregation of the cycle divides by the zero deviation and the
    record of the firing carries the error "float division by zero".
    The failure is classified Unknown and the record starts at
    [retry_count = 0]: the firing ends Retrying when the policy of the
    task lists that class and allows at least one attempt, and Failed
    otherwise (the defaults of High, Medium and Low). *)
Theorem agreeing_sources_fail_the_task self tid tick task sources v :
  _tasks self !! tid = Some task ->
  _is_in_maintenance self tid (now tick) = false ->
  Z.of_nat (length (running_executions self tid)) < max_concurrent task ->
  adapters tick = Ok sources ->
  (2 <= length sources)%nat ->
  Forall (answers task v) sources ->
  exists execution,
    dict_get (fresh_id tick)
      (_executions (_execute_task sign self tid tick)) = Some execution /\
    error execution = Some "float division by zero"%string /\
    status execution =
      if bool_decide (1 <= max_attempts (retry_policy task)) &&
         bool_decide (UNKNOWN_ERROR ∈ failure_types (retry_policy task))
      then RETRYING else FAILED.
Proof.
  intros Ht Hm Hc Ha H2 Hall.
  rewrite (execute_task_runs sign self tid tick task Ht Hm Hc).
  eexists. split; [reflexivity|].
  unfold try_body. rewrite (agreeing_cycle_raises task tick sources v) by done.
  unfold on_exception.
  change (_classify_failure _) with UNKNOWN_ERROR.
  unfold _should_retry. simpl.
  destruct (decide (1 <= max_attempts (retry_policy task))) as [H1|H1].
  - rewrite (bool_decide_eq_false_2 (0 >= _)) by lia.
    rewrite (bool_decide_eq_true_2 (1 <= _)) by done. simpl.
    by case_bool_decide.
  - rewrite (bool_decide_eq_true_2 (0 >= _)) by lia.
    rewrite (bool_decide_eq_false_2 (1 <= _)) by done. done.
Qed.

End SchedulerInvariants.

(** The factory cannot build the adapter of the task. *)
Definition failing_tick : Scheduler.Tick :=
  {| Scheduler.now := 1000; Scheduler.fresh_id := 7%N;
     Scheduler.adapters := Raise (mkExn ValueError "Unknown adapter type: ftp");
     Scheduler.elapsed := 1%Q;
     Scheduler.get_contract := Scheduler.ContractManager_get_contract |}.

Lemma failed_firing_is_retried_as_first_attempt_witness :
  let self' :=
    Scheduler._execute_task no_signature (demo_scheduler Scheduler.CRITICAL)
      1%N failing_tick in
  exists execution job,
    dict_get 7%N (Scheduler._executions self') = Some execution /\
    Scheduler.status execution = Scheduler.RETRYING /\
    Scheduler.retry_count execution = 1 /\
    Scheduler.retry_jobs self'
    = Scheduler.retry_jobs (demo_scheduler Scheduler.CRITICAL) ++ [job] /\
    Scheduler.job_task job = Scheduler.task_id (demo_task Scheduler.CRITICAL) /\
    Scheduler.job_retry job = 1 /\
    Scheduler.job_from job = 1000 /\
    (Scheduler.job_delay job
     == Qmin (Scheduler.backoff_base
                (Scheduler.retry_policy (demo_task Scheduler.CRITICAL)))
             (Scheduler.max_delay
                (Scheduler.retry_policy (demo_task Scheduler.CRITICAL))))%Q.
Proof.
  apply (failed_firing_is_retried_as_first_attempt no_signature
           (demo_scheduler Scheduler.CRITICAL) 1%N failing_tick
           (demo_task Scheduler.CRITICAL)
           (mkExn ValueError "Unknown adapter type: ftp")).
  - apply lookup_singleton_eq.
  - reflexivity.
  - simpl. lia.
  - reflexivity.
  - simpl. lia.
  - vm_compute. repeat constructor.
Defined.

Lemma maintenance_window_skips_firing_witness :
  let self1 :=
    snd (Maintenance.create_maintenance_window
           (demo_scheduler Scheduler.MEDIUM) 0 2000 "upgrade" None 9%N
           (Raise (mkExn TypeError
                     "Object of type UUID is not JSON serializable"))) in
  Scheduler._execute_task no_signature self1 1%N demo_tick = self1.
Proof.
  apply (maintenance_window_skips_firing no_signature
           (demo_scheduler Scheduler.MEDIUM) 0 2000 "upgrade" None 9%N
           (Raise (mkExn TypeError
                     "Object of type UUID is not JSON serializable"))
           1%N demo_tick).
  - simpl. lia.
  - left. reflexivity.
Defined.

Lemma connection_failures_are_retried_at_every_priority_witness :
  let e := mkExn Exception_ "Connection refused" in
  Scheduler._classify_failure (str e) = Scheduler.NETWORK_ERROR /\
  Scheduler.status
    (fst (Scheduler.on_exception (demo_task Scheduler.LOW) demo_execution e
            1000))
  = Scheduler.RETRYING /\
  length (snd (Scheduler.on_exception (demo_task Scheduler.LOW)
                 demo_execution e 1000)) = 1%nat.
Proof.
  intros e.
  apply (connection_failures_are_retried_at_every_priority
           (demo_task Scheduler.LOW) demo_execution e 1000 "" " refused").
  - reflexivity.
  - reflexivity.
  - right. reflexivity.
Defined.

(** Two sources that both report 100. *)
Definition agreeing_tick : Scheduler.Tick :=
  {| Scheduler.now := 1000; Scheduler.fresh_id := 7%N;
     Scheduler.adapters :=
       Ok [ {| Oracle.fetched := Ok (pt 100); Oracle.reputation_score := 1%R |};
            {| Oracle.fetched := Ok (pt 100); Oracle.reputation_score := 1%R |} ];
     Scheduler.elapsed := 1%Q;
     Scheduler.get_contract := Scheduler.ContractManager_get_contract |}.

Section AgreeingSources.
Import Scheduler.

Lemma agreeing_sources_fail_the_task_witness :
  exists execution,
    dict_get 7%N
      (_executions
         (_execute_task no_signature (demo_scheduler MEDIUM) 1%N agreeing_tick))
    = Some execution /\
    error execution = Some "float division by zero"%string /\
    status execution =
      if bool_decide (1 <= max_attempts (retry_policy (demo_task MEDIUM))) &&
         bool_decide
           (UNKNOWN_ERROR ∈ failure_types (retry_policy (demo_task MEDIUM)))
      then RETRYING else FAILED.
Proof.
  apply (agreeing_sources_fail_the_task no_signature
           (demo_scheduler MEDIUM) 1%N agreeing_tick (demo_task MEDIUM)
           [ {| Oracle.fetched := Ok (pt 100); Oracle.reputation_score := 1%R |};
             {| Oracle.fetched := Ok (pt 100); Oracle.reputation_score := 1%R |} ]
           100%R).
  - apply lookup_singleton_eq.
  - reflexivity.
  - simpl. lia.
  - reflexivity.
  - simpl. lia.
  - assert (H : answers (demo_task MEDIUM) 100%R
                  {| Oracle.fetched := Ok (pt 100);
                     Oracle.reputation_score := 1%R |}).
    { exists (pt 100). split; [reflexivity|]. split; [reflexivity|].
      unfold Oracle.validate. simpl. rewrite lookup_singleton_eq. reflexivity. }
    repeat constructor; exact H.
Defined.

End AgreeingSources.

(** ** The stages of the validation pipeline *)

Section SourceStage.
Import Validation ValidationConfig.
Local Open Scope R_scope.
Variable verify : RSAPublicKey -> bytes -> string -> R -> Z -> result unit.

Lemma cond_abs_le_raises x t ctx : exists e, cond_abs_le x t ctx = Raise e.
Proof.
  unfold cond_abs_le. destruct (lookup_name ctx "abs") as [v|e]; simpl; eauto.
Qed.

(** For a source of type "price" or "rate" the default rules of the
    first stage are the range check and the outlier rule. *)
Lemma applicable_price_rules source_type :
  source_type = "price"%string \/ source_type = "rate"%string ->
  List.filter (fun rule => applies rule source_type) (dict_values default_rules)
  = match default_rules with
    | (_, r1) :: (_, r2) :: _ => [r1; r2]
    | _ => []
    end.
Proof. intros [-> | ->]; vm_compute; reflexivity. Qed.

Lemma source_stage_rejects_price source_type self sid v ts md now fs :
  source_type = "price"%string \/ source_type = "rate"%string ->
  _rules self = default_rules ->
  fst (_validate_source self sid source_type v ts md now fs) = false.
Proof.
  intros Hst Hr. unfold _validate_source. rewrite Hr.
  rewrite applicable_price_rules by done. simpl.
  destruct (cond_between _ _ _ _) as [[]|e1];
    destruct (cond_abs_le_raises "zscore" "threshold"
                (build_context v ts md [("threshold"%string, CNum 3)]))
      as [e2 ->]; done.
Qed.

(** X21.  Under the default rules a point of a source of type "price"
    or "rate" is not accepted, whatever its value and signature, when
    its metadata binds numbers and datetimes only, as the metadata of
    this development do: the condition of the rule
    [statistical_outlier] calls [abs], which the evaluation without
    builtins does not know and which such metadata cannot supply as a
    function, and the error makes the first stage fail.  The statistics
    of the sources stay as they are.  (Metadata that bind a callable to
    [abs] are outside this statement.) *)
Theorem price_and_rate_points_need_a_callable_abs
    self sid source_type v ts (md : list (string * CVal)) sg now :
  source_type = "price"%string \/ source_type = "rate"%string ->
  _rules self = default_rules ->
  let r := validate_data_point verify self sid source_type v ts md sg now in
  (exists fs, fst r = Ok (false, fs)) /\
  _source_stats (snd r) = _source_stats self.
Proof.
  intros Hst Hr r. unfold r, validate_data_point, stages.
  pose proof (source_stage_rejects_price source_type
                (record_point self sid v ts now) sid v ts md now [] Hst Hr) as H.
  destruct (_validate_source _ _ _ _ _ _ _ _) as [ok fs]. simpl in H. subst ok.
  simpl. eauto.
Qed.

Lemma build_context_value v v' ts md ps :
  build_context v ts (("value"%string, CNum v') :: md) ps
  = build_context v' ts md ps.
Proof. reflexivity. Qed.

(** X22.  A key "value" in the metadata of a point takes the place of
    the point's value in the first stage: the rules are evaluated on
    the number the metadata carries, not on the value under
    validation. *)
Theorem metadata_value_replaces_checked_value
    self sid source_type v v' ts md now fs :
  _validate_source self sid source_type v ts
    (("value"%string, CNum v') :: md) now fs
  = _validate_source self sid source_type v' ts md now fs.
Proof.
  unfold _validate_source.
  assert (H : forall rules ok,
             source_rules rules sid v ts (("value"%string, CNum v') :: md)
               now ok fs
             = source_rules rules sid v' ts md now ok fs); [|apply H].
  intros rules. revert fs.
  induction rules as [|rule rules IH]; intros fs ok; [done|].
  cbn [source_rules]. rewrite build_context_value.
  destruct (condition rule _) as [[]|e]; apply IH.
Qed.

Lemma applies_set_enabled flag rule source_type :
  applies (set_enabled flag rule) source_type = applies rule source_type.
Proof. reflexivity. Qed.

Lemma source_rules_set_enabled (f : ValidationRule -> bool) rules
    sid v ts md now ok fs :
  source_rules (map (fun r => set_enabled (f r) r) rules) sid v ts md now ok fs
  = source_rules rules sid v ts md now ok fs.
Proof.
  revert ok fs. induction rules as [|rule rules IH]; intros ok fs; [done|].
  cbn [map source_rules]. simpl.
  destruct (condition rule _) as [[]|e]; apply IH.
Qed.

(** X23.  The field [enabled] of a rule is not consulted: whatever
    flags the rules of the service are given, the first stage answers
    as before, so that a rule that was switched off still rejects. *)
Theorem enabled_flag_is_not_consulted
    (f : ValidationRule -> bool) self sid source_type v ts md now fs :
  _validate_source
    (with_rules self
       (map (fun kr => (fst kr, set_enabled (f (snd kr)) (snd kr)))
          (_rules self)))
    sid source_type v ts md now fs
  = _validate_source self sid source_type v ts md now fs.
Proof.
  unfold _validate_source. simpl.
  assert (E : List.filter (fun rule => applies rule source_type)
                (dict_values
                   (map (fun kr => (fst kr, set_enabled (f (snd kr)) (snd kr)))
                      (_rules self)))
              = map (fun r => set_enabled (f r) r)
                  (List.filter (fun rule => applies rule source_type)
                     (dict_values (_rules self)))).
  { unfold dict_values.
    induction (_rules self) as [|[k r] rules IH]; [done|].
    simpl. rewrite applies_set_enabled.
    destruct (applies r source_type); simpl; by rewrite IH. }
  rewrite E. apply source_rules_set_enabled.
Qed.

Lemma between_updated v ts lo hi :
  cond_between "min_value" "value" "max_value"
    (build_context v ts []
       [("min_value"%string, CNum lo); ("max_value"%string, CNum hi)])
  = Ok (bool_decide (lo <= v <= hi)).
Proof.
  unfold cond_between, build_context. simpl.
  repeat case_bool_decide; simpl; try done; try lra.
  all: try (f_equal; symmetry; apply bool_decide_eq_true_2; lra).
  all: try (f_equal; symmetry; apply bool_decide_eq_false_2; lra).
Qed.

(** X24.  After [update_rule_parameters] has set the bounds of the
    default range check to [lo] and [hi], the first stage accepts a
    point of a source of another type than "price" and "rate", sent
    without metadata, exactly when [lo <= value <= hi], and reports the
    Critical finding of the rule otherwise. *)
Theorem range_check_follows_updated_parameters
    self sid source_type v ts now lo hi :
  _rules self = default_rules ->
  source_type <> "price"%string -> source_type <> "rate"%string ->
  _validate_source
    (update_rule_parameters self 1%N
       [("min_value"%string, CNum lo); ("max_value"%string, CNum hi)])
    sid source_type v ts [] now []
  = if bool_decide (lo <= v <= hi) then (true, [])
    else (false, [range_finding sid now]).
Proof.
  intros Hr Hp Hrate. unfold update_rule_parameters. rewrite Hr.
  unfold _validate_source. simpl.
  assert (Hst : bool_decide (source_type ∈ ({[ "price"; "rate" ]} : gset string))
                = false).
  { apply bool_decide_eq_false_2. intros Hst.
    apply elem_of_union in Hst as [Hst|Hst]; apply elem_of_singleton in Hst;
      done. }
  unfold applies at 1. simpl.
  replace (bool_decide (({[ "all"%string ]} : gset string) = {[ "all"%string ]}))
    with true by (symmetry; by apply bool_decide_eq_true_2).
  simpl.
  unfold applies at 1. simpl. rewrite Hst.
  replace (bool_decide (({[ "price"%string; "rate"%string ]} : gset string)
                        = {[ "all"%string ]}))
    with false by (vm_compute; reflexivity).
  simpl.
  rewrite between_updated.
  destruct (bool_decide (lo <= v <= hi)); reflexivity.
Qed.

Lemma source_rules_app rules1 rules2 sid v ts md now ok fs :
  source_rules (rules1 ++ rules2) sid v ts md now ok fs
  = source_rules rules2 sid v ts md now
      (fst (source_rules rules1 sid v ts md now ok fs))
      (snd (source_rules rules1 sid v ts md now ok fs)).
Proof.
  revert ok fs. induction rules1 as [|rule rules1 IH]; intros ok fs; [done|].
  cbn [app source_rules].
  destruct (condition rule _) as [[]|e]; apply IH.
Qed.

Lemma dict_values_set_new {K V : Type} `{EqDecision K} (k : K) (v : V) d :
  dict_get k d = None -> dict_values (dict_set k v d) = dict_values d ++ [v].
Proof.
  unfold dict_values. induction d as [|[k' v'] d IH]; simpl; [done|].
  destruct (decide (k = k')); [done|]. intros H. simpl. by rewrite IH.
Qed.

(** X25.  A rule of the first stage that [add_validation_rule] adds
    under a new identifier is evaluated after the rules the service had:
    the stage answers what the new rule makes of the answer of the old
    rules. *)
Theorem added_rule_runs_after_the_existing_ones
    self rule sid source_type v ts md now fs :
  dict_get (rule_id rule) (_rules self) = None ->
  applies rule source_type = true ->
  _validate_source (add_validation_rule self rule) sid source_type v ts md
    now fs
  = source_rules [rule] sid v ts md now
      (fst (_validate_source self sid source_type v ts md now fs))
      (snd (_validate_source self sid source_type v ts md now fs)).
Proof.
  intros Hnew Happ. unfold _validate_source, add_validation_rule. simpl.
  rewrite dict_values_set_new by done.
  rewrite List.filter_app. simpl. rewrite Happ.
  apply source_rules_app.
Qed.

End SourceStage.

Lemma price_and_rate_points_need_a_callable_abs_witness :
  let r := Validation.validate_data_point no_keys Validation.init
             "s1" "price" 100 1000
             [("zscore"%string, Validation.CNum 1);
              ("abs"%string, Validation.CNum 0)] None 1000 in
  (exists fs, fst r = Ok (false, fs)) /\
  Validation._source_stats (snd r)
  = Validation._source_stats Validation.init.
Proof.
  apply (price_and_rate_points_need_a_callable_abs no_keys Validation.init
           "s1" "price" 100 1000
           [("zscore"%string, Validation.CNum 1);
            ("abs"%string, Validation.CNum 0)] None 1000).
  - left. reflexivity.
  - reflexivity.
Defined.

Lemma range_check_follows_updated_parameters_witness :
  Validation._validate_source
    (ValidationConfig.update_rule_parameters Validation.init 1%N
       [("min_value"%string, Validation.CNum 10);
        ("max_value"%string, Validation.CNum 20)])
    "s1" "sensor" 15 1000 [] 1000 []
  = if bool_decide (10 <= 15 <= 20)%R then (true, [])
    else (false, [range_finding "s1" 1000]).
Proof.
  apply (range_check_follows_updated_parameters Validation.init "s1" "sensor"
           15 1000 1000 10 20).
  - reflexivity.
  - discriminate.
  - discriminate.
Defined.

(** A Low rule of the first stage for every source: the value is at
    most the parameter [limit]. *)
Definition limit_rule : Validation.ValidationRule :=
  {| Validation.rule_id := 6%N; Validation.name := "limit";
     Validation.description := "Value within the limit";
     Validation.stage := Validation.SOURCE;
     Validation.severity := Validation.LOW;
     Validation.source_types := {[ "all"%string ]};
     Validation.condition := Validation.cond_le "value" "limit";
     Validation.parameters := [("limit"%string, Validation.CNum 1000)];
     Validation.enabled := true |}.

Lemma added_rule_runs_after_the_existing_ones_witness :
  Validation._validate_source
    (ValidationConfig.add_validation_rule Validation.init limit_rule)
    "s1" "sensor" 100 1000 [] 1000 []
  = Validation.source_rules [limit_rule] "s1" 100 1000 [] 1000
      (fst (Validation._validate_source Validation.init "s1" "sensor" 100 1000
              [] 1000 []))
      (snd (Validation._validate_source Validation.init "s1" "sensor" 100 1000
              [] 1000 [])).
Proof.
  apply (added_rule_runs_after_the_existing_ones Validation.init limit_rule
           "s1" "sensor" 100 1000 [] 1000 []).
  - reflexivity.
  - vm_compute. reflexivity.
Defined.

Section LaterStages.
Import Validation ValidationConfig.
Local Open Scope R_scope.

(** No z-score against the population deviation of [n] values exceeds
    the square root of [n - 1]. *)
Lemma population_zscore_bound l x :
  x ∈ l ->
  (length l <= 10)%nat ->
  0 < Py.np_std l ->
  Rabs ((x - Py.np_mean l) / Py.np_std l) <= 3.
Proof.
  intros Hx Hlen Hstd.
  pose proof (samuelson l x Hx) as Hsam. cbv zeta in Hsam.
  unfold Py.np_std in *. unfold Py.np_mean in *. rewrite length_map in *.
  set (m := Py.sum l / INR (length l)) in *.
  pose proof (sum_squares_nonneg (fun y => y - m) l) as HS.
  set (S := Py.sum (map (fun y => (y - m) * (y - m)) l)) in *.
  assert (Hn1 : 1 <= INR (length l)).
  { apply (le_INR 1). destruct l; [by apply elem_of_nil in Hx|simpl; lia]. }
  assert (Hn10 : INR (length l) <= 10).
  { pose proof (le_INR _ 10 Hlen) as H. simpl in H. lra. }
  set (n := INR (length l)) in *.
  assert (HV : 0 <= S / n).
  { apply Rmult_le_pos; [done|]. apply Rlt_le, Rinv_0_lt_compat. lra. }
  set (s := sqrt (S / n)) in *.
  assert (Hss : s * s = S / n) by (by apply sqrt_sqrt).
  assert (HSn : S = n * (s * s)) by (rewrite Hss; field; lra).
  unfold Rdiv. rewrite Rabs_mult, Rabs_inv, (Rabs_right s) by lra.
  apply (Rmult_le_reg_r s); [done|].
  rewrite Rmult_assoc, Rinv_l by lra. rewrite Rmult_1_r.
  destruct (Rle_dec (Rabs (x - m)) (3 * s)) as [|Hgt]; [done|].
  exfalso. apply Rnot_le_lt in Hgt.
  assert (Habs : Rabs (x - m) * Rabs (x - m) = (x - m) * (x - m)).
  { rewrite <- Rabs_mult. apply Rabs_right. apply Rle_ge.
    pose proof (Rle_0_sqr (x - m)) as H0. by unfold Rsqr in H0. }
  assert (H9 : 9 * (s * s) < (x - m) * (x - m)).
  { rewrite <- Habs. nra. }
  clearbody n S m s. subst S.
  assert (n * ((x - m) * (x - m)) <= (n - 1) * n * (s * s)) by lra.
  assert (0 < s * s) by nra.
  assert ((n - 1) * n * (s * s) <= 9 * n * (s * s)) by nra.
  nra.
Qed.

(** X26.  The cross-source stage turns no point down while fewer than
    nine other sources have statistics: among at most nine numbers no
    z-score against their own mean and population deviation exceeds 3,
    however far the value lies from the means of the others. *)
Theorem cross_source_stage_passes_below_nine_peers
    self sid source_type v now fs :
  (length (List.filter (fun kv => negb (bool_decide (fst kv = sid)))
             (_source_stats self)) <= 8)%nat ->
  _validate_cross_source self sid source_type v now fs = (true, fs).
Proof.
  intros Hlen. unfold _validate_cross_source.
  case_bool_decide; [done|].
  set (others := List.filter _ _) in *.
  set (all_values := map _ others ++ [v]).
  case_bool_decide as Hstd; [|done].
  rewrite bool_decide_eq_false_2; [done|].
  apply Rle_not_gt, population_zscore_bound.
  - unfold all_values. apply elem_of_app. right. by left.
  - unfold all_values. rewrite length_app, length_map. simpl. lia.
  - lra.
Qed.

(** The statistics of a source whose values have the mean [m]. *)
Definition peer_stats (m : R) : SourceStats :=
  {| mean := m; std_dev := 1; min_value := m - 1; max_value := m + 1;
     last_update := 0; update_frequency := 60; confidence_score := 1 |}.

(** Three sources with the means 100, 101 and 99, and older statistics
    of the source s1 itself. *)
Definition three_peers : ValidationService :=
  with_stats init
    [("a"%string, peer_stats 100); ("s1"%string, peer_stats 100);
     ("b"%string, peer_stats 101); ("c"%string, peer_stats 99)].

Lemma cross_source_stage_passes_below_nine_peers_witness :
  _validate_cross_source three_peers "s1" "sensor" 5000 1000 [] = (true, []).
Proof.
  apply (cross_source_stage_passes_below_nine_peers three_peers "s1" "sensor"
           5000 1000 []).
  vm_compute. lia.
Defined.

(** The same call is past the early return of the stage: there are
    statistics of four sources, and the deviation of the four numbers
    100, 101, 99 and 5000 is not zero. *)
Example three_peers_reach_the_zscore :
  bool_decide (length (_source_stats three_peers) < 2)%nat = false /\
  0 < Py.np_std [100; 101; 99; 5000].
Proof.
  split; [done|]. unfold Py.np_std, Py.np_mean. simpl.
  apply sqrt_lt_R0. lra.
Qed.

(** X27.  When the series of the source is long enough for the
    temporal stage and the entry before the newest one has the value 0,
    the stage raises [ZeroDivisionError] for every point with a later
    timestamp: the rate of change is divided by that value. *)
Theorem temporal_stage_divides_by_previous_value
    self sid source_type v ts now fs h t0 newest :
  _historical_data self !! sid = Some (h ++ [(t0, 0); newest]) ->
  (min_history_points self <= Z.of_nat (length h) + 2)%Z ->
  (t0 < ts)%Z ->
  _validate_temporal self sid source_type v ts now fs
  = Raise (mkExn ZeroDivisionError "float division by zero").
Proof.
  intros Hh Hmin Hts. unfold _validate_temporal. rewrite Hh.
  assert (Hl : length (h ++ [(t0, 0); newest]) = (length h + 2)%nat).
  { rewrite length_app. simpl. lia. }
  rewrite bool_decide_eq_false_2 by (rewrite Hl; lia).
  unfold rapid_change. rewrite Hl.
  replace (length h + 2 - 2)%nat with (length h + 0)%nat by lia.
  rewrite lookup_app_r by lia.
  replace (length h + 0 - length h)%nat with 0%nat by lia. simpl.
  rewrite bool_decide_eq_true_2 by lia.
  rewrite bool_decide_eq_true_2.
  - unfold Py.div. rewrite decide_True by lra. done.
  - unfold total_seconds. apply Rlt_gt, Rdiv_lt_0_compat; [|lra].
    apply IZR_lt. lia.
Qed.

(** Nine entries of a series end with a zero; the tenth is the point
    under validation. *)
Definition zero_series : list (Z * R) := replicate 8 (0%Z, 1).

Definition zero_service : ValidationService :=
  with_history init
    {[ "s1"%string := zero_series ++ [(60000000%Z, 0); (120000000%Z, 5)] ]}.

Lemma temporal_stage_divides_by_previous_value_witness :
  _validate_temporal zero_service "s1" "sensor" 5 120000000 120000000 []
  = Raise (mkExn ZeroDivisionError "float division by zero").
Proof.
  apply (temporal_stage_divides_by_previous_value zero_service "s1" "sensor"
           5 120000000 120000000 [] zero_series 60000000 (120000000%Z, 5)).
  - apply lookup_singleton_eq.
  - simpl. lia.
  - lia.
Defined.

(** X28.  A point that comes without a signature, or with an empty
    one, is not checked against the key of its source: the call
    answers the same whether or not a key is registered for the source
    and whatever the verification would say. *)
Theorem unsigned_points_skip_the_signature_check
    verify1 verify2 self sid key source_type v ts md now :
  fst (validate_data_point verify1 (register_source_key self sid key)
         sid source_type v ts md None now)
  = fst (validate_data_point verify2 self sid source_type v ts md None now) /\
  fst (validate_data_point verify1 (register_source_key self sid key)
         sid source_type v ts md (Some []) now)
  = fst (validate_data_point verify2 self sid source_type v ts md (Some []) now).
Proof.
  assert (H : forall sg, sg = None \/ sg = Some [] ->
    fst (validate_data_point verify1 (register_source_key self sid key)
           sid source_type v ts md sg now)
    = fst (validate_data_point verify2 self sid source_type v ts md sg now)).
  { intros sg Hsg.
    set (a := record_point (register_source_key self sid key) sid v ts now).
    set (b := record_point self sid v ts now).
    assert (E1 : forall fs, _validate_source a sid source_type v ts md now fs
                       = _validate_source b sid source_type v ts md now fs)
      by reflexivity.
    assert (E2 : forall fs, _validate_cross_source a sid source_type v now fs
                       = _validate_cross_source b sid source_type v now fs)
      by reflexivity.
    assert (E3 : forall fs, _validate_temporal a sid source_type v ts now fs
                       = _validate_temporal b sid source_type v ts now fs)
      by reflexivity.
    assert (E4 : forall fs, _validate_consensus a sid source_type v now fs
                       = _validate_consensus b sid source_type v now fs)
      by reflexivity.
    assert (E5 : match _update_source_stats a sid v ts with
                 | Ok _ => true | Raise _ => false end
                 = match _update_source_stats b sid v ts with
                   | Ok _ => true | Raise _ => false end
                 /\ forall e, _update_source_stats a sid v ts = Raise e ->
                              _update_source_stats b sid v ts = Raise e).
    { unfold _update_source_stats.
      change (_historical_data a) with (_historical_data b).
      change (min_history_points a) with (min_history_points b).
      destruct (_historical_data b !! sid) as [history|]; [|done].
      case_bool_decide; [|done].
      destruct (Py.min _); [|done]. destruct (Py.max _); done. }
    unfold validate_data_point. fold a b. unfold stages.
    rewrite E1. destruct (_validate_source b _ _ _ _ _ _ _) as [[] fs1];
      simpl; [|done].
    rewrite E2. destruct (_validate_cross_source b _ _ _ _ _) as [[] fs2];
      simpl; [|done].
    rewrite E3. destruct (_validate_temporal b _ _ _ _ _ _) as [[[] fs3]|e];
      simpl; [| done | done].
    rewrite E4. destruct (_validate_consensus b _ _ _ _ _) as [[] fs4];
      simpl; [|done].
    destruct E5 as [E5 E5'].
    destruct Hsg as [-> | ->]; simpl;
      destruct (_update_source_stats a sid v ts) as [a2|ea] eqn:Ea;
      destruct (_update_source_stats b sid v ts) as [b2|eb] eqn:Eb;
      simpl in *; try done;
      specialize (E5' _ eq_refl); congruence. }
  split; apply H; auto.
Qed.

Lemma sorted_constant c l :
  Forall (fun x => x = c) l -> Py.sorted l = l.
Proof.
  induction 1 as [|x l -> Hl IH]; [done|].
  unfold Py.sorted in *. simpl. rewrite IH.
  destruct Hl as [|y l' -> _]; [done|].
  simpl. by rewrite decide_True by lra.
Qed.

Lemma nth_constant c l k :
  Forall (fun x => x = c) l -> (k < length l)%nat -> nth k l 0 = c.
Proof.
  intros Hl. revert k. induction Hl as [|x l -> _ IH]; intros k Hk;
    [simpl in Hk; lia|].
  destruct k as [|k]; [done|]. simpl. apply IH. simpl in Hk. lia.
Qed.

(** The median of equal numbers is their value. *)
Lemma median_constant c l :
  Forall (fun x => x = c) l -> l <> [] -> Py.np_median l = c.
Proof.
  intros Hl Hne. unfold Py.np_median. rewrite (sorted_constant c) by done.
  assert (Hn : (1 <= length l)%nat) by (destruct l; [done|simpl; lia]).
  destruct (Nat.even (length l)) eqn:Ee.
  - assert (Hdiv : (length l / 2 < length l)%nat)
      by (apply Nat.div_lt; lia).
    rewrite !(nth_constant c) by (done || lia). lra.
  - apply nth_constant; [done|]. apply Nat.div_lt; lia.
Qed.

(** Equal numbers do not deviate from their median. *)
Lemma mad_constant c l :
  Forall (fun x => x = c) l -> Py.median_abs_deviation l = 0.
Proof.
  intros Hl. unfold Py.median_abs_deviation.
  destruct l as [|x l'] eqn:El; [unfold Py.np_median; simpl; lra|].
  rewrite <- El in *.
  assert (Hne : l <> []) by (rewrite El; done).
  rewrite (median_constant c l Hl Hne).
  apply (median_constant 0).
  - apply Forall_map. eapply Forall_impl; [exact Hl|].
    intros y ->. simpl. replace (c - c) with 0 by lra. apply Rabs_R0.
  - rewrite El. done.
Qed.

(** X30.  When the means of all sources with statistics are equal, the
    consensus stage turns no point down, however far its value lies
    from that mean: the median absolute deviation is 0 and the
    deviation of the value is not looked at. *)
Theorem consensus_stage_passes_when_sources_agree
    self sid source_type v now fs c :
  Forall (fun kv => mean (snd kv) = c) (_source_stats self) ->
  _validate_consensus self sid source_type v now fs = (true, fs).
Proof.
  intros Hall. unfold _validate_consensus.
  case_bool_decide; [done|].
  rewrite (mad_constant c) by (by apply Forall_map).
  rewrite bool_decide_eq_false_2 by lra. done.
Qed.

(** Three sources whose statistics have the mean 100. *)
Definition steady_stats : SourceStats :=
  {| mean := 100; std_dev := 0; min_value := 100; max_value := 100;
     last_update := 0; update_frequency := 60; confidence_score := 1 |}.

Definition agreeing_service : ValidationService :=
  with_stats init
    [("a"%string, steady_stats); ("b"%string, steady_stats);
     ("c"%string, steady_stats)].

Lemma consensus_stage_passes_when_sources_agree_witness :
  _validate_consensus agreeing_service "d" "sensor" 5000 1000 [] = (true, []).
Proof.
  apply (consensus_stage_passes_when_sources_agree agreeing_service "d"
           "sensor" 5000 1000 [] 100).
  by repeat constructor.
Defined.

End LaterStages.

Section AcceptedPoints.
Import Validation.
Local Open Scope R_scope.
Variable verify : RSAPublicKey -> bytes -> string -> R -> Z -> result unit.

(** No finding of the list is Critical or High. *)
Definition mild (fs : list ValidationFinding) : Prop :=
  Forall (fun f => blocking (f_severity f) = false) fs.

Lemma mild_snoc fs f :
  mild fs -> blocking (f_severity f) = false -> mild (fs ++ [f]).
Proof. intros Hfs Hf. apply Forall_app. split; [done|]. by constructor. Qed.

Lemma source_rules_accepts rules sid v ts md now ok fs fs' :
  source_rules rules sid v ts md now ok fs = (true, fs') ->
  ok = true /\ (mild fs -> mild fs').
Proof.
  revert ok fs. induction rules as [|rule rules IH]; intros ok fs.
  - simpl. by intros [= -> ->].
  - simpl. destruct (condition rule _) as [[]|e]; intros H.
    + by apply IH in H.
    + apply IH in H as [Hok Hm].
      destruct (blocking (severity rule)) eqn:Eb; [done|].
      split; [done|]. intros Hfs. apply Hm. by apply mild_snoc.
    + by apply IH in H as [? _].
Qed.

Lemma cross_source_accepts self sid sty v now fs fs' :
  _validate_cross_source self sid sty v now fs = (true, fs') -> fs' = fs.
Proof.
  unfold _validate_cross_source.
  repeat case_bool_decide; by intros [= <-].
Qed.

Lemma consensus_accepts self sid sty v now fs fs' :
  _validate_consensus self sid sty v now fs = (true, fs') -> fs' = fs.
Proof.
  unfold _validate_consensus.
  repeat case_bool_decide; by intros [= <-].
Qed.

Lemma cryptographic_accepts self sid v ts sg now fs fs' :
  _validate_cryptographic verify self sid v ts sg now fs = (true, fs') ->
  fs' = fs.
Proof.
  unfold _validate_cryptographic.
  destruct (_source_signatures self !! sid); [|by intros [= <-]].
  destruct (verify _ _ _ _ _) as [|e]; [by intros [= <-]|].
  by destruct (exn_class e).
Qed.

Lemma temporal_accepts self sid sty v ts now fs fs' :
  _validate_temporal self sid sty v ts now fs = Ok (true, fs') ->
  mild fs -> mild fs'.
Proof.
  unfold _validate_temporal.
  destruct (_historical_data self !! sid) as [history|]; [|by intros [= <-]].
  case_bool_decide; [by intros [= <-]|].
  destruct (rapid_change self sid history v ts now fs) as [[ok1 fs1]|] eqn:Er;
    [|done].
  simpl. destruct (pattern_break sid history v now fs1) as [fs2|] eqn:Ep;
    [|done].
  simpl. intros [= -> ->] Hfs.
  assert (fs1 = fs) as ->.
  { revert Er. unfold rapid_change.
    destruct (history !! _) as [[lt lv]|]; [|by intros [= <-]].
    repeat case_bool_decide; try by intros [= <-].
    destruct (Py.div _ _) as [rate|]; [|done]. simpl.
    case_bool_decide; by intros [= <-]. }
  revert Ep. unfold pattern_break.
  case_bool_decide; [|by intros [= <-]].
  destruct (last _) as [lastv|]; [|by intros [= <-]].
  destruct (Py.div _ _) as [ratio|]; [|done]. simpl.
  case_bool_decide; intros [= <-]; [|done].
  by apply mild_snoc.
Qed.

(** X29.  A point that [validate_data_point] accepts comes with
    findings of Medium and Low severity only: every Critical or High
    finding of a stage ends the call with a rejection. *)
Theorem accepted_points_carry_no_blocking_finding
    self sid sty v ts md sg now fs :
  fst (validate_data_point verify self sid sty v ts md sg now) = Ok (true, fs) ->
  Forall (fun f => f_severity f = MEDIUM \/ f_severity f = LOW) fs.
Proof.
  intros H.
  assert (Hm : mild fs).
  { revert H. unfold validate_data_point.
    set (self1 := record_point self sid v ts now).
    destruct (stages verify self1 sid sty v ts md sg now) as [[ok fs0]|] eqn:Es;
      [|done].
    destruct ok; [|done].
    intros H. assert (fs0 = fs) as ->.
    { destruct (_update_source_stats _ _ _ _); simpl in H; congruence. }
    clear H. revert Es. unfold stages.
    destruct (_validate_source _ _ _ _ _ _ _ _) as [ok1 fs1] eqn:E1.
    destruct ok1; simpl; [|done].
    apply source_rules_accepts in E1 as [_ H1].
    specialize (H1 ltac:(constructor)).
    destruct (_validate_cross_source _ _ _ _ _ _) as [ok2 fs2] eqn:E2.
    destruct ok2; simpl; [|done].
    apply cross_source_accepts in E2 as ->.
    destruct (_validate_temporal _ _ _ _ _ _ _) as [[ok3 fs3]|] eqn:E3; [|done].
    simpl. destruct ok3; simpl; [|done].
    pose proof (temporal_accepts _ _ _ _ _ _ _ _ E3 H1) as H3.
    destruct (_validate_consensus _ _ _ _ _ _) as [ok4 fs4] eqn:E4.
    destruct ok4; simpl; [|done].
    apply consensus_accepts in E4 as ->.
    destruct sg as [[|b sig]|].
    - by intros [= <-].
    - destruct (_validate_cryptographic _ _ _ _ _ _ _ _) as [ok5 fs5] eqn:E5.
      destruct ok5; simpl; [|done].
      apply cryptographic_accepts in E5 as ->. by intros [= <-].
    - by intros [= <-]. }
  eapply Forall_impl; [exact Hm|]. intros f Hf. simpl in Hf.
  destruct (f_severity f); simpl in Hf; auto; done.
Qed.

End AcceptedPoints.

(** The finding of the rule [limit_rule]. *)
Definition limit_finding : Validation.ValidationFinding :=
  {| Validation.f_rule_id := Some 6%N; Validation.f_source_id := "s1";
     Validation.f_stage := Validation.SOURCE;
     Validation.f_severity := Validation.LOW;
     Validation.anomaly_type := Some Validation.STATISTICAL_OUTLIER;
     Validation.message := "Source validation failed: Value within the limit";
     Validation.f_timestamp := 1000 |}.

Lemma applicable_rules_with_limit :
  List.filter (fun rule => Validation.applies rule "sensor")
    (dict_values
       (Validation._rules
          (ValidationConfig.add_validation_rule Validation.init limit_rule)))
  = match Validation.default_rules with
    | (_, r) :: _ => [r; limit_rule]
    | [] => []
    end.
Proof. vm_compute. reflexivity. Qed.

(** On a validator with the rule [limit_rule] added, the first point of
    a "sensor" source, of value 5000, is accepted with the Low finding
    of that rule. *)
Lemma flagged_point_accepted :
  fst (Validation.validate_data_point no_keys
         (ValidationConfig.add_validation_rule Validation.init limit_rule)
         "s1" "sensor" 5000 1000 [] None 1000)
  = Ok (true, [limit_finding]).
Proof.
  unfold Validation.validate_data_point, Validation.stages,
    Validation._validate_source.
  change (Validation._rules
            (Validation.record_point
               (ValidationConfig.add_validation_rule Validation.init limit_rule)
               "s1" 5000 1000 1000))
    with (Validation._rules
            (ValidationConfig.add_validation_rule Validation.init limit_rule)).
  cbv zeta. rewrite applicable_rules_with_limit.
  simpl Validation.source_rules.
  unfold Validation.cond_between, Validation.cond_le,
    Validation.build_context. simpl.
  rewrite bool_decide_eq_true_2 by lra. simpl.
  rewrite bool_decide_eq_false_2 by lra. simpl.
  unfold Validation._update_source_stats. simpl.
  rewrite lookup_insert_eq. simpl. reflexivity.
Qed.

Lemma accepted_points_carry_no_blocking_finding_witness :
  Forall (fun f => Validation.f_severity f = Validation.MEDIUM \/
                   Validation.f_severity f = Validation.LOW) [limit_finding].
Proof.
  apply (accepted_points_carry_no_blocking_finding no_keys
           (ValidationConfig.add_validation_rule Validation.init limit_rule)
           "s1" "sensor" 5000 1000 [] None 1000 [limit_finding]).
  apply flagged_point_accepted.
Defined.
